(** * XcbNativeWindow: the window-manager protocol of the XCB native window

    A shallow embedding of
    [Code/Framework/AzFramework/Platform/Common/Xcb/AzFramework/XcbNativeWindow.cpp]
    and the properties of its protocol state machine.

    The window object is a record, the connection peer (X server, window
    manager, settings registry, file system) is a second record, and every
    method is a computation that threads both and writes, in program order,
    the requests and notifications it issues.

    Left out of the embedding: the constructor, which only fetches the
    connection; the release of memory (free, the smart pointers); the
    AZ_Assert lines, which are diagnostics of builds with tracing, send no
    message and leave the object alone; the error path of libpng. *)

From Stdlib Require Import ZArith Lia Bool.
From stdpp Require Import base option list gmap strings.

Local Open Scope Z_scope.

(** ** Constants of the X protocol headers (xcb/xproto.h, xcb/xcb_image.h) *)

Definition XCB_NONE : Z := 0.
Definition XCB_EXPOSE : Z := 12.
Definition XCB_CONFIGURE_NOTIFY : Z := 22.
Definition XCB_CLIENT_MESSAGE : Z := 33.
Definition XCB_ATOM_ATOM : Z := 4.
Definition XCB_ATOM_CARDINAL : Z := 6.
Definition XCB_PROP_MODE_REPLACE : Z := 0.
Definition XCB_EVENT_MASK_STRUCTURE_NOTIFY : Z := 131072.
Definition XCB_EVENT_MASK_SUBSTRUCTURE_REDIRECT : Z := 1048576.
Definition XCB_IMAGE_FORMAT_Z_PIXMAP : Z := 2.

(** ** Constants of the translation unit (lines 25-30) *)

Definition s_XcbFormatDataSize : Z := 32.
Definition s_DefaultXcbWindowBorderWidth : Z := 4.
Definition _NET_WM_STATE_REMOVE : Z := 0.
Definition _NET_WM_STATE_ADD : Z := 1.
Definition _NET_WM_STATE_TOGGLE : Z := 2.

(** ** Fixed-width integers *)

Definition to_uint8 (z : Z) : Z := z mod 2 ^ 8.
Definition to_uint16 (z : Z) : Z := z mod 2 ^ 16.
Definition to_uint32 (z : Z) : Z := z mod 2 ^ 32.
Definition to_int16 (z : Z) : Z := (z + 2 ^ 15) mod 2 ^ 16 - 2 ^ 15.

(** A signed 32-bit result; overflow of [int] arithmetic is undefined in the
    source and has no value here. *)
Definition int_value (z : Z) : option Z :=
  if decide (- 2 ^ 31 <= z < 2 ^ 31) then Some z else None.

(** ** Events as the server delivers them *)

(** The five 32-bit words of [xcb_client_message_data_t]. *)
Record xcb_client_message_data_t := {
  data32_0 : Z;
  data32_1 : Z;
  data32_2 : Z;
  data32_3 : Z;
  data32_4 : Z;
}.

Definition data32 (d : xcb_client_message_data_t) : list Z :=
  [data32_0 d; data32_1 d; data32_2 d; data32_3 d; data32_4 d].

Record xcb_client_message_event_t := {
  cme_response_type : Z;
  cme_format : Z;
  cme_sequence : Z;
  cme_window : Z;
  cme_type : Z;
  cme_data : xcb_client_message_data_t;
}.

Record xcb_configure_notify_event_t := {
  cne_response_type : Z;
  cne_event : Z;
  cne_window : Z;
  cne_x : Z;
  cne_y : Z;
  cne_width : Z;
  cne_height : Z;
}.

Record xcb_expose_event_t := {
  exp_response_type : Z;
  exp_window : Z;
  exp_x : Z;
  exp_y : Z;
  exp_width : Z;
  exp_height : Z;
}.

(** [xcb_generic_event_t]: the constructor records which layout the server
    filled in; the code reads the layout after looking at the response
    type. *)
Inductive xcb_generic_event_t :=
| ConfigureNotifyEvent (cne : xcb_configure_notify_event_t)
| ClientMessageEvent (cme : xcb_client_message_event_t)
| ExposeEvent (x : xcb_expose_event_t)
| OtherEvent (response_type : Z).

Definition response_type (ev : xcb_generic_event_t) : Z :=
  match ev with
  | ConfigureNotifyEvent cne => cne_response_type cne
  | ClientMessageEvent cme => cme_response_type cme
  | ExposeEvent x => exp_response_type x
  | OtherEvent r => r
  end.

(** ** Replies *)

Record xcb_get_property_reply_t := {
  gpr_format : Z;
  gpr_type : Z;
  (* the value in 32-bit words; the [length] field is their number *)
  gpr_value : list Z;
}.

Record xcb_generic_error_t := { error_code : Z }.

(** ** The window object *)

Record xcb_screen_t := {
  root : Z;
  root_visual : Z;
  root_depth : Z;
  black_pixel : Z;
}.

(** The atom members of the class, in the order [InitializeAtoms] fills
    them. *)
Record WmAtoms := {
  _NET_ACTIVE_WINDOW : Z;
  _NET_WM_BYPASS_COMPOSITOR : Z;
  WM_PROTOCOLS : Z;
  WM_DELETE_WINDOW : Z;
  _NET_WM_PING : Z;
  _NET_WM_STATE : Z;
  _NET_WM_STATE_FULLSCREEN : Z;
  _NET_WM_STATE_MAXIMIZED_VERT : Z;
  _NET_WM_STATE_MAXIMIZED_HORZ : Z;
  _NET_MOVERESIZE_WINDOW : Z;
  _NET_REQUEST_FRAME_EXTENTS : Z;
  _NET_FRAME_EXTENTS : Z;
  _NET_WM_PID : Z;
}.

Record XcbNativeWindow := {
  m_xcbRootScreen : xcb_screen_t;
  m_xcbWindow : Z;
  m_xcbGraphicContext : Z;
  m_posX : Z;
  m_posY : Z;
  m_width : Z;
  m_height : Z;
  m_activated : bool;
  m_enableCustomizedResolution : bool;
  m_fullscreenState : bool;
  m_horizontalyMaximized : bool;
  m_verticallyMaximized : bool;
  atoms : WmAtoms;
}.

Definition set_size (width height : Z) (w : XcbNativeWindow) : XcbNativeWindow :=
  {| m_xcbRootScreen := m_xcbRootScreen w; m_xcbWindow := m_xcbWindow w;
     m_xcbGraphicContext := m_xcbGraphicContext w;
     m_posX := m_posX w; m_posY := m_posY w;
     m_width := width; m_height := height;
     m_activated := m_activated w;
     m_enableCustomizedResolution := m_enableCustomizedResolution w;
     m_fullscreenState := m_fullscreenState w;
     m_horizontalyMaximized := m_horizontalyMaximized w;
     m_verticallyMaximized := m_verticallyMaximized w;
     atoms := atoms w |}.

Definition set_activated (b : bool) (w : XcbNativeWindow) : XcbNativeWindow :=
  {| m_xcbRootScreen := m_xcbRootScreen w; m_xcbWindow := m_xcbWindow w;
     m_xcbGraphicContext := m_xcbGraphicContext w;
     m_posX := m_posX w; m_posY := m_posY w;
     m_width := m_width w; m_height := m_height w;
     m_activated := b;
     m_enableCustomizedResolution := m_enableCustomizedResolution w;
     m_fullscreenState := m_fullscreenState w;
     m_horizontalyMaximized := m_horizontalyMaximized w;
     m_verticallyMaximized := m_verticallyMaximized w;
     atoms := atoms w |}.

Definition set_fullscreenState (b : bool) (w : XcbNativeWindow) : XcbNativeWindow :=
  {| m_xcbRootScreen := m_xcbRootScreen w; m_xcbWindow := m_xcbWindow w;
     m_xcbGraphicContext := m_xcbGraphicContext w;
     m_posX := m_posX w; m_posY := m_posY w;
     m_width := m_width w; m_height := m_height w;
     m_activated := m_activated w;
     m_enableCustomizedResolution := m_enableCustomizedResolution w;
     m_fullscreenState := b;
     m_horizontalyMaximized := m_horizontalyMaximized w;
     m_verticallyMaximized := m_verticallyMaximized w;
     atoms := atoms w |}.

Definition set_horizontalyMaximized (b : bool) (w : XcbNativeWindow) : XcbNativeWindow :=
  {| m_xcbRootScreen := m_xcbRootScreen w; m_xcbWindow := m_xcbWindow w;
     m_xcbGraphicContext := m_xcbGraphicContext w;
     m_posX := m_posX w; m_posY := m_posY w;
     m_width := m_width w; m_height := m_height w;
     m_activated := m_activated w;
     m_enableCustomizedResolution := m_enableCustomizedResolution w;
     m_fullscreenState := m_fullscreenState w;
     m_horizontalyMaximized := b;
     m_verticallyMaximized := m_verticallyMaximized w;
     atoms := atoms w |}.

Definition set_verticallyMaximized (b : bool) (w : XcbNativeWindow) : XcbNativeWindow :=
  {| m_xcbRootScreen := m_xcbRootScreen w; m_xcbWindow := m_xcbWindow w;
     m_xcbGraphicContext := m_xcbGraphicContext w;
     m_posX := m_posX w; m_posY := m_posY w;
     m_width := m_width w; m_height := m_height w;
     m_activated := m_activated w;
     m_enableCustomizedResolution := m_enableCustomizedResolution w;
     m_fullscreenState := m_fullscreenState w;
     m_horizontalyMaximized := m_horizontalyMaximized w;
     m_verticallyMaximized := b;
     atoms := atoms w |}.

Definition set_atoms (a : WmAtoms) (w : XcbNativeWindow) : XcbNativeWindow :=
  {| m_xcbRootScreen := m_xcbRootScreen w; m_xcbWindow := m_xcbWindow w;
     m_xcbGraphicContext := m_xcbGraphicContext w;
     m_posX := m_posX w; m_posY := m_posY w;
     m_width := m_width w; m_height := m_height w;
     m_activated := m_activated w;
     m_enableCustomizedResolution := m_enableCustomizedResolution w;
     m_fullscreenState := m_fullscreenState w;
     m_horizontalyMaximized := m_horizontalyMaximized w;
     m_verticallyMaximized := m_verticallyMaximized w;
     atoms := a |}.

(** ** What a method leaves behind: requests, notifications, log lines *)

Record xcb_image_t := {
  image_width : Z;
  image_height : Z;
  image_format : Z;
  image_depth : Z;
  image_size : Z;
  image_data : list Byte.byte;
}.

Inductive Request :=
| InternAtom (only_if_exists name_len : Z) (name : string)
| ChangeProperty (checked : bool) (mode window property type format data_len : Z)
    (data : list Z)
| GetProperty (delete window property type long_offset long_length : Z)
| SendEvent (propagate destination event_mask : Z) (event : xcb_client_message_event_t)
| MapWindow (window : Z)
| UnmapWindow (window : Z)
| ConfigureWindow (window value_mask : Z) (values : list Z)
| CreatePixmap (depth pid drawable width height : Z)
| PutImage (drawable gc : Z) (image : xcb_image_t) (x y left_pad : Z)
| CopyArea (src dst gc src_x src_y dst_x dst_y width height : Z)
| FreePixmap (pixmap : Z).

Inductive Effect :=
| Xcb (r : Request)
| Flush
| WaitForEvent
| OnWindowClosed (handle : Z)
| OnWindowResized (handle width height : Z)
| OnResolutionChanged (handle width height : Z)
| ExitMainLoop
| BusConnect
| BusDisconnect
| Printf (format : string)
| Trace (window format : string).

(** The requests among the effects, and the client messages among those. *)
Definition requests (t : list Effect) : list Request :=
  omap (λ e, match e with Xcb r => Some r | _ => None end) t.

Definition client_messages (t : list Effect) : list (Z * xcb_client_message_event_t) :=
  omap (λ r, match r with
             | SendEvent _ destination _ event => Some (destination, event)
             | _ => None
             end) (requests t).

(** The calls on the notification bus and the application bus. *)
Definition is_notification (e : Effect) : bool :=
  match e with
  | OnWindowClosed _ | OnWindowResized _ _ _ | OnResolutionChanged _ _ _
  | ExitMainLoop => true
  | _ => false
  end.

Definition notifications (t : list Effect) : list Effect :=
  List.filter is_notification t.

(** ** The peer of the window: server, window manager, host *)

(** What [fopen] and libpng hand over for a readable PNG file: the header
    sizes and the decoded rows, [png_get_rowbytes] bytes each. *)
Record png_image := {
  png_width : Z;
  png_height : Z;
  png_rows : list (list Byte.byte);
}.

Record World := {
  (* the server's atom table: InternAtom names and the last atom given out *)
  atom_table : gmap string Z;
  last_atom : Z;
  (* the connection is shut down: no request is answered any more *)
  has_error : bool;
  (* the last resource id handed out by xcb_generate_id *)
  last_xid : Z;
  (* what xcb_get_property_reply returns for the _NET_WM_STATE query: the
     reply pointer and the error out-parameter *)
  net_wm_state_reply : option xcb_get_property_reply_t;
  net_wm_state_error : option xcb_generic_error_t;
  (* the server's verdict on a checked request (xcb_request_check) *)
  request_check : Request → option xcb_generic_error_t;
  (* events the connection will deliver to xcb_wait_for_event *)
  event_queue : list xcb_generic_event_t;
  (* AZ::SettingsRegistry::Get(); None when no registry is installed *)
  settingsRegistry : option (gmap string string);
  (* the PNG files fopen can open *)
  files : gmap string png_image;
  (* the bytes a fresh malloc block happens to hold, by offset *)
  fresh_memory : nat → Byte.byte;
  (* the 32-bit words memory happens to hold behind a local variable, by
     word offset *)
  stack_words : nat → Z;
}.

Definition set_atom_table (t : gmap string Z) (last : Z) (h : World) : World :=
  {| atom_table := t; last_atom := last; has_error := has_error h;
     last_xid := last_xid h;
     net_wm_state_reply := net_wm_state_reply h;
     net_wm_state_error := net_wm_state_error h;
     request_check := request_check h; event_queue := event_queue h;
     settingsRegistry := settingsRegistry h; files := files h;
     fresh_memory := fresh_memory h; stack_words := stack_words h |}.

Definition set_last_xid (x : Z) (h : World) : World :=
  {| atom_table := atom_table h; last_atom := last_atom h;
     has_error := has_error h; last_xid := x;
     net_wm_state_reply := net_wm_state_reply h;
     net_wm_state_error := net_wm_state_error h;
     request_check := request_check h; event_queue := event_queue h;
     settingsRegistry := settingsRegistry h; files := files h;
     fresh_memory := fresh_memory h; stack_words := stack_words h |}.

Definition set_event_queue (q : list xcb_generic_event_t) (h : World) : World :=
  {| atom_table := atom_table h; last_atom := last_atom h;
     has_error := has_error h; last_xid := last_xid h;
     net_wm_state_reply := net_wm_state_reply h;
     net_wm_state_error := net_wm_state_error h;
     request_check := request_check h; event_queue := q;
     settingsRegistry := settingsRegistry h; files := files h;
     fresh_memory := fresh_memory h; stack_words := stack_words h |}.

(** ** Methods as computations

    A method takes the window object and the world and returns its value,
    both updated, and the effects it issued in program order. [None]: the
    call has no result, because it waits for an event that never comes or
    because the source leaves the behaviour undefined (an access out of
    bounds by a statement of the method, signed overflow, a cast to a layout
    the event does not have). Where the method hands libxcb a pointer and a
    length that reaches beyond the object, the request is sent and carries
    the words memory holds there, which the world supplies. *)

Definition M (A : Type) : Type :=
  XcbNativeWindow → World → option (A * XcbNativeWindow * World * list Effect).

Global Instance M_ret : MRet M := λ A a w h, Some (a, w, h, []).

Global Instance M_bind : MBind M := λ A B f m w h,
  match m w h with
  | None => None
  | Some (a, w1, h1, t1) =>
      match f a w1 h1 with
      | None => None
      | Some (b, w2, h2, t2) => Some (b, w2, h2, t1 ++ t2)
      end
  end.

Definition get_this : M XcbNativeWindow := λ w h, Some (w, w, h, []).
Definition modify_this (f : XcbNativeWindow → XcbNativeWindow) : M unit :=
  λ w h, Some (tt, f w, h, []).
Definition get_world : M World := λ w h, Some (h, w, h, []).
Definition modify_world (f : World → World) : M unit :=
  λ w h, Some (tt, w, f h, []).
Definition emit (e : Effect) : M unit := λ w h, Some (tt, w, h, [e]).
Definition no_result {A} : M A := λ _ _, None.
Definition defined {A} (o : option A) : M A :=
  match o with Some a => mret a | None => no_result end.

(** [for (auto x : l) body(x)] *)
Fixpoint for_each {A} (l : list A) (body : A → M unit) : M unit :=
  match l with
  | [] => mret tt
  | x :: l' => body x;; for_each l' body
  end.

(** ** Thin wrappers of the xcb calls the methods make *)

Definition xcb_flush : M unit := emit Flush.

Definition xcb_generate_id : M Z :=
  h ← get_world;
  let id := last_xid h + 1 in
  modify_world (set_last_xid id);;
  mret id.

Definition xcb_send_event (propagate destination event_mask : Z)
    (event : xcb_client_message_event_t) : M unit :=
  emit (Xcb (SendEvent propagate destination event_mask event)).

(** The server's side of InternAtom (X protocol): the first [name_len]
    characters name the atom; with [only_if_exists] clear, an unknown name
    gets the next atom. A connection that is shut down gives no reply. *)
Definition xcb_intern_atom_reply (name_len : Z) (name : string) : M (option Z) :=
  h ← get_world;
  if has_error h then mret None
  else
    let key := String.substring 0 (Z.to_nat name_len) name in
    match atom_table h !! key with
    | Some a => mret (Some a)
    | None =>
        let a := last_atom h + 1 in
        modify_world (set_atom_table (<[key := a]> (atom_table h)) a);;
        mret (Some a)
    end.

(** ** XcbNativeWindow::GetAtom (lines 140-152) *)

Definition XcbErrorWindow : string := "XcbNativeWindow".

Definition GetAtom (atomName : string) : M Z :=
  let name_len := to_uint16 (Z.of_nat (String.length atomName)) in
  emit (Xcb (InternAtom 0 name_len atomName));;
  xkbinternAtom ← xcb_intern_atom_reply name_len atomName;
  match xkbinternAtom with
  | None =>
      emit (Trace XcbErrorWindow "Unable to query xcb '%s' atom");;
      mret XCB_NONE
  | Some atom => mret atom
  end.

(** ** XcbNativeWindow::SetAtom (lines 154-165)

    [data] holds the [len] words libxcb reads from the pointer it is
    given. *)

Definition SetAtom (window atom type len : Z) (data : list Z) : M Z :=
  let request :=
    ChangeProperty true XCB_PROP_MODE_REPLACE window atom type 32 len data in
  emit (Xcb request);;
  h ← get_world;
  match request_check h request with
  | None => mret 0
  | Some xkbError => mret (error_code xkbError)
  end.

(** ** XcbNativeWindow::InitializeAtoms (lines 169-203)

    The thirteen members are assigned in the order of the source; they are
    gathered here and stored at the end, nothing in between reads the
    object except the three atoms of the WM_PROTOCOLS write. *)

Definition InitializeAtoms : M unit :=
  w ← get_this;
  net_active_window ← GetAtom "_NET_ACTIVE_WINDOW";
  net_wm_bypass_compositor ← GetAtom "_NET_WM_BYPASS_COMPOSITOR";
  wm_protocols ← GetAtom "WM_PROTOCOLS";
  wm_delete_window ← GetAtom "WM_DELETE_WINDOW";
  net_wm_ping ← GetAtom "_NET_WM_PING";
  let atoms_ := [wm_delete_window; net_wm_ping] in
  emit (Xcb (ChangeProperty false XCB_PROP_MODE_REPLACE (m_xcbWindow w)
               wm_protocols XCB_ATOM_ATOM 32 (Z.of_nat (length atoms_)) atoms_));;
  xcb_flush;;
  net_wm_state ← GetAtom "_NET_WM_STATE";
  net_wm_state_fullscreen ← GetAtom "_NET_WM_STATE_FULLSCREEN";
  net_wm_state_maximized_vert ← GetAtom "_NET_WM_STATE_MAXIMIZED_VERT";
  net_wm_state_maximized_horz ← GetAtom "_NET_WM_STATE_MAXIMIZED_HORZ";
  net_moveresize_window ← GetAtom "_NET_MOVERESIZE_WINDOW";
  net_request_frame_extents ← GetAtom "_NET_REQUEST_FRAME_EXTENTS";
  net_frame_extents ← GetAtom "_NET_FRAME_EXTENTS";
  net_wm_pid ← GetAtom "_NET_WM_PID";
  modify_this (set_atoms
    {| _NET_ACTIVE_WINDOW := net_active_window;
       _NET_WM_BYPASS_COMPOSITOR := net_wm_bypass_compositor;
       WM_PROTOCOLS := wm_protocols;
       WM_DELETE_WINDOW := wm_delete_window;
       _NET_WM_PING := net_wm_ping;
       _NET_WM_STATE := net_wm_state;
       _NET_WM_STATE_FULLSCREEN := net_wm_state_fullscreen;
       _NET_WM_STATE_MAXIMIZED_VERT := net_wm_state_maximized_vert;
       _NET_WM_STATE_MAXIMIZED_HORZ := net_wm_state_maximized_horz;
       _NET_MOVERESIZE_WINDOW := net_moveresize_window;
       _NET_REQUEST_FRAME_EXTENTS := net_request_frame_extents;
       _NET_FRAME_EXTENTS := net_frame_extents;
       _NET_WM_PID := net_wm_pid |}).

(** ** XcbNativeWindow::GetWMStates (lines 205-244) *)

Definition GetWMStates_failed (error : option xcb_generic_error_t) : M unit :=
  emit (Trace "ApplicationLinux"
          "Acquiring _NET_WM_STATE information from the WM failed.");;
  match error with
  | Some _ => emit (Trace "Error" "Error code %d")
  | None => mret tt
  end.

Definition GetWMStates : M unit :=
  w ← get_this;
  h ← get_world;
  emit (Xcb (GetProperty 0 (m_xcbWindow w) (_NET_WM_STATE (atoms w))
               XCB_ATOM_ATOM 0 1024));;
  let error := net_wm_state_error h in
  match net_wm_state_reply h, error with
  | Some xkbGetPropertyReply, None =>
      if (gpr_format xkbGetPropertyReply =? 32)
         && (gpr_type xkbGetPropertyReply =? XCB_ATOM_ATOM)
      then
        modify_this (set_fullscreenState false);;
        modify_this (set_horizontalyMaximized false);;
        modify_this (set_verticallyMaximized false);;
        for_each (gpr_value xkbGetPropertyReply) (λ state,
          if state =? _NET_WM_STATE_FULLSCREEN (atoms w)
          then modify_this (set_fullscreenState true)
          else if state =? _NET_WM_STATE_MAXIMIZED_HORZ (atoms w)
          then modify_this (set_horizontalyMaximized true)
          else if state =? _NET_WM_STATE_MAXIMIZED_VERT (atoms w)
          then modify_this (set_verticallyMaximized true)
          else mret tt)
      else GetWMStates_failed error
  | _, _ => GetWMStates_failed error
  end.

(** ** XcbNativeWindow::DrawSplash (lines 246-354) *)

(** [for (int i = 0; i < n; i++) s = body(i, s)], stopping without a value
    as soon as an iteration has none. *)
Fixpoint for_loop {S} (n : nat) (body : Z → S → option S) (s : S) : option S :=
  match n with
  | O => Some s
  | S k => s' ← for_loop k body s; body (Z.of_nat k) s'
  end.

(** [malloc(size)]: a block of [size] bytes holding whatever the heap held. *)
Definition malloc (h : World) (size : Z) : list Byte.byte :=
  map (fresh_memory h) (seq 0 (Z.to_nat size)).

(** [p[i]] as an rvalue and [p[i] = b], inside the block only. *)
Definition load (p : list Byte.byte) (i : Z) : option Byte.byte :=
  if decide (0 <= i) then p !! Z.to_nat i else None.

Definition store (p : list Byte.byte) (i : Z) (b : Byte.byte) : option (list Byte.byte) :=
  if decide (0 <= i < Z.of_nat (length p)) then Some (<[Z.to_nat i := b]> p)
  else None.

(** The body of the inner loop (lines 296-300). *)
Definition put_pixel (width : Z) (row : list Byte.byte) (y x : Z)
    (data : list Byte.byte) : option (list Byte.byte) :=
  px ← int_value (x * 4);
  yw ← int_value (y * width);
  xyw ← int_value (x + yw);
  pixelIndex ← int_value (xyw * 4);
  px2 ← load row (px + 2);
  data ← store data (pixelIndex + 0) px2;
  px1 ← load row (px + 1);
  data ← store data (pixelIndex + 1) px1;
  px0 ← load row (px + 0);
  store data (pixelIndex + 2) px0.

(** The two nested loops (lines 292-303). *)
Definition compose_raster (width height : Z) (row_pointers : list (list Byte.byte))
    (data : list Byte.byte) : option (list Byte.byte) :=
  for_loop (Z.to_nat height) (λ y data,
    row ← row_pointers !! Z.to_nat y;
    for_loop (Z.to_nat width) (λ x data, put_pixel width row y x data) data)
  data.

Definition SplashLogoSetregPath : string := "/O3DE/xcb/SplashScreenImagePath".
Definition AssetsSetregPath : string := "/O3DE/Runtime/FilePaths/CacheProjectRootFolder".

(** [settingsRegistry && settingsRegistry->Get(value, path)] *)
Definition settings_get (h : World) (path : string) : option string :=
  registry ← settingsRegistry h; registry !! path.

(** The private receive loop (lines 322-349): every event is dropped until
    the first exposure, which is answered with the copy of the pixmap. *)
Fixpoint DrawSplash_wait (pixmap width height : Z)
    (queue : list xcb_generic_event_t) : M unit :=
  match queue with
  | [] => no_result
  | event :: queue' =>
      emit WaitForEvent;;
      modify_world (set_event_queue queue');;
      if Z.land (response_type event) (Z.lnot 128) =? XCB_EXPOSE then
        match event with
        | ExposeEvent x =>
            w ← get_this;
            emit (Xcb (CopyArea pixmap (m_xcbWindow w) (m_xcbGraphicContext w)
                         (to_int16 (exp_x x)) (to_int16 (exp_y x))
                         (to_int16 (to_uint32 (m_width w - width) / 2))
                         (to_int16 (to_uint32 (m_height w - height) / 2))
                         (exp_width x) (exp_height x)));;
            xcb_flush
        | _ => no_result
        end
      else DrawSplash_wait pixmap width height queue'
  end.

Definition DrawSplash : M unit :=
  w ← get_this;
  h ← get_world;
  match settings_get h SplashLogoSetregPath with
  | None => emit (Printf "SplashScreenImagePath not found\n")
  | Some splashScreenImagePath =>
  match settings_get h AssetsSetregPath with
  | None => emit (Printf "Failed to grab cache folder\n")
  | Some assetCachePath =>
  let splashScreenImagePath2 :=
    (assetCachePath +:+ "/linux/" +:+ splashScreenImagePath)%string in
  match files h !! splashScreenImagePath2 with
  | None => emit (Printf "Failed to open image %s \n")
  | Some fp =>
      let width := png_width fp in
      let height := png_height fp in
      let row_pointers := png_rows fp in
      width4 ← defined (int_value (width * 4));
      let stride := to_uint32 width4 in
      data ← defined (compose_raster width height row_pointers
                        (malloc h (to_uint32 (height * stride))));
      pixmap ← xcb_generate_id;
      let request :=
        CreatePixmap (root_depth (m_xcbRootScreen w)) pixmap (m_xcbWindow w)
          (to_uint16 width) (to_uint16 height) in
      emit (Xcb request);;
      match request_check h request with
      | Some error => emit (Printf "Error in xcb_create_pixmap: %d\n")
      | None =>
          bytes ← defined (int_value (width * height * 4));
          let image :=
            {| image_width := to_uint16 width; image_height := to_uint16 height;
               image_format := XCB_IMAGE_FORMAT_Z_PIXMAP; image_depth := 24;
               image_size := bytes; image_data := data |} in
          emit (Xcb (PutImage pixmap (m_xcbGraphicContext w) image 0 0 0));;
          xcb_flush;;
          h' ← get_world;
          DrawSplash_wait pixmap width height (event_queue h');;
          emit (Xcb (FreePixmap pixmap))
      end
  end end end.

(** ** XcbNativeWindow::Activate and Deactivate (lines 357-383) *)

Definition Activate : M unit :=
  emit BusConnect;;
  w ← get_this;
  if negb (m_activated w) then
    emit (Xcb (MapWindow (m_xcbWindow w)));;
    xcb_flush;;
    DrawSplash;;
    modify_this (set_activated true)
  else mret tt.

Definition Deactivate : M unit :=
  w ← get_this;
  (if m_activated w then
     modify_this (set_activated false);;
     emit (OnWindowClosed (m_xcbWindow w));;
     emit (Xcb (UnmapWindow (m_xcbWindow w)));;
     xcb_flush
   else mret tt);;
  emit BusDisconnect.

Definition GetWindowHandle : M Z := w ← get_this; mret (m_xcbWindow w).

(** ** XcbNativeWindow::WindowSizeChanged (lines 575-592) *)

Definition WindowSizeChanged (width height : Z) : M unit :=
  w ← get_this;
  if negb (m_width w =? width) || negb (m_height w =? height) then
    modify_this (set_size width height);;
    if m_activated w then
      emit (OnWindowResized (m_xcbWindow w) width height);;
      if negb (m_enableCustomizedResolution w) then
        handle ← GetWindowHandle;
        emit (OnResolutionChanged handle width height)
      else mret tt
    else mret tt
  else mret tt.

(** ** XcbNativeWindow::ResizeClientArea (lines 415-432) *)

Definition XCB_CONFIG_WINDOW_WIDTH : Z := 4.
Definition XCB_CONFIG_WINDOW_HEIGHT : Z := 8.

Definition ResizeClientArea (clientAreaSize_width clientAreaSize_height : Z) : M unit :=
  w ← get_this;
  let values := [clientAreaSize_width; clientAreaSize_height] in
  (if m_activated w then emit (Xcb (UnmapWindow (m_xcbWindow w))) else mret tt);;
  emit (Xcb (ConfigureWindow (m_xcbWindow w)
               (Z.lor XCB_CONFIG_WINDOW_WIDTH XCB_CONFIG_WINDOW_HEIGHT) values));;
  (if m_activated w then
     emit (Xcb (MapWindow (m_xcbWindow w)));; xcb_flush
   else mret tt);;
  WindowSizeChanged clientAreaSize_width clientAreaSize_height.

(** ** XcbNativeWindow::GetFullScreenState and SetFullScreenState
       (lines 449-513) *)

Definition GetFullScreenState : M bool := w ← get_this; mret (m_fullscreenState w).

(** The [n] words behind a local variable. *)
Definition words_behind (h : World) (n : nat) : list Z :=
  map (stack_words h) (seq 0 n).

Definition root_event_mask : Z :=
  Z.lor XCB_EVENT_MASK_STRUCTURE_NOTIFY XCB_EVENT_MASK_SUBSTRUCTURE_REDIRECT.

Definition SetFullScreenState (fullScreenState : bool) : M unit :=
  GetWMStates;;
  w ← get_this;
  let event :=
    {| cme_response_type := XCB_CLIENT_MESSAGE;
       cme_type := _NET_WM_STATE (atoms w);
       cme_window := m_xcbWindow w;
       cme_format := 32;
       cme_sequence := 0;
       cme_data :=
         {| data32_0 := if fullScreenState then _NET_WM_STATE_ADD
                        else _NET_WM_STATE_REMOVE;
            data32_1 := _NET_WM_STATE_FULLSCREEN (atoms w);
            data32_2 := 0;
            data32_3 := 1;
            data32_4 := 0 |} |} in
  xcb_send_event 1 (root (m_xcbRootScreen w)) root_event_mask event;;
  let _NET_WM_BYPASS_COMPOSITOR_HINT_ON := if m_fullscreenState w then 1 else 0 in
  (* the length passed is 32 and the pointer is that of the one [long], of
     eight bytes in little-endian order: the first word sent is its low
     half, the hint, the second its high half, 0, and the other 30 are what
     lies behind it *)
  h ← get_world;
  SetAtom (m_xcbWindow w) (_NET_WM_BYPASS_COMPOSITOR (atoms w)) XCB_ATOM_CARDINAL 32
    (_NET_WM_BYPASS_COMPOSITOR_HINT_ON :: 0 :: words_behind h 30);;
  (if negb fullScreenState then
     if m_horizontalyMaximized w || m_verticallyMaximized w then
       emit (Printf "Remove maximized state.\n");;
       let event :=
         {| cme_response_type := XCB_CLIENT_MESSAGE;
            cme_type := _NET_WM_STATE (atoms w);
            cme_window := m_xcbWindow w;
            cme_format := 32;
            cme_sequence := 0;
            cme_data :=
              {| data32_0 := _NET_WM_STATE_MAXIMIZED_VERT (atoms w);
                 data32_1 := _NET_WM_STATE_MAXIMIZED_HORZ (atoms w);
                 data32_2 := 0;
                 data32_3 := 0;
                 data32_4 := 0 |} |} in
       xcb_send_event 1 (root (m_xcbRootScreen w)) root_event_mask event
     else mret tt
   else mret tt);;
  xcb_flush;;
  modify_this (set_fullscreenState fullScreenState).

(** ** XcbNativeWindow::HandleXcbEvent (lines 528-572) *)

Section EventDispatch.

(** [s_XcbResponseTypeMask] is declared in XcbInterface.h, outside this
    translation unit; the dispatch is stated for any value of it. *)
Variable s_XcbResponseTypeMask : Z.

Definition HandleXcbEvent (event : xcb_generic_event_t) : M unit :=
  let code := Z.land (response_type event) s_XcbResponseTypeMask in
  if code =? XCB_CONFIGURE_NOTIFY then
    match event with
    | ConfigureNotifyEvent cne =>
        w ← get_this;
        if negb (cne_width cne =? m_width w) || negb (cne_height cne =? m_height w)
        then WindowSizeChanged (to_uint32 (cne_width cne)) (to_uint32 (cne_height cne))
        else mret tt
    | _ => no_result
    end
  else if code =? XCB_CLIENT_MESSAGE then
    match event with
    | ClientMessageEvent cme =>
        w ← get_this;
        if (cme_type cme =? WM_PROTOCOLS (atoms w))
           && (cme_format cme =? s_XcbFormatDataSize)
        then
          let protocolAtom := data32_0 (cme_data cme) in
          if protocolAtom =? WM_DELETE_WINDOW (atoms w) then
            Deactivate;;
            emit ExitMainLoop
          else if (protocolAtom =? _NET_WM_PING (atoms w))
                  && negb (cme_window cme =? root (m_xcbRootScreen w))
          then
            let reply :=
              {| cme_response_type := XCB_CLIENT_MESSAGE;
                 cme_format := cme_format cme;
                 cme_sequence := cme_sequence cme;
                 cme_window := root (m_xcbRootScreen w);
                 cme_type := cme_type cme;
                 cme_data := cme_data cme |} in
            xcb_send_event 0 (root (m_xcbRootScreen w)) root_event_mask reply;;
            xcb_flush
          else mret tt
        else mret tt
    | _ => no_result
    end
  else mret tt.

End EventDispatch.

(** ** Creation and destruction of the native window

    InitWindow, SetWindowTitle and the destructor issue requests the
    methods above never do (graphics context, window creation and
    destruction). They get a request type of their own, and their effects
    are those requests interleaved with the effects of the methods they
    call. *)

Definition XCB_ATOM_STRING : Z := 31.
Definition XCB_ATOM_WM_CLASS : Z := 67.
Definition XCB_COPY_FROM_PARENT : Z := 0.
Definition XCB_WINDOW_CLASS_INPUT_OUTPUT : Z := 1.
Definition XCB_GC_FOREGROUND : Z := 4.
Definition XCB_GC_GRAPHICS_EXPOSURES : Z := 65536.
Definition XCB_CW_BACK_PIXEL : Z := 2.
Definition XCB_CW_EVENT_MASK : Z := 2048.
Definition XCB_EVENT_MASK_KEY_PRESS : Z := 1.
Definition XCB_EVENT_MASK_KEY_RELEASE : Z := 2.
Definition XCB_EVENT_MASK_EXPOSURE : Z := 32768.
Definition XCB_EVENT_MASK_FOCUS_CHANGE : Z := 2097152.
Definition XCB_EVENT_MASK_PROPERTY_CHANGE : Z := 4194304.

Record WindowGeometry := {
  geometry_posX : Z;
  geometry_posY : Z;
  geometry_width : Z;
  geometry_height : Z;
}.

Record WindowStyleMasks := {
  m_platformAgnosticStyleMask : Z;
  m_platformSpecificStyleMask : Z;
}.

Inductive SetupRequest :=
| CreateGC (cid drawable value_mask : Z) (value_list : list Z)
| CreateWindowChecked (depth wid parent x y width height border_width class visual
    value_mask : Z) (value_list : list Z)
| DestroyWindow (window : Z).

Inductive LifecycleEffect :=
| Setup (r : SetupRequest)
| During (e : Effect).

Definition set_xcbRootScreen (s : xcb_screen_t) (w : XcbNativeWindow) : XcbNativeWindow :=
  {| m_xcbRootScreen := s; m_xcbWindow := m_xcbWindow w;
     m_xcbGraphicContext := m_xcbGraphicContext w;
     m_posX := m_posX w; m_posY := m_posY w;
     m_width := m_width w; m_height := m_height w;
     m_activated := m_activated w;
     m_enableCustomizedResolution := m_enableCustomizedResolution w;
     m_fullscreenState := m_fullscreenState w;
     m_horizontalyMaximized := m_horizontalyMaximized w;
     m_verticallyMaximized := m_verticallyMaximized w;
     atoms := atoms w |}.

Definition set_xcbWindow (id : Z) (w : XcbNativeWindow) : XcbNativeWindow :=
  {| m_xcbRootScreen := m_xcbRootScreen w; m_xcbWindow := id;
     m_xcbGraphicContext := m_xcbGraphicContext w;
     m_posX := m_posX w; m_posY := m_posY w;
     m_width := m_width w; m_height := m_height w;
     m_activated := m_activated w;
     m_enableCustomizedResolution := m_enableCustomizedResolution w;
     m_fullscreenState := m_fullscreenState w;
     m_horizontalyMaximized := m_horizontalyMaximized w;
     m_verticallyMaximized := m_verticallyMaximized w;
     atoms := atoms w |}.

Definition set_xcbGraphicContext (id : Z) (w : XcbNativeWindow) : XcbNativeWindow :=
  {| m_xcbRootScreen := m_xcbRootScreen w; m_xcbWindow := m_xcbWindow w;
     m_xcbGraphicContext := id;
     m_posX := m_posX w; m_posY := m_posY w;
     m_width := m_width w; m_height := m_height w;
     m_activated := m_activated w;
     m_enableCustomizedResolution := m_enableCustomizedResolution w;
     m_fullscreenState := m_fullscreenState w;
     m_horizontalyMaximized := m_horizontalyMaximized w;
     m_verticallyMaximized := m_verticallyMaximized w;
     atoms := atoms w |}.

Definition set_geometry (g : WindowGeometry) (w : XcbNativeWindow) : XcbNativeWindow :=
  {| m_xcbRootScreen := m_xcbRootScreen w; m_xcbWindow := m_xcbWindow w;
     m_xcbGraphicContext := m_xcbGraphicContext w;
     m_posX := geometry_posX g; m_posY := geometry_posY g;
     m_width := geometry_width g; m_height := geometry_height g;
     m_activated := m_activated w;
     m_enableCustomizedResolution := m_enableCustomizedResolution w;
     m_fullscreenState := m_fullscreenState w;
     m_horizontalyMaximized := m_horizontalyMaximized w;
     m_verticallyMaximized := m_verticallyMaximized w;
     atoms := atoms w |}.

(** The computations of creation and destruction. *)
Definition L (A : Type) : Type :=
  XcbNativeWindow → World →
  option (A * XcbNativeWindow * World * list LifecycleEffect).

Global Instance L_ret : MRet L := λ A a w h, Some (a, w, h, []).

Global Instance L_bind : MBind L := λ A B f m w h,
  match m w h with
  | None => None
  | Some (a, w1, h1, t1) =>
      match f a w1 h1 with
      | None => None
      | Some (b, w2, h2, t2) => Some (b, w2, h2, t1 ++ t2)
      end
  end.

(** A method called during creation. *)
Definition method {A} (m : M A) : L A := λ w h,
  match m w h with
  | None => None
  | Some (a, w', h', t) => Some (a, w', h', map During t)
  end.

Definition setup (r : SetupRequest) : L unit := λ w h, Some (tt, w, h, [Setup r]).

(** ** XcbNativeWindow::~XcbNativeWindow (lines 47-53) *)

Definition XcbNativeWindow_destructor : L unit :=
  w ← method get_this;
  if negb (XCB_NONE =? m_xcbWindow w)
  then setup (DestroyWindow (m_xcbWindow w))
  else mret tt.

Section Creation.

(** Declared in AzCore and in NativeWindow.h, outside this translation unit:
    the string copy [azstrncpy(dest, destSize, src, count)], given the
    destination from the pointer on and the source with its terminator and
    returning the destination afterwards; the checked cast
    [aznumeric_cast<int16_t>]; the two style bits. *)
Variable azstrncpy : list Z → Z → list Z → Z → list Z.
Variable aznumeric_cast_int16 : Z → Z.
Variable WINDOW_STYLE_BORDERED : Z.
Variable WINDOW_STYLE_RESIZEABLE : Z.

(** ** XcbNativeWindow::SetWindowTitle (lines 392-412) *)

Definition SetWindowTitle (title : list Z) : M unit :=
  w ← get_this;
  let size := Z.of_nat (length title) in
  let c_str := title ++ [0] in
  let doubleTitleSize := (size + 1) * 2 in
  let doubleTitle := replicate (Z.to_nat doubleTitleSize) 0 in
  let doubleTitle := azstrncpy doubleTitle doubleTitleSize c_str size in
  let doubleTitle :=
    take (Z.to_nat (size + 1)) doubleTitle
    ++ azstrncpy (drop (Z.to_nat (size + 1)) doubleTitle) size c_str size in
  emit (Xcb (ChangeProperty false XCB_PROP_MODE_REPLACE (m_xcbWindow w)
               XCB_ATOM_WM_CLASS XCB_ATOM_STRING 8
               (to_uint32 doubleTitleSize) doubleTitle)).

(** ** XcbNativeWindow::InitWindow (lines 56-138)

    [setup_roots] is the first screen of [xcb_get_setup], [pid] the value of
    [getpid]. *)

Definition InitWindow (setup_roots : xcb_screen_t) (pid : Z) (title : list Z)
    (geometry : WindowGeometry) (styleMasks : WindowStyleMasks) : L unit :=
  method (modify_this (set_xcbRootScreen setup_roots));;
  let xcbParentWindow := root setup_roots in
  id ← method xcb_generate_id;
  method (modify_this (set_xcbGraphicContext id));;
  let gc_mask := Z.lor XCB_GC_FOREGROUND XCB_GC_GRAPHICS_EXPOSURES in
  let gc_values := [black_pixel setup_roots; 0] in
  setup (CreateGC id xcbParentWindow gc_mask gc_values);;
  id ← method xcb_generate_id;
  method (modify_this (set_xcbWindow id));;
  let mask := m_platformAgnosticStyleMask styleMasks in
  let borderWidth :=
    if negb (Z.land mask WINDOW_STYLE_BORDERED =? 0)
       || negb (Z.land mask WINDOW_STYLE_RESIZEABLE =? 0)
    then s_DefaultXcbWindowBorderWidth else 0 in
  let eventMask := Z.lor XCB_CW_BACK_PIXEL XCB_CW_EVENT_MASK in
  let interestedEvents :=
    Z.lor (Z.lor (Z.lor (Z.lor (Z.lor
      XCB_EVENT_MASK_STRUCTURE_NOTIFY XCB_EVENT_MASK_KEY_PRESS)
      XCB_EVENT_MASK_KEY_RELEASE) XCB_EVENT_MASK_FOCUS_CHANGE)
      XCB_EVENT_MASK_PROPERTY_CHANGE) XCB_EVENT_MASK_EXPOSURE in
  let valueList := [black_pixel setup_roots; interestedEvents] in
  setup (CreateWindowChecked XCB_COPY_FROM_PARENT id xcbParentWindow
           (aznumeric_cast_int16 (geometry_posX geometry))
           (aznumeric_cast_int16 (geometry_posY geometry))
           (to_uint16 (aznumeric_cast_int16 (geometry_width geometry)))
           (to_uint16 (aznumeric_cast_int16 (geometry_height geometry)))
           borderWidth XCB_WINDOW_CLASS_INPUT_OUTPUT (root_visual setup_roots)
           eventMask valueList);;
  method (SetWindowTitle title);;
  method (modify_this (set_geometry geometry));;
  method InitializeAtoms;;
  w ← method get_this;
  let event :=
    {| cme_response_type := XCB_CLIENT_MESSAGE;
       cme_type := _NET_REQUEST_FRAME_EXTENTS (atoms w);
       cme_window := m_xcbWindow w;
       cme_format := 32;
       cme_sequence := 0;
       cme_data := {| data32_0 := 0; data32_1 := 0; data32_2 := 0;
                      data32_3 := 0; data32_4 := 0 |} |} in
  method (xcb_send_event 1 (root (m_xcbRootScreen w)) root_event_mask event);;
  method (emit (Xcb (ChangeProperty false XCB_PROP_MODE_REPLACE (m_xcbWindow w)
                       (_NET_WM_PID (atoms w)) XCB_ATOM_CARDINAL 32 1 [pid])));;
  method xcb_flush.

End Creation.

(** * Vocabulary of the properties *)

(** ** Concrete windows and worlds *)

(** A server that has given out its 68 predefined atoms and nothing else,
    answering the _NET_WM_STATE query with [reply] and [error]. *)
Definition sample_world (reply : option xcb_get_property_reply_t)
    (error : option xcb_generic_error_t)
    (registry : option (gmap string string))
    (queue : list xcb_generic_event_t) : World :=
  {| atom_table := ∅; last_atom := 68; has_error := false; last_xid := 4194305;
     net_wm_state_reply := reply; net_wm_state_error := error;
     request_check := λ _, None; event_queue := queue;
     settingsRegistry := registry; files := ∅;
     fresh_memory := λ _, Byte.xff; stack_words := λ _, 3735928559 |}.

(** No reply to the state query, no settings registry, no event. *)
Definition quiet_world : World := sample_world None None None [].

(** The atoms InitializeAtoms obtains from that server. *)
Definition sample_atoms : WmAtoms :=
  {| _NET_ACTIVE_WINDOW := 69; _NET_WM_BYPASS_COMPOSITOR := 70;
     WM_PROTOCOLS := 71; WM_DELETE_WINDOW := 72; _NET_WM_PING := 73;
     _NET_WM_STATE := 74; _NET_WM_STATE_FULLSCREEN := 75;
     _NET_WM_STATE_MAXIMIZED_VERT := 76; _NET_WM_STATE_MAXIMIZED_HORZ := 77;
     _NET_MOVERESIZE_WINDOW := 78; _NET_REQUEST_FRAME_EXTENTS := 79;
     _NET_FRAME_EXTENTS := 80; _NET_WM_PID := 81 |}.

(** A 1280x720 window with the atoms above; [activated] and the three state
    flags are the arguments. *)
Definition sample_window (activated fullscreen horz vert : bool) : XcbNativeWindow :=
  {| m_xcbRootScreen :=
       {| root := 1980; root_visual := 33; root_depth := 24; black_pixel := 0 |};
     m_xcbWindow := 4194305; m_xcbGraphicContext := 4194304;
     m_posX := 0; m_posY := 0; m_width := 1280; m_height := 720;
     m_activated := activated; m_enableCustomizedResolution := false;
     m_fullscreenState := fullscreen;
     m_horizontalyMaximized := horz; m_verticallyMaximized := vert;
     atoms := sample_atoms |}.

(** A client message as a window manager sends it: the send-event bit
    (0x80) is set in the response type. *)
Definition wm_message (window protocol : Z) : xcb_client_message_event_t :=
  {| cme_response_type := 161; cme_format := 32; cme_sequence := 57;
     cme_window := window; cme_type := 71;
     cme_data := {| data32_0 := protocol; data32_1 := 86400;
                    data32_2 := 4194305; data32_3 := 0; data32_4 := 0 |} |}.

(** ** Event dispatch *)

(** The echo of a ping: the inbound message with the response type set to
    XCB_CLIENT_MESSAGE and the window set to the root (lines 556-558). *)
Definition pong (w : XcbNativeWindow) (cme : xcb_client_message_event_t) :
    xcb_client_message_event_t :=
  {| cme_response_type := XCB_CLIENT_MESSAGE;
     cme_format := cme_format cme;
     cme_sequence := cme_sequence cme;
     cme_window := root (m_xcbRootScreen w);
     cme_type := cme_type cme;
     cme_data := cme_data cme |}.

(** The inbound message with nothing but the window field rewritten. *)
Definition with_window (window : Z) (cme : xcb_client_message_event_t) :
    xcb_client_message_event_t :=
  {| cme_response_type := cme_response_type cme;
     cme_format := cme_format cme;
     cme_sequence := cme_sequence cme;
     cme_window := window;
     cme_type := cme_type cme;
     cme_data := cme_data cme |}.

(** ** The state query *)

(** The query counts as failed when there is no reply, when the server
    reported an error, or when the reply is not a list of 32-bit atoms. *)
Definition query_failed (h : World) : Prop :=
  net_wm_state_reply h = None
  ∨ net_wm_state_error h ≠ None
  ∨ ∃ r, net_wm_state_reply h = Some r
         ∧ (gpr_format r ≠ 32 ∨ gpr_type r ≠ XCB_ATOM_ATOM).

(** It succeeded with reply [r]. *)
Definition query_succeeded (h : World) (r : xcb_get_property_reply_t) : Prop :=
  net_wm_state_reply h = Some r ∧ net_wm_state_error h = None
  ∧ gpr_format r = 32 ∧ gpr_type r = XCB_ATOM_ATOM.


(** The window with its three state flags replaced. *)
Definition with_flags (fullscreen horz vert : bool) (w : XcbNativeWindow) :
    XcbNativeWindow :=
  set_verticallyMaximized vert
    (set_horizontalyMaximized horz (set_fullscreenState fullscreen w)).

(** The loop of lines 229-243 as one pass over the list: an entry counts for
    the first of the three atoms it equals. *)
Definition is_fullscreen (a : WmAtoms) (state : Z) : bool :=
  state =? _NET_WM_STATE_FULLSCREEN a.
Definition is_horz (a : WmAtoms) (state : Z) : bool :=
  negb (state =? _NET_WM_STATE_FULLSCREEN a)
  && (state =? _NET_WM_STATE_MAXIMIZED_HORZ a).
Definition is_vert (a : WmAtoms) (state : Z) : bool :=
  negb (state =? _NET_WM_STATE_FULLSCREEN a)
  && negb (state =? _NET_WM_STATE_MAXIMIZED_HORZ a)
  && (state =? _NET_WM_STATE_MAXIMIZED_VERT a).

(** The window manager reports a fullscreen, vertically maximized window. *)
Definition fullscreen_vert_reply : xcb_get_property_reply_t :=
  {| gpr_format := 32; gpr_type := XCB_ATOM_ATOM; gpr_value := [75; 76; 412] |}.

(** ** Fullscreen requests *)

(** The values written to the compositor-bypass property during a call. *)
Definition bypass_hints (w : XcbNativeWindow) (t : list Effect) : list (list Z) :=
  omap (λ r, match r with
             | ChangeProperty _ _ window property _ _ _ data =>
                 if (window =? m_xcbWindow w)
                    && (property =? _NET_WM_BYPASS_COMPOSITOR (atoms w))
                 then Some data else None
             | _ => None
             end) (requests t).

(** The message that asks the window manager to add or remove the
    fullscreen state (lines 461-471). *)
Definition fullscreen_message (w : XcbNativeWindow) (fullScreenState : bool) :
    xcb_client_message_event_t :=
  {| cme_response_type := XCB_CLIENT_MESSAGE;
     cme_format := 32; cme_sequence := 0;
     cme_window := m_xcbWindow w;
     cme_type := _NET_WM_STATE (atoms w);
     cme_data :=
       {| data32_0 := if fullScreenState then _NET_WM_STATE_ADD
                      else _NET_WM_STATE_REMOVE;
          data32_1 := _NET_WM_STATE_FULLSCREEN (atoms w);
          data32_2 := 0; data32_3 := 1; data32_4 := 0 |} |}.

(** The second message, sent when leaving fullscreen with a maximize flag
    set (lines 489-499). *)
Definition maximize_message (w : XcbNativeWindow) : xcb_client_message_event_t :=
  {| cme_response_type := XCB_CLIENT_MESSAGE;
     cme_format := 32; cme_sequence := 0;
     cme_window := m_xcbWindow w;
     cme_type := _NET_WM_STATE (atoms w);
     cme_data :=
       {| data32_0 := _NET_WM_STATE_MAXIMIZED_VERT (atoms w);
          data32_1 := _NET_WM_STATE_MAXIMIZED_HORZ (atoms w);
          data32_2 := 0; data32_3 := 0; data32_4 := 0 |} |}.

(** The window manager reports a fullscreen, horizontally maximized
    window. *)
Definition fullscreen_horz_reply : xcb_get_property_reply_t :=
  {| gpr_format := 32; gpr_type := XCB_ATOM_ATOM; gpr_value := [75; 77] |}.

(** The window manager reports no state at all. *)
Definition plain_reply : xcb_get_property_reply_t :=
  {| gpr_format := 32; gpr_type := XCB_ATOM_ATOM; gpr_value := [] |}.

(** ** The raster of the splash image *)

(** [pixelIndex] of line 297. *)
Definition pixelIndex (width x y : Z) : Z := (x + y * width) * 4.

(** A pixel already composed: bytes 0, 1, 2 hold source bytes 2, 1, 0. *)
Definition pixel_composed (width : Z) (row_pointers : list (list Byte.byte))
    (data : list Byte.byte) (x y : Z) : Prop :=
  ∃ row, row_pointers !! Z.to_nat y = Some row
    ∧ data !! Z.to_nat (pixelIndex width x y + 0) = row !! Z.to_nat (x * 4 + 2)
    ∧ data !! Z.to_nat (pixelIndex width x y + 1) = row !! Z.to_nat (x * 4 + 1)
    ∧ data !! Z.to_nat (pixelIndex width x y + 2) = row !! Z.to_nat (x * 4 + 0).

(** The fourth byte of a pixel is the one the block was allocated with. *)
Definition alpha_untouched (width : Z) (data0 data : list Byte.byte) (x y : Z) : Prop :=
  data !! Z.to_nat (pixelIndex width x y + 3)
  = data0 !! Z.to_nat (pixelIndex width x y + 3).

(** The loops have reached row [y], column [x]. *)
Definition composed_up_to (width height : Z) (row_pointers : list (list Byte.byte))
    (data0 : list Byte.byte) (y x : Z) (data : list Byte.byte) : Prop :=
  length data = length data0
  ∧ ∀ x' y', 0 <= x' < width → 0 <= y' < height →
      alpha_untouched width data0 data x' y'
      ∧ (y' < y ∨ (y' = y ∧ x' < x) →
         pixel_composed width row_pointers data x' y').

(** One opaque white-ish pixel: R = 0x10, G = 0x20, B = 0x30, A = 0x40. *)
Definition one_pixel : list (list Byte.byte) :=
  [[Byte.x10; Byte.x20; Byte.x30; Byte.x40]].

(** ** The atom table of the server *)

(** The name the server interns for a request. *)
Definition interned_key (atomName : string) : string :=
  String.substring 0
    (Z.to_nat (to_uint16 (Z.of_nat (String.length atomName)))) atomName.

(** The server's table maps different names to different atoms, none of
    them above the last atom given out. *)
Definition atom_table_ok (h : World) : Prop :=
  (∀ k a, atom_table h !! k = Some a → a <= last_atom h)
  ∧ (∀ k k' a, atom_table h !! k = Some a → atom_table h !! k' = Some a → k = k').

(** The names asked for, in order. *)
Definition interned_names (t : list Effect) : list string :=
  omap (λ r, match r with InternAtom _ _ name => Some name | _ => None end)
    (requests t).

(** The names of InitializeAtoms and the members that hold their atoms, in
    the order of the source. *)
Definition atom_names : list string :=
  ["_NET_ACTIVE_WINDOW"; "_NET_WM_BYPASS_COMPOSITOR"; "WM_PROTOCOLS";
   "WM_DELETE_WINDOW"; "_NET_WM_PING"; "_NET_WM_STATE";
   "_NET_WM_STATE_FULLSCREEN"; "_NET_WM_STATE_MAXIMIZED_VERT";
   "_NET_WM_STATE_MAXIMIZED_HORZ"; "_NET_MOVERESIZE_WINDOW";
   "_NET_REQUEST_FRAME_EXTENTS"; "_NET_FRAME_EXTENTS"; "_NET_WM_PID"]%string.

Definition atom_values (a : WmAtoms) : list Z :=
  [_NET_ACTIVE_WINDOW a; _NET_WM_BYPASS_COMPOSITOR a; WM_PROTOCOLS a;
   WM_DELETE_WINDOW a; _NET_WM_PING a; _NET_WM_STATE a;
   _NET_WM_STATE_FULLSCREEN a; _NET_WM_STATE_MAXIMIZED_VERT a;
   _NET_WM_STATE_MAXIMIZED_HORZ a; _NET_MOVERESIZE_WINDOW a;
   _NET_REQUEST_FRAME_EXTENTS a; _NET_FRAME_EXTENTS a; _NET_WM_PID a].

(** A world with both splash settings, a 1x1 splash image and an exposure
    second in the event queue. *)
Definition splash_world : World :=
  {| atom_table := ∅; last_atom := 81; has_error := false; last_xid := 4194305;
     net_wm_state_reply := None; net_wm_state_error := None;
     request_check := λ _, None;
     event_queue :=
       [OtherEvent 19;
        ExposeEvent {| exp_response_type := 12; exp_window := 4194305;
                       exp_x := 0; exp_y := 0;
                       exp_width := 1280; exp_height := 720 |};
        OtherEvent 9];
     settingsRegistry :=
       Some {[ SplashLogoSetregPath := "splash.png";
               AssetsSetregPath := "/home/o3de/Cache" ]}%string;
     files :=
       {[ "/home/o3de/Cache/linux/splash.png"%string :=
            {| png_width := 1; png_height := 1; png_rows := one_pixel |} ]};
     fresh_memory := λ _, Byte.xff; stack_words := λ _, 3735928559 |}.

(** ** Size changes *)

(** What a change of size publishes: nothing on a window that is not
    activated; otherwise the resize, and after it the resolution change
    unless the resolution is customized. *)
Definition size_notifications (w : XcbNativeWindow) (width height : Z) : list Effect :=
  if m_activated w then
    OnWindowResized (m_xcbWindow w) width height
    :: (if m_enableCustomizedResolution w then []
        else [OnResolutionChanged (m_xcbWindow w) width height])
  else [].

(** A configure notify as the server sends it for the window. *)
Definition configure_notify (width height : Z) : xcb_configure_notify_event_t :=
  {| cne_response_type := 22; cne_event := 4194305; cne_window := 4194305;
     cne_x := 0; cne_y := 0; cne_width := width; cne_height := height |}.

(** The events the dispatch has no case for: another event kind, or a
    client message that is not a 32-bit WM_PROTOCOLS message or carries a
    protocol atom other than the two the window advertises. *)
Definition not_dispatched (mask : Z) (w : XcbNativeWindow)
    (event : xcb_generic_event_t) : Prop :=
  (Z.land (response_type event) mask ≠ XCB_CONFIGURE_NOTIFY
   ∧ Z.land (response_type event) mask ≠ XCB_CLIENT_MESSAGE)
  ∨ ∃ cme, event = ClientMessageEvent cme
      ∧ Z.land (cme_response_type cme) mask = XCB_CLIENT_MESSAGE
      ∧ (cme_type cme ≠ WM_PROTOCOLS (atoms w)
         ∨ cme_format cme ≠ 32
         ∨ (data32_0 (cme_data cme) ≠ WM_DELETE_WINDOW (atoms w)
            ∧ data32_0 (cme_data cme) ≠ _NET_WM_PING (atoms w))).

(** Everything of the window object but its size and its activation. *)
Definition same_identity (w w' : XcbNativeWindow) : Prop :=
  m_xcbRootScreen w' = m_xcbRootScreen w
  ∧ m_xcbWindow w' = m_xcbWindow w
  ∧ m_xcbGraphicContext w' = m_xcbGraphicContext w
  ∧ m_posX w' = m_posX w ∧ m_posY w' = m_posY w
  ∧ m_enableCustomizedResolution w' = m_enableCustomizedResolution w
  ∧ m_fullscreenState w' = m_fullscreenState w
  ∧ m_horizontalyMaximized w' = m_horizontalyMaximized w
  ∧ m_verticallyMaximized w' = m_verticallyMaximized w
  ∧ atoms w' = atoms w.

(** The requests that show or create something on the server. *)
Definition is_map_request (r : Request) : bool :=
  match r with MapWindow _ => true | _ => false end.

(** ** The splash presenter *)

(** Both settings are there and the file they name can be opened. *)
Definition splash_file (h : World) (fp : png_image) : Prop :=
  ∃ splashScreenImagePath assetCachePath,
    settings_get h SplashLogoSetregPath = Some splashScreenImagePath
    ∧ settings_get h AssetsSetregPath = Some assetCachePath
    ∧ files h !! (assetCachePath +:+ "/linux/" +:+ splashScreenImagePath)%string
        = Some fp.

(** Both settings are there and the file they name cannot be opened. *)
Definition splash_file_missing (h : World) : Prop :=
  ∃ splashScreenImagePath assetCachePath,
    settings_get h SplashLogoSetregPath = Some splashScreenImagePath
    ∧ settings_get h AssetsSetregPath = Some assetCachePath
    ∧ files h !! (assetCachePath +:+ "/linux/" +:+ splashScreenImagePath)%string
        = None.

(** An image of at least one pixel and less than 2^31 bytes whose rows were
    decoded with four bytes a pixel. *)
Definition decoded_rgba (fp : png_image) : Prop :=
  0 < png_width fp ∧ 0 < png_height fp
  ∧ png_width fp * png_height fp * 4 < 2 ^ 31
  ∧ ∀ y, 0 <= y < png_height fp →
      ∃ row, png_rows fp !! Z.to_nat y = Some row
             ∧ png_width fp * 4 <= Z.of_nat (length row).

(** The pixmap request of line 307: the pixmap gets the next resource id. *)
Definition pixmap_request (w : XcbNativeWindow) (h : World) (fp : png_image) : Request :=
  CreatePixmap (root_depth (m_xcbRootScreen w)) (last_xid h + 1) (m_xcbWindow w)
    (to_uint16 (png_width fp)) (to_uint16 (png_height fp)).

(** The image handed to the server (lines 315-317). *)
Definition splash_image (fp : png_image) (data : list Byte.byte) : xcb_image_t :=
  {| image_width := to_uint16 (png_width fp);
     image_height := to_uint16 (png_height fp);
     image_format := XCB_IMAGE_FORMAT_Z_PIXMAP; image_depth := 24;
     image_size := png_width fp * png_height fp * 4; image_data := data |}.

(** No event of the queue is an exposure. *)
Definition no_exposure (queue : list xcb_generic_event_t) : Prop :=
  Forall (λ event, Z.land (response_type event) (Z.lnot 128) ≠ XCB_EXPOSE) queue.

(** The copy that answers the exposure [x] (lines 330-340). *)
Definition splash_copy (w : XcbNativeWindow) (pixmap width height : Z)
    (x : xcb_expose_event_t) : Request :=
  CopyArea pixmap (m_xcbWindow w) (m_xcbGraphicContext w)
    (to_int16 (exp_x x)) (to_int16 (exp_y x))
    (to_int16 (to_uint32 (m_width w - width) / 2))
    (to_int16 (to_uint32 (m_height w - height) / 2))
    (exp_width x) (exp_height x).

(** The effects that stand for a wait on the connection or a drawing
    request. *)
Definition is_wait_or_drawing (e : Effect) : bool :=
  match e with
  | WaitForEvent | Xcb (PutImage _ _ _ _ _ _) | Xcb (CopyArea _ _ _ _ _ _ _ _ _) => true
  | _ => false
  end.

(** An exposure of the whole sample window. *)
Definition sample_exposure : xcb_expose_event_t :=
  {| exp_response_type := 12; exp_window := 4194305; exp_x := 0; exp_y := 0;
     exp_width := 1280; exp_height := 720 |}.

(** The splash world with a server that refuses every checked request. *)
Definition refusing_world : World :=
  {| atom_table := atom_table splash_world; last_atom := last_atom splash_world;
     has_error := has_error splash_world; last_xid := last_xid splash_world;
     net_wm_state_reply := net_wm_state_reply splash_world;
     net_wm_state_error := net_wm_state_error splash_world;
     request_check := λ _, Some {| error_code := 11 |};
     event_queue := event_queue splash_world;
     settingsRegistry := settingsRegistry splash_world;
     files := files splash_world;
     fresh_memory := fresh_memory splash_world;
     stack_words := stack_words splash_world |}.

(** A world whose settings name a splash file that is not there. *)
Definition no_file_world : World :=
  sample_world None None
    (Some {[ SplashLogoSetregPath := "splash.png";
             AssetsSetregPath := "/home/o3de/Cache" ]}%string) [].

(** The splash world with nothing but key presses in the queue. *)
Definition no_exposure_world : World :=
  set_event_queue [OtherEvent 2; OtherEvent 3; OtherEvent 2] splash_world.

(** One row of two pixels decoded with three bytes a pixel. *)
Definition two_rgb_pixels : list (list Byte.byte) :=
  [[Byte.x10; Byte.x20; Byte.x30; Byte.x11; Byte.x21; Byte.x31]].

(** ** The refresh and the fullscreen request *)

(** The flags a successful query computes from the returned list. *)
Definition refreshed (w : XcbNativeWindow) (states : list Z) : XcbNativeWindow :=
  with_flags (existsb (is_fullscreen (atoms w)) states)
    (existsb (is_horz (atoms w)) states)
    (existsb (is_vert (atoms w)) states) w.

(** The property query of line 207. *)
Definition state_query (w : XcbNativeWindow) : Request :=
  GetProperty 0 (m_xcbWindow w) (_NET_WM_STATE (atoms w)) XCB_ATOM_ATOM 0 1024.

(** The write of the compositor-bypass hint (line 482): 32 words, the two
    halves of the [long] that holds the hint and the 30 words behind it. *)
Definition bypass_write (w : XcbNativeWindow) (h : World) (hint : Z) : Request :=
  ChangeProperty true XCB_PROP_MODE_REPLACE (m_xcbWindow w)
    (_NET_WM_BYPASS_COMPOSITOR (atoms w)) XCB_ATOM_CARDINAL 32 32
    (hint :: 0 :: words_behind h 30).

(** ** Atoms *)

(** The property writes among the effects. *)
Definition property_writes (t : list Effect) : list Request :=
  List.filter (λ r, match r with ChangeProperty _ _ _ _ _ _ _ _ => true | _ => false end)
    (requests t).

(** Thirteen times XCB_NONE. *)
Definition no_atoms : WmAtoms :=
  {| _NET_ACTIVE_WINDOW := XCB_NONE; _NET_WM_BYPASS_COMPOSITOR := XCB_NONE;
     WM_PROTOCOLS := XCB_NONE; WM_DELETE_WINDOW := XCB_NONE;
     _NET_WM_PING := XCB_NONE; _NET_WM_STATE := XCB_NONE;
     _NET_WM_STATE_FULLSCREEN := XCB_NONE;
     _NET_WM_STATE_MAXIMIZED_VERT := XCB_NONE;
     _NET_WM_STATE_MAXIMIZED_HORZ := XCB_NONE;
     _NET_MOVERESIZE_WINDOW := XCB_NONE; _NET_REQUEST_FRAME_EXTENTS := XCB_NONE;
     _NET_FRAME_EXTENTS := XCB_NONE; _NET_WM_PID := XCB_NONE |}.

(** A connection that was shut down. *)
Definition dead_world : World :=
  {| atom_table := ∅; last_atom := 68; has_error := true; last_xid := 4194305;
     net_wm_state_reply := None; net_wm_state_error := None;
     request_check := λ _, None; event_queue := [];
     settingsRegistry := None; files := ∅;
     fresh_memory := λ _, Byte.xff; stack_words := λ _, 3735928559 |}.

(** ** Creation and destruction *)

(** What is asked of [azstrncpy]: when the first [count] characters of the
    source hold no terminator and the destination has room for them, they
    replace the first [count] characters of the destination. *)
Definition copies_like_strncpy (azstrncpy : list Z → Z → list Z → Z → list Z) : Prop :=
  ∀ (dest : list Z) (destSize : Z) (src : list Z) (count : nat),
    (count ≤ length dest)%nat → (count ≤ length src)%nat →
    Forall (λ c, c ≠ 0) (take count src) →
    azstrncpy dest destSize src (Z.of_nat count) = take count src ++ drop count dest.

(** The C library's strncpy: [count] characters are written, those of the
    source up to its terminator and zeros from there on. *)
Fixpoint strncpy (dest src : list Z) (count : nat) : list Z :=
  match count, dest with
  | O, _ => dest
  | S _, [] => []
  | S count', _ :: dest' =>
      match src with
      | [] => 0 :: strncpy dest' [] count'
      | c :: src' =>
          if c =? 0 then 0 :: strncpy dest' [] count'
          else c :: strncpy dest' src' count'
      end
  end.

(** No cast at all: the value as it is. *)
Definition no_cast (z : Z) : Z := z.

(** The window object InitWindow leaves behind. *)
Definition created_window (setup_roots : xcb_screen_t) (geometry : WindowGeometry)
    (h : World) (w : XcbNativeWindow) (a : WmAtoms) : XcbNativeWindow :=
  {| m_xcbRootScreen := setup_roots;
     m_xcbWindow := last_xid h + 1 + 1;
     m_xcbGraphicContext := last_xid h + 1;
     m_posX := geometry_posX geometry; m_posY := geometry_posY geometry;
     m_width := geometry_width geometry; m_height := geometry_height geometry;
     m_activated := m_activated w;
     m_enableCustomizedResolution := m_enableCustomizedResolution w;
     m_fullscreenState := m_fullscreenState w;
     m_horizontalyMaximized := m_horizontalyMaximized w;
     m_verticallyMaximized := m_verticallyMaximized w;
     atoms := a |}.

(** The requests of creation among the effects, and the effects of the
    methods called. *)
Definition setup_requests (t : list LifecycleEffect) : list SetupRequest :=
  omap (λ e, match e with Setup r => Some r | During _ => None end) t.

Definition method_effects (t : list LifecycleEffect) : list Effect :=
  omap (λ e, match e with During e' => Some e' | Setup _ => None end) t.

(** The border of a window of style [mask] (lines 72-77). *)
Definition border_width (bordered resizeable mask : Z) : Z :=
  if decide (Z.land mask bordered = 0 ∧ Z.land mask resizeable = 0) then 0 else 4.

(** The message that asks the window manager for the frame extents
    (lines 114-124) and the write of the process id (line 135). *)
Definition frame_extents_message (w : XcbNativeWindow) : xcb_client_message_event_t :=
  {| cme_response_type := XCB_CLIENT_MESSAGE; cme_format := 32; cme_sequence := 0;
     cme_window := m_xcbWindow w;
     cme_type := _NET_REQUEST_FRAME_EXTENTS (atoms w);
     cme_data := {| data32_0 := 0; data32_1 := 0; data32_2 := 0;
                    data32_3 := 0; data32_4 := 0 |} |}.

Definition pid_write (w : XcbNativeWindow) (pid : Z) : Request :=
  ChangeProperty false XCB_PROP_MODE_REPLACE (m_xcbWindow w) (_NET_WM_PID (atoms w))
    XCB_ATOM_CARDINAL 32 1 [pid].

(** The first screen of the sample server, a geometry and a title. *)
Definition sample_screen : xcb_screen_t :=
  {| root := 1980; root_visual := 33; root_depth := 24; black_pixel := 0 |}.

Definition sample_geometry : WindowGeometry :=
  {| geometry_posX := 0; geometry_posY := 0;
     geometry_width := 1280; geometry_height := 720 |}.

(** "O3DE" *)
Definition sample_title : list Z := [79; 51; 68; 69].

(** The InternAtom request GetAtom sends for a name. *)
Definition intern_request (atomName : string) : Request :=
  InternAtom 0 (to_uint16 (Z.of_nat (String.length atomName))) atomName.

(** The requests of InitializeAtoms on window [window], given the atoms it
    obtains. *)
Definition initialize_requests (window : Z) (a : WmAtoms) : list Request :=
  map intern_request (take 5 atom_names)
  ++ [ChangeProperty false XCB_PROP_MODE_REPLACE window (WM_PROTOCOLS a)
        XCB_ATOM_ATOM 32 2 [WM_DELETE_WINDOW a; _NET_WM_PING a]]
  ++ map intern_request (drop 5 atom_names).

(** The two requests that create the graphics context and the window
    (lines 63-101). *)
Definition creation_requests (cast : Z → Z) (bordered resizeable : Z)
    (setup_roots : xcb_screen_t) (geometry : WindowGeometry)
    (styleMasks : WindowStyleMasks) (h : World) : list SetupRequest :=
  [CreateGC (last_xid h + 1) (root setup_roots) 65540 [black_pixel setup_roots; 0];
   CreateWindowChecked XCB_COPY_FROM_PARENT (last_xid h + 1 + 1) (root setup_roots)
     (cast (geometry_posX geometry)) (cast (geometry_posY geometry))
     (to_uint16 (cast (geometry_width geometry)))
     (to_uint16 (cast (geometry_height geometry)))
     (border_width bordered resizeable (m_platformAgnosticStyleMask styleMasks))
     XCB_WINDOW_CLASS_INPUT_OUTPUT (root_visual setup_roots) 2050
     [black_pixel setup_roots; 6455299]].

(** Style bits as NativeWindow.h numbers them. *)
Definition sample_bordered : Z := 1.
Definition sample_resizeable : Z := 2.
Definition sample_style (mask : Z) : WindowStyleMasks :=
  {| m_platformAgnosticStyleMask := mask; m_platformSpecificStyleMask := 0 |}.

(** The property write of SetWindowTitle (lines 396-410) on window
    [window]. *)
Definition title_write (azstrncpy : list Z → Z → list Z → Z → list Z)
    (title : list Z) (window : Z) : Request :=
  let size := Z.of_nat (length title) in
  let c_str := title ++ [0] in
  let doubleTitleSize := (size + 1) * 2 in
  let doubleTitle := replicate (Z.to_nat doubleTitleSize) 0 in
  let doubleTitle := azstrncpy doubleTitle doubleTitleSize c_str size in
  let doubleTitle :=
    take (Z.to_nat (size + 1)) doubleTitle
    ++ azstrncpy (drop (Z.to_nat (size + 1)) doubleTitle) size c_str size in
  ChangeProperty false XCB_PROP_MODE_REPLACE window XCB_ATOM_WM_CLASS
    XCB_ATOM_STRING 8 (to_uint32 doubleTitleSize) doubleTitle.

(** * Properties *)

(** ** Running a computation *)

Ltac run :=
  repeat (progress (unfold mbind, mret, M_bind, M_ret, emit, get_this, get_world,
                      modify_this, modify_world, no_result, defined,
                      xcb_flush, xcb_send_event in *;
                    cbn beta iota in *)).

Lemma set_size_same (w : XcbNativeWindow) :
  set_size (m_width w) (m_height w) w = w.
Proof. by destruct w. Qed.

(** ** WindowSizeChanged *)

(** C4. A size change on a window that is not activated stores the new width
    and height and publishes nothing: no resize and no resolution-changed
    notification (no effect at all), and the world is untouched. *)
Theorem WindowSizeChanged_deactivated (w : XcbNativeWindow) (h : World)
    (width height : Z) :
  (width, height) ≠ (m_width w, m_height w) →
  m_activated w = false →
  ∃ w' t, WindowSizeChanged width height w h = Some (tt, w', h, t)
    ∧ w' = set_size width height w
    ∧ m_width w' = width ∧ m_height w' = height
    ∧ notifications t = [] ∧ t = [].
Proof.
  intros Hne Hoff. unfold WindowSizeChanged. run.
  destruct (negb (m_width w =? width) || negb (m_height w =? height)) eqn:Hc.
  - run. rewrite Hoff. run. eauto 10.
  - apply orb_false_elim in Hc as [Hw Hh].
    apply negb_false_iff, Z.eqb_eq in Hw, Hh. congruence.
Qed.

(** C5. Reporting the size the window already has is a no-op: the call
    returns the same window object and the same world and emits nothing. *)
Theorem WindowSizeChanged_same (w : XcbNativeWindow) (h : World) :
  WindowSizeChanged (m_width w) (m_height w) w h = Some (tt, w, h, []).
Proof.
  unfold WindowSizeChanged. run. by rewrite !Z.eqb_refl.
Qed.

Lemma WindowSizeChanged_deactivated_witness :
  (800, 600) ≠ (m_width (sample_window false false false false),
                m_height (sample_window false false false false))
  ∧ ∃ w' t,
      WindowSizeChanged 800 600 (sample_window false false false false) quiet_world
        = Some (tt, w', quiet_world, t)
      ∧ w' = set_size 800 600 (sample_window false false false false)
      ∧ m_width w' = 800 ∧ m_height w' = 600
      ∧ notifications t = [] ∧ t = [].
Proof.
  split; [discriminate |].
  apply (WindowSizeChanged_deactivated (sample_window false false false false)
           quiet_world 800 600); [discriminate | reflexivity].
Defined.

(** ** Deactivate and the event dispatch *)

Lemma Deactivate_activated (w : XcbNativeWindow) (h : World) :
  m_activated w = true →
  Deactivate w h =
    Some (tt, set_activated false w, h,
          [OnWindowClosed (m_xcbWindow w); Xcb (UnmapWindow (m_xcbWindow w));
           Flush; BusDisconnect]).
Proof. intros Hon. unfold Deactivate. run. rewrite Hon. by run. Qed.

Lemma Deactivate_deactivated (w : XcbNativeWindow) (h : World) :
  m_activated w = false →
  Deactivate w h = Some (tt, w, h, [BusDisconnect]).
Proof. intros Hoff. unfold Deactivate. run. rewrite Hoff. by run. Qed.

(** C2. A WM_PROTOCOLS client message of 32-bit format that carries the
    delete-window atom, received by an activated window, publishes one
    closed notification and then one exit-requested broadcast, in that
    order, and leaves the window deactivated. *)
Theorem HandleXcbEvent_delete_window (mask : Z) (w : XcbNativeWindow) (h : World)
    (cme : xcb_client_message_event_t) :
  m_activated w = true →
  Z.land (cme_response_type cme) mask = XCB_CLIENT_MESSAGE →
  cme_type cme = WM_PROTOCOLS (atoms w) →
  cme_format cme = 32 →
  data32_0 (cme_data cme) = WM_DELETE_WINDOW (atoms w) →
  ∃ w' t,
    HandleXcbEvent mask (ClientMessageEvent cme) w h = Some (tt, w', h, t)
    ∧ t = [OnWindowClosed (m_xcbWindow w); Xcb (UnmapWindow (m_xcbWindow w));
           Flush; BusDisconnect; ExitMainLoop]
    ∧ notifications t = [OnWindowClosed (m_xcbWindow w); ExitMainLoop]
    ∧ w' = set_activated false w
    ∧ m_activated w' = false.
Proof.
  intros Hon Hcode Htype Hformat Hatom.
  unfold HandleXcbEvent. cbn [response_type]. rewrite Hcode.
  cbn [Z.eqb XCB_CLIENT_MESSAGE XCB_CONFIGURE_NOTIFY Pos.eqb].
  run. rewrite Htype, Hformat, Hatom, !Z.eqb_refl. cbn [andb].
  run. rewrite (Deactivate_activated w h Hon). run.
  eexists _, _. repeat split.
Qed.

Lemma HandleXcbEvent_delete_window_witness :
  ∃ w' t,
    HandleXcbEvent 127 (ClientMessageEvent (wm_message 4194305 72))
      (sample_window true false false false) quiet_world
      = Some (tt, w', quiet_world, t)
    ∧ t = [OnWindowClosed 4194305; Xcb (UnmapWindow 4194305);
           Flush; BusDisconnect; ExitMainLoop]
    ∧ notifications t = [OnWindowClosed 4194305; ExitMainLoop]
    ∧ w' = set_activated false (sample_window true false false false)
    ∧ m_activated w' = false.
Proof.
  apply (HandleXcbEvent_delete_window 127 (sample_window true false false false)
           quiet_world (wm_message 4194305 72)); reflexivity.
Defined.

(** C3, as amended. A WM_PROTOCOLS client message of 32-bit format that
    carries the ping atom (an atom other than the delete-window atom) and
    whose window is not the root is answered by exactly one client message
    to the root: the inbound message with its window set to the root and
    its response type set to XCB_CLIENT_MESSAGE, followed by a flush; the
    window object and the world do not change. A ping whose window is the
    root sends nothing and changes nothing. *)
Theorem HandleXcbEvent_ping (mask : Z) (w : XcbNativeWindow) (h : World)
    (cme : xcb_client_message_event_t) :
  Z.land (cme_response_type cme) mask = XCB_CLIENT_MESSAGE →
  cme_type cme = WM_PROTOCOLS (atoms w) →
  cme_format cme = 32 →
  data32_0 (cme_data cme) = _NET_WM_PING (atoms w) →
  _NET_WM_PING (atoms w) ≠ WM_DELETE_WINDOW (atoms w) →
  ∃ t,
    HandleXcbEvent mask (ClientMessageEvent cme) w h = Some (tt, w, h, t)
    ∧ (cme_window cme ≠ root (m_xcbRootScreen w) →
       t = [Xcb (SendEvent 0 (root (m_xcbRootScreen w)) root_event_mask (pong w cme));
            Flush]
       ∧ client_messages t = [(root (m_xcbRootScreen w), pong w cme)])
    ∧ (cme_window cme = root (m_xcbRootScreen w) → t = []).
Proof.
  intros Hcode Htype Hformat Hatom Hne.
  unfold HandleXcbEvent. cbn [response_type]. rewrite Hcode.
  cbn [Z.eqb XCB_CLIENT_MESSAGE XCB_CONFIGURE_NOTIFY Pos.eqb].
  run. rewrite Htype, Hformat, Hatom, !Z.eqb_refl. cbn [andb].
  apply Z.eqb_neq in Hne. rewrite Hne.
  destruct (cme_window cme =? root (m_xcbRootScreen w)) eqn:Hroot; cbn [negb].
  - apply Z.eqb_eq in Hroot. eexists. split; [reflexivity |].
    split; [intros Hr; by destruct Hr | done].
  - apply Z.eqb_neq in Hroot. run. eexists. split; [reflexivity |].
    split; [| intros Hr; by destruct Hroot].
    intros _. unfold pong. rewrite Htype, Hformat. split; reflexivity.
Qed.

Lemma HandleXcbEvent_ping_witness :
  ∃ t,
    HandleXcbEvent 127 (ClientMessageEvent (wm_message 4194305 73))
      (sample_window true false false false) quiet_world
      = Some (tt, sample_window true false false false, quiet_world, t)
    ∧ (4194305 ≠ 1980 →
       t = [Xcb (SendEvent 0 1980 root_event_mask
                   (pong (sample_window true false false false)
                      (wm_message 4194305 73)));
            Flush]
       ∧ client_messages t =
           [(1980, pong (sample_window true false false false)
                     (wm_message 4194305 73))])
    ∧ (4194305 = 1980 → t = []).
Proof.
  apply (HandleXcbEvent_ping 127 (sample_window true false false false)
           quiet_world (wm_message 4194305 73));
    [reflexivity | reflexivity | reflexivity | reflexivity | discriminate].
Defined.

(** C3, as stated, fails: the ping of a window manager has the send-event
    bit set (response type 161 = 0x80 + 33), the dispatch accepts it under
    the mask 0x7f, and the echo carries response type 33: it is not the
    inbound message with only the window field rewritten. *)
Lemma HandleXcbEvent_ping_not_plain_copy :
  let w := sample_window true false false false in
  let cme := wm_message 4194305 73 in
  Z.land (cme_response_type cme) 127 = XCB_CLIENT_MESSAGE
  ∧ cme_type cme = WM_PROTOCOLS (atoms w)
  ∧ cme_format cme = 32
  ∧ data32_0 (cme_data cme) = _NET_WM_PING (atoms w)
  ∧ cme_window cme ≠ root (m_xcbRootScreen w)
  ∧ ∃ reply,
      HandleXcbEvent 127 (ClientMessageEvent cme) w quiet_world
        = Some (tt, w, quiet_world,
                [Xcb (SendEvent 0 (root (m_xcbRootScreen w)) root_event_mask reply);
                 Flush])
      ∧ cme_response_type reply = 33
      ∧ cme_response_type (with_window (root (m_xcbRootScreen w)) cme) = 161
      ∧ reply ≠ with_window (root (m_xcbRootScreen w)) cme.
Proof.
  cbv zeta. repeat split; try discriminate.
  eexists. repeat split; discriminate.
Qed.

(** ** GetWMStates *)

Lemma GetWMStates_loop (a : WmAtoms) (states : list Z) :
  ∀ (w : XcbNativeWindow) (h : World),
    for_each states (λ state,
      if state =? _NET_WM_STATE_FULLSCREEN a
      then modify_this (set_fullscreenState true)
      else if state =? _NET_WM_STATE_MAXIMIZED_HORZ a
      then modify_this (set_horizontalyMaximized true)
      else if state =? _NET_WM_STATE_MAXIMIZED_VERT a
      then modify_this (set_verticallyMaximized true)
      else mret tt) w h
    = Some (tt,
            with_flags
              (m_fullscreenState w || existsb (is_fullscreen a) states)
              (m_horizontalyMaximized w || existsb (is_horz a) states)
              (m_verticallyMaximized w || existsb (is_vert a) states) w,
            h, []).
Proof.
  induction states as [| state states IH]; intros w h; cbn [for_each existsb].
  - run. rewrite !orb_false_r. by destruct w.
  - run. unfold is_fullscreen, is_horz, is_vert.
    destruct (state =? _NET_WM_STATE_FULLSCREEN a);
      [| destruct (state =? _NET_WM_STATE_MAXIMIZED_HORZ a);
         [| destruct (state =? _NET_WM_STATE_MAXIMIZED_VERT a)]];
      run; rewrite IH; destruct w; cbn;
      rewrite ?orb_true_r, ?orb_false_r; reflexivity.
Qed.

Lemma existsb_eqb_elem_of (x : Z) (l : list Z) :
  existsb (λ y, y =? x) l = true ↔ x ∈ l.
Proof.
  rewrite existsb_exists, list_elem_of_In. split.
  - intros (y & Hy & Heq). apply Z.eqb_eq in Heq. by subst.
  - intros Hx. exists x. by rewrite Z.eqb_refl.
Qed.





Example GetWMStates_sample :
  GetWMStates (sample_window true false true false)
    (sample_world (Some fullscreen_vert_reply) None None [])
  = Some (tt, sample_window true true false true,
          sample_world (Some fullscreen_vert_reply) None None [],
          [Xcb (GetProperty 0 4194305 74 XCB_ATOM_ATOM 0 1024)]).
Proof. reflexivity. Qed.

(** ** SetFullScreenState *)

Lemma requests_app (t1 t2 : list Effect) :
  requests (t1 ++ t2) = requests t1 ++ requests t2.
Proof. apply omap_app. Qed.

Lemma client_messages_app (t1 t2 : list Effect) :
  client_messages (t1 ++ t2) = client_messages t1 ++ client_messages t2.
Proof. unfold client_messages. by rewrite requests_app, omap_app. Qed.

Lemma bypass_hints_app (w : XcbNativeWindow) (t1 t2 : list Effect) :
  bypass_hints w (t1 ++ t2) = bypass_hints w t1 ++ bypass_hints w t2.
Proof. unfold bypass_hints. by rewrite requests_app, omap_app. Qed.

(** GetWMStates always returns; it sends one property query and touches
    nothing of the window but the three flags. *)
Lemma GetWMStates_returns (w : XcbNativeWindow) (h : World) :
  ∃ w' t, GetWMStates w h = Some (tt, w', h, t)
    ∧ requests t = [GetProperty 0 (m_xcbWindow w) (_NET_WM_STATE (atoms w))
                      XCB_ATOM_ATOM 0 1024]
    ∧ m_xcbWindow w' = m_xcbWindow w
    ∧ m_xcbRootScreen w' = m_xcbRootScreen w
    ∧ atoms w' = atoms w.
Proof.
  unfold GetWMStates. run.
  destruct (net_wm_state_reply h) as [r |];
    [destruct (net_wm_state_error h) as [e |];
     [| destruct ((gpr_format r =? 32) && (gpr_type r =? XCB_ATOM_ATOM))] |].
  2: { run. rewrite GetWMStates_loop. by eexists _, _. }
  all: unfold GetWMStates_failed; run; try destruct (net_wm_state_error h);
    by eexists _, _.
Qed.

(** The refresh, by the outcome of the query. *)
Lemma GetWMStates_succeeded (w : XcbNativeWindow) (h : World)
    (r : xcb_get_property_reply_t) :
  query_succeeded h r →
  GetWMStates w h = Some (tt, refreshed w (gpr_value r), h, [Xcb (state_query w)]).
Proof.
  intros (Hreply & Herror & Hformat & Htype). unfold GetWMStates. run.
  rewrite Hreply, Herror, Hformat, Htype. cbn [Z.eqb Pos.eqb XCB_ATOM_ATOM andb].
  run. rewrite GetWMStates_loop. unfold refreshed. by destruct w.
Qed.

Lemma GetWMStates_query_failed (w : XcbNativeWindow) (h : World) :
  query_failed h →
  ∃ t, GetWMStates w h = Some (tt, w, h, t) ∧ requests t = [state_query w].
Proof.
  intros Hfailed. unfold GetWMStates, GetWMStates_failed. run.
  destruct (net_wm_state_reply h) as [r |] eqn:Hreply;
    [destruct (net_wm_state_error h) as [e |] eqn:Herror;
     [| destruct ((gpr_format r =? 32) && (gpr_type r =? XCB_ATOM_ATOM)) eqn:Hok] |].
  - run. by eexists.
  - apply andb_true_iff in Hok as [Hf Ht]. apply Z.eqb_eq in Hf, Ht.
    destruct Hfailed as [? | [? | (r' & Hr' & Hbad)]]; [congruence.. |].
    assert (r' = r) as -> by congruence. by destruct Hbad.
  - run. by eexists.
  - destruct (net_wm_state_error h); run; by eexists.
Qed.

(** The hint is the first word of the write. *)
Lemma bypass_hints_of_write (w : XcbNativeWindow) (h : World) (hint : Z) :
  bypass_hints w
    [Xcb (ChangeProperty true XCB_PROP_MODE_REPLACE (m_xcbWindow w)
            (_NET_WM_BYPASS_COMPOSITOR (atoms w)) XCB_ATOM_CARDINAL 32 32
            (hint :: 0 :: words_behind h 30))]
  = [hint :: 0 :: words_behind h 30].
Proof. unfold bypass_hints, requests. cbn -[words_behind Z.eqb]. by rewrite !Z.eqb_refl. Qed.

(** What SetFullScreenState does after the refresh, given the refreshed
    window [w1]. *)
Lemma SetFullScreenState_run (fullScreenState : bool) (w w1 : XcbNativeWindow)
    (h : World) (t1 : list Effect) :
  GetWMStates w h = Some (tt, w1, h, t1) →
  SetFullScreenState fullScreenState w h =
    Some (tt, set_fullscreenState fullScreenState w1, h,
          t1 ++
          [Xcb (SendEvent 1 (root (m_xcbRootScreen w1)) root_event_mask
                  (fullscreen_message w1 fullScreenState));
           Xcb (ChangeProperty true XCB_PROP_MODE_REPLACE (m_xcbWindow w1)
                  (_NET_WM_BYPASS_COMPOSITOR (atoms w1)) XCB_ATOM_CARDINAL 32 32
                  ((if m_fullscreenState w1 then 1 else 0) :: 0 :: words_behind h 30))] ++
          (if negb fullScreenState
              && (m_horizontalyMaximized w1 || m_verticallyMaximized w1)
           then [Printf "Remove maximized state.\n";
                 Xcb (SendEvent 1 (root (m_xcbRootScreen w1)) root_event_mask
                        (maximize_message w1))]
           else []) ++
          [Flush]).
Proof.
  intros Hrefresh. unfold SetFullScreenState, SetAtom. run. rewrite Hrefresh.
  run.
  destruct (request_check h _); run;
    destruct fullScreenState; cbn [negb andb]; run; try reflexivity;
    destruct (m_horizontalyMaximized w1 || m_verticallyMaximized w1); run;
    reflexivity.
Qed.

(** The client messages of a call: the fullscreen request, and after it the
    maximize message exactly when the call leaves fullscreen and the
    refreshed window has a maximize flag set. *)
Lemma SetFullScreenState_messages (fullScreenState : bool) (w w1 : XcbNativeWindow)
    (h : World) (t1 : list Effect) :
  GetWMStates w h = Some (tt, w1, h, t1) →
  ∃ w' t,
    SetFullScreenState fullScreenState w h = Some (tt, w', h, t)
    ∧ client_messages t =
        (root (m_xcbRootScreen w), fullscreen_message w fullScreenState)
        :: (if negb fullScreenState
               && (m_horizontalyMaximized w1 || m_verticallyMaximized w1)
            then [(root (m_xcbRootScreen w), maximize_message w)]
            else []).
Proof.
  intros Hrefresh. rewrite (SetFullScreenState_run _ _ _ _ _ Hrefresh).
  destruct (GetWMStates_returns w h) as (w1' & t1' & Heq & Hreq & Hwin & Hscr & Hatoms).
  rewrite Hrefresh in Heq. injection Heq as <- <-.
  eexists _, _. split; [reflexivity |].
  rewrite client_messages_app. unfold client_messages at 1. rewrite Hreq.
  unfold fullscreen_message, maximize_message. rewrite Hwin, Hscr, Hatoms.
  by destruct (negb fullScreenState
               && (m_horizontalyMaximized w1 || m_verticallyMaximized w1)).
Qed.

(** C1, on the code. Leaving fullscreen while the window manager reports the
    window maximized horizontally sends one message after the fullscreen
    request, to the root window; its five data words are
    [MAXIMIZED_VERT, MAXIMIZED_HORZ, 0, 0, 0]: the action word is missing
    and the two atoms sit in the action and first-atom places, so the words
    are not [_NET_WM_STATE_REMOVE, atom, atom, source, 0] for the two
    maximize atoms in either order. *)
Theorem SetFullScreenState_maximize_words :
  let w := sample_window true false false false in
  let h := sample_world (Some fullscreen_horz_reply) None None [] in
  ∃ w1 t1 w' t extra,
    GetWMStates w h = Some (tt, w1, h, t1)
    ∧ m_horizontalyMaximized w1 = true
    ∧ SetFullScreenState false w h = Some (tt, w', h, t)
    ∧ client_messages t = [(1980, fullscreen_message w false); (1980, extra)]
    ∧ data32 (cme_data extra) = [76; 77; 0; 0; 0]
    ∧ ∀ source,
        data32 (cme_data extra) ≠ [_NET_WM_STATE_REMOVE; 76; 77; source; 0]
        ∧ data32 (cme_data extra) ≠ [_NET_WM_STATE_REMOVE; 77; 76; source; 0].
Proof.
  cbv zeta. eexists _, _, _, _, _.
  split; [reflexivity |]. split; [reflexivity |].
  split; [reflexivity |]. split; [reflexivity |].
  split; [reflexivity |]. intros source. split; discriminate.
Qed.

Lemma SetFullScreenState_hints (target : bool) (w w1 : XcbNativeWindow)
    (h : World) (t1 : list Effect) :
  GetWMStates w h = Some (tt, w1, h, t1) →
  ∃ t,
    SetFullScreenState target w h = Some (tt, set_fullscreenState target w1, h, t)
    ∧ bypass_hints w t = [(if m_fullscreenState w1 then 1 else 0) :: 0 :: words_behind h 30].
Proof.
  intros Hrefresh. rewrite (SetFullScreenState_run _ _ _ _ _ Hrefresh).
  destruct (GetWMStates_returns w h) as (w1' & t1' & Heq & Hreq & Hwin & Hscr & Hatoms).
  rewrite Hrefresh in Heq. injection Heq as <- <-.
  eexists. split; [reflexivity |].
  rewrite bypass_hints_app. unfold bypass_hints at 1. rewrite Hreq. cbn [omap app].
  rewrite Hwin, Hatoms.
  change (?a :: ?b :: ?l ++ ?k) with ([a] ++ [b] ++ l ++ k).
  rewrite !bypass_hints_app, bypass_hints_of_write.
  by destruct (negb target && (m_horizontalyMaximized w1 || m_verticallyMaximized w1)).
Qed.

(** C10. Every call of SetFullScreenState returns and writes the
    compositor-bypass property once. The first of the words written, the
    hint, is 1 when the fullscreen flag as refreshed at the start of the
    call is true and 0 otherwise, whatever the target: after a successful
    query it tells whether the window manager's list holds the fullscreen
    atom, after a failed query it is the flag stored before the call. So a
    call that enters fullscreen while the window manager does not report
    fullscreen writes the hint 0. The stored flag equals the target when
    the call returns. *)
Theorem SetFullScreenState_bypass_hint (target : bool) (w : XcbNativeWindow)
    (h : World) :
  ∃ w' t,
    SetFullScreenState target w h = Some (tt, w', h, t)
    ∧ m_fullscreenState w' = target
    ∧ (∀ w1 t1, GetWMStates w h = Some (tt, w1, h, t1) →
         bypass_hints w t =
           [(if m_fullscreenState w1 then 1 else 0) :: 0 :: words_behind h 30])
    ∧ (∀ r, query_succeeded h r →
         bypass_hints w t =
           [(if bool_decide (_NET_WM_STATE_FULLSCREEN (atoms w) ∈ gpr_value r)
             then 1 else 0) :: 0 :: words_behind h 30])
    ∧ (∀ r, query_succeeded h r → target = true →
         _NET_WM_STATE_FULLSCREEN (atoms w) ∉ gpr_value r →
         bypass_hints w t = [0 :: 0 :: words_behind h 30])
    ∧ (query_failed h →
         bypass_hints w t =
           [(if m_fullscreenState w then 1 else 0) :: 0 :: words_behind h 30]).
Proof.
  destruct (GetWMStates_returns w h) as (w1 & t1 & Hrefresh & _).
  destruct (SetFullScreenState_hints target w w1 h t1 Hrefresh) as (t & Hrun & Hhint).
  exists (set_fullscreenState target w1), t.
  split; [done |]. split; [reflexivity |].
  assert (∀ r, query_succeeded h r →
            m_fullscreenState w1
            = bool_decide (_NET_WM_STATE_FULLSCREEN (atoms w) ∈ gpr_value r))
    as Hreported.
  { intros r Hok. rewrite (GetWMStates_succeeded w h r Hok) in Hrefresh.
    injection Hrefresh as <- _.
    cbn [refreshed with_flags m_fullscreenState set_verticallyMaximized
         set_horizontalyMaximized set_fullscreenState].
    pose proof (existsb_eqb_elem_of (_NET_WM_STATE_FULLSCREEN (atoms w)) (gpr_value r))
      as Hin.
    change (existsb (is_fullscreen (atoms w)) (gpr_value r))
      with (existsb (λ y, y =? _NET_WM_STATE_FULLSCREEN (atoms w)) (gpr_value r)).
    destruct (existsb _ (gpr_value r)); symmetry.
    - by apply bool_decide_eq_true, Hin.
    - apply bool_decide_eq_false. intros Hheld. by apply Hin in Hheld. }
  split; [| split; [| split]].
  - intros w1' t1' Hrefresh'. rewrite Hrefresh in Hrefresh'.
    by injection Hrefresh' as <- <-.
  - intros r Hok. by rewrite Hhint, (Hreported r Hok).
  - intros r Hok _ Habsent. rewrite Hhint, (Hreported r Hok).
    by rewrite bool_decide_false.
  - intros Hfailed.
    destruct (GetWMStates_query_failed w h Hfailed) as (t' & Hrefresh' & _).
    rewrite Hrefresh in Hrefresh'. by injection Hrefresh' as -> _.
Qed.

(** The stored flag is false, the window manager reports fullscreen, the
    target is false: the hint is 1. *)
Lemma SetFullScreenState_bypass_hint_witness :
  let w := sample_window true false false false in
  let h := sample_world (Some fullscreen_vert_reply) None None [] in
  ∃ w' t,
    SetFullScreenState false w h = Some (tt, w', h, t)
    ∧ m_fullscreenState w' = false
    ∧ bypass_hints w t = [1 :: 0 :: words_behind h 30].
Proof.
  cbv zeta.
  destruct (SetFullScreenState_bypass_hint false (sample_window true false false false)
              (sample_world (Some fullscreen_vert_reply) None None []))
    as (w' & t & Hrun & Hflag & _ & Hreported & _).
  exists w', t. split; [exact Hrun |]. split; [exact Hflag |].
  exact (Hreported fullscreen_vert_reply
           (conj eq_refl (conj eq_refl (conj eq_refl eq_refl)))).
Defined.

Example SetFullScreenState_enter_writes_zero :
  ∃ w' t,
    SetFullScreenState true (sample_window true false false false) quiet_world
      = Some (tt, w', quiet_world, t)
    ∧ bypass_hints w' t = [0 :: 0 :: words_behind quiet_world 30]
    ∧ m_fullscreenState w' = true.
Proof. by eexists _, _. Qed.

(** ** Activate and the splash presenter *)

(** C7. When one of the two splash settings (the image path, the asset
    cache root) cannot be read, DrawSplash returns after its log line
    without a request, a flush or a wait on the connection, and Activate on
    a window that is not activated still maps the window, flushes, and
    leaves it activated. *)
Theorem Activate_without_splash_settings (w : XcbNativeWindow) (h : World) :
  m_activated w = false →
  settings_get h SplashLogoSetregPath = None
  ∨ settings_get h AssetsSetregPath = None →
  ∃ line w' t,
    DrawSplash w h = Some (tt, w, h, [Printf line])
    ∧ requests [Printf line] = []
    ∧ Activate w h = Some (tt, w', h, t)
    ∧ t = [BusConnect; Xcb (MapWindow (m_xcbWindow w)); Flush; Printf line]
    ∧ requests t = [MapWindow (m_xcbWindow w)]
    ∧ w' = set_activated true w
    ∧ m_activated w' = true.
Proof.
  intros Hoff Habsent.
  assert (∃ line, DrawSplash w h = Some (tt, w, h, [Printf line])) as [line Hsplash].
  { unfold DrawSplash. run.
    destruct (settings_get h SplashLogoSetregPath) as [path |] eqn:Hpath;
      [| by eexists].
    destruct Habsent as [? | Hcache]; [done |]. rewrite Hcache. by eexists. }
  exists line. unfold Activate. run. rewrite Hoff. cbn [negb]. run.
  rewrite Hsplash. run. eexists _, _. repeat split.
Qed.

Lemma Activate_without_splash_settings_witness :
  let w := sample_window false false false false in
  let h := sample_world None None
             (Some {[ AssetsSetregPath := "/home/o3de/Cache" ]}) [] in
  ∃ line w' t,
    DrawSplash w h = Some (tt, w, h, [Printf line])
    ∧ requests [Printf line] = []
    ∧ Activate w h = Some (tt, w', h, t)
    ∧ t = [BusConnect; Xcb (MapWindow (m_xcbWindow w)); Flush; Printf line]
    ∧ requests t = [MapWindow (m_xcbWindow w)]
    ∧ w' = set_activated true w
    ∧ m_activated w' = true.
Proof.
  apply (Activate_without_splash_settings (sample_window false false false false)
           (sample_world None None
              (Some {[ AssetsSetregPath := "/home/o3de/Cache" ]}) []));
    [reflexivity | left; reflexivity].
Defined.

(** ** Atom resolution *)

(** GetAtom always returns, after exactly one InternAtom request, and
    leaves the window object alone. *)
Lemma GetAtom_returns (atomName : string) (w : XcbNativeWindow) (h : World) :
  ∃ atom h' t,
    GetAtom atomName w h = Some (atom, w, h', t)
    ∧ requests t =
        [InternAtom 0 (to_uint16 (Z.of_nat (String.length atomName))) atomName]
    ∧ has_error h' = has_error h.
Proof.
  unfold GetAtom, xcb_intern_atom_reply. run.
  destruct (has_error h) eqn:Herr; run; [by eexists _, _, _ |].
  destruct (atom_table h !! _); run; by eexists _, _, _.
Qed.

(** C8, as amended. Resolving the same name a second time yields the same
    token as the first time, and each of the two resolutions issues its own
    InternAtom request: GetAtom keeps no cache. *)
Theorem GetAtom_twice (atomName : string) (w : XcbNativeWindow) (h : World) :
  ∃ atom h1 t1 t2,
    GetAtom atomName w h = Some (atom, w, h1, t1)
    ∧ GetAtom atomName w h1 = Some (atom, w, h1, t2)
    ∧ requests t1 =
        [InternAtom 0 (to_uint16 (Z.of_nat (String.length atomName))) atomName]
    ∧ requests t2 =
        [InternAtom 0 (to_uint16 (Z.of_nat (String.length atomName))) atomName].
Proof.
  unfold GetAtom, xcb_intern_atom_reply. run.
  destruct (has_error h) eqn:Herr; run.
  - eexists _, _, _, _. split; [reflexivity |]. rewrite Herr. by run.
  - destruct (atom_table h !! _) as [atom |] eqn:Hknown; run.
    + eexists _, _, _, _. split; [reflexivity |]. rewrite Herr. run.
      rewrite Hknown. by run.
    + eexists _, _, _, _. split; [reflexivity |].
      cbn [has_error atom_table set_atom_table]. rewrite Herr. run.
      rewrite lookup_insert_eq. by run.
Qed.

(** C8, as stated, fails: the second resolution of a name goes to the
    server again. *)
Lemma GetAtom_second_round_trip :
  let w := sample_window false false false false in
  ∃ h1 t1 t2,
    GetAtom "WM_PROTOCOLS" w quiet_world = Some (69, w, h1, t1)
    ∧ GetAtom "WM_PROTOCOLS" w h1 = Some (69, w, h1, t2)
    ∧ requests t2 = [InternAtom 0 12 "WM_PROTOCOLS"]
    ∧ requests t2 ≠ [].
Proof.
  cbv zeta. eexists _, _, _.
  split; [reflexivity |]. split; [vm_compute; reflexivity |].
  split; [reflexivity | discriminate].
Qed.

(** ** The raster of the splash image *)

Lemma int_value_in_range (z : Z) :
  - 2 ^ 31 <= z < 2 ^ 31 → int_value z = Some z.
Proof. intros Hz. unfold int_value. by rewrite decide_True. Qed.

Lemma store_in_range (p : list Byte.byte) (i : Z) (b : Byte.byte) :
  0 <= i < Z.of_nat (length p) → store p i b = Some (<[Z.to_nat i := b]> p).
Proof. intros Hi. unfold store. by rewrite decide_True. Qed.

Lemma load_in_range (p : list Byte.byte) (i : Z) :
  0 <= i → load p i = p !! Z.to_nat i.
Proof. intros Hi. unfold load. by rewrite decide_True. Qed.

(** Three consecutive stores, read back. *)
Lemma lookup_three_stores (p : list Byte.byte) (k j : nat) (b2 b1 b0 : Byte.byte) :
  (k + 2 < length p)%nat →
  <[(k + 2)%nat := b0]> (<[(k + 1)%nat := b1]> (<[k := b2]> p)) !! j =
    if decide (j = k) then Some b2
    else if decide (j = (k + 1)%nat) then Some b1
    else if decide (j = (k + 2)%nat) then Some b0
    else p !! j.
Proof.
  intros Hk. repeat case_decide; subst.
  - rewrite !list_lookup_insert_ne by lia.
    apply list_lookup_insert_eq. lia.
  - rewrite list_lookup_insert_ne by lia.
    apply list_lookup_insert_eq. rewrite length_insert. lia.
  - apply list_lookup_insert_eq. rewrite !length_insert. lia.
  - by rewrite !list_lookup_insert_ne by lia.
Qed.

Section ComposeRaster.

Variables (width height : Z).
Variable row_pointers : list (list Byte.byte).
Variable data0 : list Byte.byte.

Hypothesis width_nonneg : 0 <= width.
Hypothesis height_nonneg : 0 <= height.
Hypothesis size_fits : width * height * 4 < 2 ^ 31.
Hypothesis rows_decoded :
  ∀ y, 0 <= y < height →
    ∃ row, row_pointers !! Z.to_nat y = Some row
           ∧ width * 4 <= Z.of_nat (length row).
Hypothesis data_allocated : Z.of_nat (length data0) = width * height * 4.

Lemma pixelIndex_bounds (x y : Z) :
  0 <= x < width → 0 <= y < height →
  0 <= y * width ∧ 0 <= x + y * width
  ∧ 0 <= pixelIndex width x y ∧ pixelIndex width x y + 4 <= width * height * 4.
Proof. unfold pixelIndex. intros Hx Hy. nia. Qed.

Lemma pixelIndex_apart (x y x' y' : Z) :
  0 <= x < width → 0 <= y < height → 0 <= x' < width → 0 <= y' < height →
  (x, y) ≠ (x', y') →
  pixelIndex width x y + 4 <= pixelIndex width x' y'
  ∨ pixelIndex width x' y' + 4 <= pixelIndex width x y.
Proof.
  unfold pixelIndex. intros Hx Hy Hx' Hy' Hne.
  destruct (Z.lt_trichotomy y y') as [Hlt | [Heq | Hgt]].
  - left. nia.
  - subst y'. assert (x ≠ x') by congruence. lia.
  - right. nia.
Qed.

Lemma put_pixel_step (row : list Byte.byte) (y x : Z) (data : list Byte.byte) :
  0 <= x < width → 0 <= y < height →
  row_pointers !! Z.to_nat y = Some row →
  width * 4 <= Z.of_nat (length row) →
  composed_up_to width height row_pointers data0 y x data →
  ∃ data', put_pixel width row y x data = Some data'
           ∧ composed_up_to width height row_pointers data0 y (x + 1) data'.
Proof.
  intros Hx Hy Hrow Hlen [Hlength Hinv].
  destruct (pixelIndex_bounds x y Hx Hy) as (Hyw & Hxyw & Hlo & Hhi).
  unfold pixelIndex in Hlo, Hhi.
  destruct (lookup_lt_is_Some_2 row (Z.to_nat (x * 4 + 0))) as [b0 Hb0]; [lia |].
  destruct (lookup_lt_is_Some_2 row (Z.to_nat (x * 4 + 1))) as [b1 Hb1]; [lia |].
  destruct (lookup_lt_is_Some_2 row (Z.to_nat (x * 4 + 2))) as [b2 Hb2]; [lia |].
  unfold put_pixel.
  rewrite (int_value_in_range (x * 4)) by lia. cbn [mbind option_bind].
  rewrite (int_value_in_range (y * width)) by lia. cbn [mbind option_bind].
  rewrite (int_value_in_range (x + y * width)) by lia. cbn [mbind option_bind].
  rewrite (int_value_in_range ((x + y * width) * 4)) by lia. cbn [mbind option_bind].
  rewrite !load_in_range by lia.
  rewrite Hb2. cbn [mbind option_bind].
  rewrite store_in_range by lia. cbn [mbind option_bind].
  rewrite Hb1. cbn [mbind option_bind].
  rewrite store_in_range by (rewrite length_insert; lia). cbn [mbind option_bind].
  rewrite Hb0. cbn [mbind option_bind].
  rewrite store_in_range by (rewrite !length_insert; lia).
  eexists. split; [reflexivity |].
  set (k := Z.to_nat ((x + y * width) * 4 + 0)).
  replace (Z.to_nat ((x + y * width) * 4 + 1)) with (k + 1)%nat by lia.
  replace (Z.to_nat ((x + y * width) * 4 + 2)) with (k + 2)%nat by lia.
  assert (k + 2 < length data)%nat as Hk by lia.
  split; [by rewrite !length_insert |].
  intros x' y' Hx' Hy'.
  destruct (Hinv x' y' Hx' Hy') as [Halpha Hdone].
  destruct (pixelIndex_bounds x' y' Hx' Hy') as (_ & _ & Hlo' & Hhi').
  destruct (decide ((x, y) = (x', y'))) as [[= <- <-] | Hother].
  - (* the pixel just written *)
    split.
    + unfold alpha_untouched in *. rewrite <- Halpha.
      rewrite lookup_three_stores by done. unfold pixelIndex in *.
      repeat case_decide; try lia; done.
    + intros _. exists row. split; [done |].
      rewrite !lookup_three_stores by done. unfold pixelIndex.
      rewrite Hb0, Hb1, Hb2.
      repeat split; repeat case_decide; try lia; done.
  - (* another pixel: the three stores are elsewhere *)
    pose proof (pixelIndex_apart x y x' y' Hx Hy Hx' Hy' Hother) as Hapart.
    unfold pixelIndex in Hapart.
    split.
    + unfold alpha_untouched in *. rewrite <- Halpha.
      rewrite lookup_three_stores by done. unfold pixelIndex in *.
      repeat case_decide; try lia; done.
    + intros Hbefore.
      destruct Hdone as (row' & Hrow' & H0 & H1 & H2).
      { destruct Hbefore as [? | [-> Hlt]]; [by left |].
        right. split; [done |].
        assert (x' ≠ x) by congruence. lia. }
      exists row'. split; [done |].
      rewrite !lookup_three_stores by done. unfold pixelIndex in *.
      repeat split; repeat case_decide; try lia; done.
Qed.

Lemma compose_row (row : list Byte.byte) (y : Z) (data : list Byte.byte) (n : nat) :
  Z.of_nat n <= width → 0 <= y < height →
  row_pointers !! Z.to_nat y = Some row →
  width * 4 <= Z.of_nat (length row) →
  composed_up_to width height row_pointers data0 y 0 data →
  ∃ data', for_loop n (λ x data, put_pixel width row y x data) data = Some data'
           ∧ composed_up_to width height row_pointers data0 y (Z.of_nat n) data'.
Proof.
  intros Hn Hy Hrow Hlen Hstart.
  induction n as [| n IH]; cbn [for_loop].
  - by exists data.
  - destruct IH as (data1 & -> & Hinv); [lia |]. cbn [mbind option_bind].
    destruct (put_pixel_step row y (Z.of_nat n) data1) as (data2 & -> & Hinv2);
      [lia | done | done | done | done |].
    exists data2. split; [done |].
    by replace (Z.of_nat (S n)) with (Z.of_nat n + 1) by lia.
Qed.

Lemma next_row (y : Z) (data : list Byte.byte) :
  composed_up_to width height row_pointers data0 y width data →
  composed_up_to width height row_pointers data0 (y + 1) 0 data.
Proof.
  intros [Hlength Hinv]. split; [done |].
  intros x' y' Hx' Hy'. destruct (Hinv x' y' Hx' Hy') as [Halpha Hdone].
  split; [done |]. intros Hbefore. apply Hdone. lia.
Qed.

Lemma compose_rows (n : nat) :
  Z.of_nat n <= height →
  ∃ data,
    for_loop n (λ y data,
      row ← row_pointers !! Z.to_nat y;
      for_loop (Z.to_nat width) (λ x data, put_pixel width row y x data) data)
      data0 = Some data
    ∧ composed_up_to width height row_pointers data0 (Z.of_nat n) 0 data.
Proof.
  intros Hn. induction n as [| n IH]; cbn [for_loop].
  - exists data0. split; [done |]. split; [done |].
    intros x' y' Hx' Hy'. split; [done | lia].
  - destruct IH as (data1 & -> & Hinv); [lia |]. cbn [mbind option_bind].
    destruct (rows_decoded (Z.of_nat n)) as (row & Hrow & Hlen); [lia |].
    rewrite Hrow. cbn [mbind option_bind].
    destruct (compose_row row (Z.of_nat n) data1 (Z.to_nat width))
      as (data2 & -> & Hinv2); [lia | lia | done | done | done |].
    exists data2. split; [done |].
    rewrite Z2Nat.id in Hinv2 by done.
    replace (Z.of_nat (S n)) with (Z.of_nat n + 1) by lia.
    by apply next_row.
Qed.

Lemma compose_raster_composed :
  ∃ data,
    compose_raster width height row_pointers data0 = Some data
    ∧ composed_up_to width height row_pointers data0 height 0 data.
Proof.
  unfold compose_raster.
  destruct (compose_rows (Z.to_nat height)) as (data & Hrun & Hinv); [lia |].
  exists data. split; [done |]. by rewrite Z2Nat.id in Hinv.
Qed.

End ComposeRaster.

Lemma length_malloc (h : World) (size : Z) :
  length (malloc h size) = Z.to_nat size.
Proof. unfold malloc. by rewrite length_map, length_seq. Qed.

Lemma lookup_malloc (h : World) (size : Z) (j : nat) :
  (j < Z.to_nat size)%nat → malloc h size !! j = Some (fresh_memory h j).
Proof.
  intros Hj. unfold malloc. rewrite list_lookup_fmap, lookup_seq_lt by done.
  reflexivity.
Qed.

(** C9, as amended. For an image whose rows were decoded with four bytes a
    pixel, and every pixel (x, y) of it, the raster holds at offset
    (x + y * width) * 4 the source pixel with R and B swapped: byte 0 is
    source byte 2, byte 1 is source byte 1, byte 2 is source byte 0. Byte 3
    is never written: it is the byte the freshly allocated block held. *)
Theorem compose_raster_pixels (h : World) (width height : Z)
    (row_pointers : list (list Byte.byte)) :
  0 <= width → 0 <= height → width * height * 4 < 2 ^ 31 →
  (∀ y, 0 <= y < height →
     ∃ row, row_pointers !! Z.to_nat y = Some row
            ∧ width * 4 <= Z.of_nat (length row)) →
  ∃ data,
    compose_raster width height row_pointers
      (malloc h (to_uint32 (height * to_uint32 (width * 4)))) = Some data
    ∧ ∀ x y, 0 <= x < width → 0 <= y < height →
        ∃ row px0 px1 px2,
          row_pointers !! Z.to_nat y = Some row
          ∧ row !! Z.to_nat (x * 4 + 0) = Some px0
          ∧ row !! Z.to_nat (x * 4 + 1) = Some px1
          ∧ row !! Z.to_nat (x * 4 + 2) = Some px2
          ∧ data !! Z.to_nat ((x + y * width) * 4 + 0) = Some px2
          ∧ data !! Z.to_nat ((x + y * width) * 4 + 1) = Some px1
          ∧ data !! Z.to_nat ((x + y * width) * 4 + 2) = Some px0
          ∧ data !! Z.to_nat ((x + y * width) * 4 + 3) =
              Some (fresh_memory h (Z.to_nat ((x + y * width) * 4 + 3))).
Proof.
  intros Hwidth Hheight Hsize Hrows.
  assert (0 <= width * height) as Hwh by nia.
  assert (to_uint32 (height * to_uint32 (width * 4)) = width * height * 4) as ->.
  { unfold to_uint32.
    destruct (decide (height = 0)) as [-> | Hpos]; [by rewrite Z.mul_0_l, Z.mul_0_r |].
    rewrite (Z.mod_small (width * 4)) by nia.
    rewrite Z.mod_small by nia. lia. }
  destruct (compose_raster_composed width height row_pointers
              (malloc h (width * height * 4)))
    as (data & Hrun & Hlength & Hinv); try done.
  { rewrite length_malloc. lia. }
  exists data. split; [done |]. intros x y Hx Hy.
  destruct (Hinv x y Hx Hy) as [Halpha Hdone].
  destruct Hdone as (row & Hrow & H0 & H1 & H2); [lia |].
  destruct (Hrows y Hy) as (row' & Hrow' & Hlen).
  assert (row' = row) as -> by congruence.
  destruct (lookup_lt_is_Some_2 row (Z.to_nat (x * 4 + 0))) as [px0 Hpx0]; [lia |].
  destruct (lookup_lt_is_Some_2 row (Z.to_nat (x * 4 + 1))) as [px1 Hpx1]; [lia |].
  destruct (lookup_lt_is_Some_2 row (Z.to_nat (x * 4 + 2))) as [px2 Hpx2]; [lia |].
  exists row, px0, px1, px2. unfold pixelIndex in *.
  repeat (split; [congruence |]).
  unfold alpha_untouched, pixelIndex in Halpha. rewrite Halpha.
  apply lookup_malloc.
  assert (0 <= (x + y * width) * 4 ∧ (x + y * width) * 4 + 4 <= width * height * 4)
    by nia.
  lia.
Qed.

Lemma compose_raster_pixels_witness :
  ∃ data,
    compose_raster 1 1 one_pixel
      (malloc quiet_world (to_uint32 (1 * to_uint32 (1 * 4)))) = Some data
    ∧ ∀ x y, 0 <= x < 1 → 0 <= y < 1 →
        ∃ row px0 px1 px2,
          one_pixel !! Z.to_nat y = Some row
          ∧ row !! Z.to_nat (x * 4 + 0) = Some px0
          ∧ row !! Z.to_nat (x * 4 + 1) = Some px1
          ∧ row !! Z.to_nat (x * 4 + 2) = Some px2
          ∧ data !! Z.to_nat ((x + y * 1) * 4 + 0) = Some px2
          ∧ data !! Z.to_nat ((x + y * 1) * 4 + 1) = Some px1
          ∧ data !! Z.to_nat ((x + y * 1) * 4 + 2) = Some px0
          ∧ data !! Z.to_nat ((x + y * 1) * 4 + 3) =
              Some (fresh_memory quiet_world (Z.to_nat ((x + y * 1) * 4 + 3))).
Proof.
  apply (compose_raster_pixels quiet_world 1 1 one_pixel); [lia | lia | lia |].
  intros y Hy. assert (y = 0) as -> by lia.
  exists [Byte.x10; Byte.x20; Byte.x30; Byte.x40]. split; [reflexivity | cbn; lia].
Defined.

(** C9, as stated, fails on the alpha byte: the block comes from malloc and
    the loops write three bytes a pixel, so byte 3 is whatever the block
    held, here 0xff. *)
Lemma compose_raster_alpha_not_zero :
  compose_raster 1 1 one_pixel
    (malloc quiet_world (to_uint32 (1 * to_uint32 (1 * 4))))
  = Some [Byte.x30; Byte.x20; Byte.x10; Byte.xff]
  ∧ [Byte.x30; Byte.x20; Byte.x10; Byte.xff] !! Z.to_nat ((0 + 0 * 1) * 4 + 3)
      = Some Byte.xff
  ∧ Byte.xff ≠ Byte.x00.
Proof. split; [reflexivity |]. split; [reflexivity | discriminate]. Qed.

(** ** InitializeAtoms on a live connection *)

Lemma interned_names_app (t1 t2 : list Effect) :
  interned_names (t1 ++ t2) = interned_names t1 ++ interned_names t2.
Proof. unfold interned_names. by rewrite requests_app, omap_app. Qed.

Lemma GetAtom_live (atomName : string) (w : XcbNativeWindow) (h : World) :
  has_error h = false → atom_table_ok h →
  ∃ atom h',
    GetAtom atomName w h =
      Some (atom, w, h',
            [Xcb (InternAtom 0 (to_uint16 (Z.of_nat (String.length atomName)))
                    atomName)])
    ∧ has_error h' = false ∧ atom_table_ok h'
    ∧ atom_table h' !! interned_key atomName = Some atom
    ∧ (∀ k a, atom_table h !! k = Some a → atom_table h' !! k = Some a).
Proof.
  intros Hlive [Hle Hinj]. unfold GetAtom, xcb_intern_atom_reply. run.
  rewrite Hlive. run. fold (interned_key atomName).
  destruct (atom_table h !! interned_key atomName) as [atom |] eqn:Hknown; run.
  - exists atom, h. by repeat split.
  - eexists _, _. split; [reflexivity |]. unfold atom_table_ok.
    cbn [has_error atom_table last_atom set_atom_table].
    split; [done |]. split; [split |].
    + intros k a. rewrite lookup_insert. case_decide; [intros [= <-]; lia |].
      intros Hk. apply Hle in Hk. lia.
    + intros k k' a. rewrite !lookup_insert.
      repeat case_decide; subst; try done.
      * intros [= <-] Hk'. apply Hle in Hk'. lia.
      * intros Hk [= <-]. apply Hle in Hk. lia.
      * apply Hinj.
    + split; [apply lookup_insert_eq |].
      intros k a Hk. rewrite lookup_insert_ne; [done |]. congruence.
Qed.

Lemma distinct_names_distinct_atoms (table : gmap string Z)
    (names : list string) (values : list Z) :
  (∀ k k' a, table !! k = Some a → table !! k' = Some a → k = k') →
  Forall2 (λ k a, table !! k = Some a) names values →
  NoDup names → NoDup values.
Proof.
  intros Hinj Hall. induction Hall as [| k a names values Hk Hall IH].
  - constructor.
  - intros Hnd. apply NoDup_cons in Hnd as [Hfresh Hnd].
    apply NoDup_cons. split; [| by apply IH].
    intros Hin. apply Hfresh.
    apply list_elem_of_lookup in Hin as [i Hi].
    destruct (Forall2_lookup_r _ _ _ _ _ Hall Hi) as (k' & Hk' & Hka).
    rewrite (Hinj k k' a Hk Hka). by eapply list_elem_of_lookup_2.
Qed.

Ltac step_GetAtom Hlive Hok :=
  match goal with
  | |- context [GetAtom ?name ?w ?h] =>
      let atom := fresh "atom" in
      let h' := fresh "h" in
      let Heq := fresh "Heq" in
      let Hlive' := fresh "Hlive" in
      let Hok' := fresh "Hok" in
      let Hkey := fresh "Hkey" in
      let Hsub := fresh "Hsub" in
      destruct (GetAtom_live name w h Hlive Hok)
        as (atom & h' & Heq & Hlive' & Hok' & Hkey & Hsub);
      rewrite Heq; clear Heq; run;
      repeat match goal with
             | H : atom_table h !! _ = Some _ |- _ => apply Hsub in H
             end;
      clear Hsub
  end.

(** A window initialised on a live connection asks for each of its
    thirteen names once, in the order of the source, and the thirteen atoms
    it stores are different tokens. *)
Lemma InitializeAtoms_live (w : XcbNativeWindow) (h : World) :
  has_error h = false → atom_table_ok h →
  ∃ w' h' t,
    InitializeAtoms w h = Some (tt, w', h', t)
    ∧ interned_names t = atom_names
    ∧ NoDup (atom_values (atoms w')).
Proof.
  intros Hlive Hok. unfold InitializeAtoms. run.
  step_GetAtom Hlive Hok. step_GetAtom Hlive0 Hok0.
  step_GetAtom Hlive1 Hok1. step_GetAtom Hlive2 Hok2.
  step_GetAtom Hlive3 Hok3. step_GetAtom Hlive4 Hok4.
  step_GetAtom Hlive5 Hok5. step_GetAtom Hlive6 Hok6.
  step_GetAtom Hlive7 Hok7. step_GetAtom Hlive8 Hok8.
  step_GetAtom Hlive9 Hok9. step_GetAtom Hlive10 Hok10.
  step_GetAtom Hlive11 Hok11.
  eexists _, _, _. split; [reflexivity |]. split; [reflexivity |].
  cbn [atoms set_atoms atom_values _NET_ACTIVE_WINDOW _NET_WM_BYPASS_COMPOSITOR
       WM_PROTOCOLS WM_DELETE_WINDOW _NET_WM_PING _NET_WM_STATE
       _NET_WM_STATE_FULLSCREEN _NET_WM_STATE_MAXIMIZED_VERT
       _NET_WM_STATE_MAXIMIZED_HORZ _NET_MOVERESIZE_WINDOW
       _NET_REQUEST_FRAME_EXTENTS _NET_FRAME_EXTENTS _NET_WM_PID].
  destruct Hok12 as [_ Hinj].
  apply (distinct_names_distinct_atoms (atom_table h12) atom_names); [done | |].
  - repeat (constructor; [done |]). constructor.
  - apply (bool_decide_unpack _). by vm_compute.
Qed.

(** The atoms the state machine compares are then different tokens. *)
Lemma distinct_state_atoms (a : WmAtoms) :
  NoDup (atom_values a) →
  _NET_WM_STATE_MAXIMIZED_HORZ a ≠ _NET_WM_STATE_FULLSCREEN a
  ∧ _NET_WM_STATE_MAXIMIZED_VERT a ≠ _NET_WM_STATE_FULLSCREEN a
  ∧ _NET_WM_STATE_MAXIMIZED_VERT a ≠ _NET_WM_STATE_MAXIMIZED_HORZ a
  ∧ _NET_WM_PING a ≠ WM_DELETE_WINDOW a.
Proof.
  unfold atom_values. intros Hnd.
  repeat match goal with
         | H : NoDup (_ :: _) |- _ => apply NoDup_cons in H as [? ?]
         end.
  repeat split; intros Heq; set_solver.
Qed.

Example InitializeAtoms_sample :
  ∃ h' t,
    InitializeAtoms (sample_window false false false false) quiet_world
      = Some (tt, sample_window false false false false, h', t)
    ∧ last_atom h' = 81.
Proof. eexists _, _. split; vm_compute; reflexivity. Qed.

(** ** A splash presentation from end to end *)

Example DrawSplash_sample :
  ∃ h',
    DrawSplash (sample_window false false false false) splash_world
      = Some (tt, sample_window false false false false, h',
              [Xcb (CreatePixmap 24 4194306 4194305 1 1);
               Xcb (PutImage 4194306 4194304
                      {| image_width := 1; image_height := 1;
                         image_format := XCB_IMAGE_FORMAT_Z_PIXMAP;
                         image_depth := 24; image_size := 4;
                         image_data := [Byte.x30; Byte.x20; Byte.x10; Byte.xff] |}
                      0 0 0);
               Flush;
               WaitForEvent;
               WaitForEvent;
               Xcb (CopyArea 4194306 4194305 4194304 0 0 639 359 1280 720);
               Flush;
               Xcb (FreePixmap 4194306)])
    ∧ event_queue h' = [OtherEvent 9].
Proof. eexists. split; vm_compute; reflexivity. Qed.

(** Without an exposure in the queue the presenter never returns. *)
Lemma DrawSplash_wait_no_exposure (pixmap width height : Z)
    (queue : list xcb_generic_event_t) (w : XcbNativeWindow) (h : World) :
  Forall (λ event, Z.land (response_type event) (Z.lnot 128) ≠ XCB_EXPOSE) queue →
  DrawSplash_wait pixmap width height queue w h = None.
Proof.
  intros Hnone. revert h.
  induction Hnone as [| event queue Hevent _ IH]; intros h; cbn [DrawSplash_wait].
  - reflexivity.
  - run. apply Z.eqb_neq in Hevent. rewrite Hevent. by rewrite IH.
Qed.

(** * Further properties of the code *)

(** ** Size changes, from the application and from the server *)

Lemma WindowSizeChanged_changed (w : XcbNativeWindow) (h : World) (width height : Z) :
  (width, height) ≠ (m_width w, m_height w) →
  WindowSizeChanged width height w h =
    Some (tt, set_size width height w, h, size_notifications w width height).
Proof.
  intros Hne. unfold WindowSizeChanged, size_notifications, GetWindowHandle. run.
  destruct (negb (m_width w =? width) || negb (m_height w =? height)) eqn:Hc.
  - run. destruct (m_activated w); run; [| reflexivity].
    destruct (m_enableCustomizedResolution w); run; reflexivity.
  - apply orb_false_elim in Hc as [Hw Hh].
    apply negb_false_iff, Z.eqb_eq in Hw, Hh. congruence.
Qed.

Lemma WindowSizeChanged_returns (w : XcbNativeWindow) (h : World) (width height : Z) :
  WindowSizeChanged width height w h =
    Some (tt, set_size width height w, h,
          if decide ((width, height) = (m_width w, m_height w)) then []
          else size_notifications w width height).
Proof.
  case_decide as Hsame.
  - injection Hsame as -> ->. rewrite set_size_same. apply WindowSizeChanged_same.
  - by apply WindowSizeChanged_changed.
Qed.

Lemma uint16_as_uint32 (z : Z) : 0 <= z < 2 ^ 16 → to_uint32 z = z.
Proof. intros Hz. unfold to_uint32. apply Z.mod_small. lia. Qed.

Lemma HandleXcbEvent_configure (mask : Z) (w : XcbNativeWindow) (h : World)
    (cne : xcb_configure_notify_event_t) :
  Z.land (cne_response_type cne) mask = XCB_CONFIGURE_NOTIFY →
  0 <= cne_width cne < 2 ^ 16 → 0 <= cne_height cne < 2 ^ 16 →
  HandleXcbEvent mask (ConfigureNotifyEvent cne) w h =
    Some (tt, set_size (cne_width cne) (cne_height cne) w, h,
          if decide ((cne_width cne, cne_height cne) = (m_width w, m_height w))
          then [] else size_notifications w (cne_width cne) (cne_height cne)).
Proof.
  intros Hcode Hwidth Hheight. unfold HandleXcbEvent. cbn [response_type].
  rewrite Hcode, Z.eqb_refl. run.
  destruct (negb (cne_width cne =? m_width w) || negb (cne_height cne =? m_height w))
    eqn:Hc.
  - rewrite !uint16_as_uint32 by done. by rewrite WindowSizeChanged_returns.
  - apply orb_false_elim in Hc as [Hw Hh].
    apply negb_false_iff, Z.eqb_eq in Hw, Hh. rewrite Hw, Hh.
    rewrite set_size_same. by rewrite decide_True.
Qed.

(** X1. A configure notify that reports another size than the stored one
    stores the reported size and publishes what a size change publishes on
    this window (resize, then resolution change, according to activation
    and to the customized-resolution flag); one that reports the stored
    size does nothing; and handling the same event a second time does
    nothing in either case. *)
Theorem HandleXcbEvent_configure_notify (mask : Z) (w : XcbNativeWindow) (h : World)
    (cne : xcb_configure_notify_event_t) :
  Z.land (cne_response_type cne) mask = XCB_CONFIGURE_NOTIFY →
  0 <= cne_width cne < 2 ^ 16 → 0 <= cne_height cne < 2 ^ 16 →
  ∃ w1 t1,
    HandleXcbEvent mask (ConfigureNotifyEvent cne) w h = Some (tt, w1, h, t1)
    ∧ m_width w1 = cne_width cne ∧ m_height w1 = cne_height cne
    ∧ ((cne_width cne, cne_height cne) ≠ (m_width w, m_height w) →
       t1 = size_notifications w (cne_width cne) (cne_height cne))
    ∧ ((cne_width cne, cne_height cne) = (m_width w, m_height w) →
       w1 = w ∧ t1 = [])
    ∧ HandleXcbEvent mask (ConfigureNotifyEvent cne) w1 h = Some (tt, w1, h, []).
Proof.
  intros Hcode Hwidth Hheight.
  eexists _, _. split; [by apply HandleXcbEvent_configure |].
  split; [reflexivity |]. split; [reflexivity |].
  split; [intros Hne; by rewrite decide_False |].
  split.
  - intros Hsame. rewrite decide_True by done.
    injection Hsame as -> ->. by rewrite set_size_same.
  - rewrite HandleXcbEvent_configure by done.
    cbn [set_size m_width m_height]. rewrite decide_True by done.
    by destruct w.
Qed.

Lemma HandleXcbEvent_configure_notify_witness :
  let w := sample_window true false false false in
  ∃ w1 t1,
    HandleXcbEvent 127 (ConfigureNotifyEvent (configure_notify 1920 1080)) w quiet_world
      = Some (tt, w1, quiet_world, t1)
    ∧ m_width w1 = 1920 ∧ m_height w1 = 1080
    ∧ ((1920, 1080) ≠ (m_width w, m_height w) →
       t1 = size_notifications w 1920 1080)
    ∧ ((1920, 1080) = (m_width w, m_height w) → w1 = w ∧ t1 = [])
    ∧ HandleXcbEvent 127 (ConfigureNotifyEvent (configure_notify 1920 1080)) w1
        quiet_world = Some (tt, w1, quiet_world, []).
Proof.
  apply (HandleXcbEvent_configure_notify 127 (sample_window true false false false)
           quiet_world (configure_notify 1920 1080)); [reflexivity | cbn; lia..].
Defined.

(** X2. ResizeClientArea always sends the configure request and always
    leaves the requested size stored. An activated window is unmapped
    before the request and mapped and flushed after it; a window that is
    not activated gets the request alone. The size change is published
    after the requests, and only when the requested size is not the stored
    one. *)
Theorem ResizeClientArea_outcome (w : XcbNativeWindow) (h : World)
    (width height : Z) :
  ResizeClientArea width height w h =
    Some (tt, set_size width height w, h,
          (if m_activated w then [Xcb (UnmapWindow (m_xcbWindow w))] else [])
          ++ [Xcb (ConfigureWindow (m_xcbWindow w) 12 [width; height])]
          ++ (if m_activated w then [Xcb (MapWindow (m_xcbWindow w)); Flush] else [])
          ++ (if decide ((width, height) = (m_width w, m_height w)) then []
              else size_notifications w width height)).
Proof.
  unfold ResizeClientArea. run.
  destruct (m_activated w) eqn:Hactive; run;
    rewrite WindowSizeChanged_returns; reflexivity.
Qed.

(** X3. After ResizeClientArea, the configure notify by which the server
    confirms the new size is not published a second time: the stored size
    is already the reported one. *)
Theorem ResizeClientArea_then_configure_notify (mask : Z) (w : XcbNativeWindow)
    (h : World) (cne : xcb_configure_notify_event_t) :
  Z.land (cne_response_type cne) mask = XCB_CONFIGURE_NOTIFY →
  0 <= cne_width cne < 2 ^ 16 → 0 <= cne_height cne < 2 ^ 16 →
  ∃ w1 t1,
    ResizeClientArea (cne_width cne) (cne_height cne) w h = Some (tt, w1, h, t1)
    ∧ HandleXcbEvent mask (ConfigureNotifyEvent cne) w1 h = Some (tt, w1, h, []).
Proof.
  intros Hcode Hwidth Hheight. rewrite ResizeClientArea_outcome.
  eexists _, _. split; [reflexivity |].
  rewrite HandleXcbEvent_configure by done.
  cbn [set_size m_width m_height]. rewrite decide_True by done. by destruct w.
Qed.

Lemma ResizeClientArea_then_configure_notify_witness :
  ∃ w1 t1,
    ResizeClientArea 1920 1080 (sample_window true false false false) quiet_world
      = Some (tt, w1, quiet_world, t1)
    ∧ HandleXcbEvent 127 (ConfigureNotifyEvent (configure_notify 1920 1080)) w1
        quiet_world = Some (tt, w1, quiet_world, []).
Proof.
  apply (ResizeClientArea_then_configure_notify 127
           (sample_window true false false false) quiet_world
           (configure_notify 1920 1080)); [reflexivity | cbn; lia..].
Defined.

(** ** What the event dispatch leaves alone *)

(** X4. An event of a kind other than configure notify and client message,
    a client message that is not a 32-bit WM_PROTOCOLS message, and a
    WM_PROTOCOLS message with a protocol atom other than delete-window and
    ping are all dropped: nothing is sent or published, the window object
    and the world stay as they are. *)
Theorem HandleXcbEvent_not_dispatched (mask : Z) (w : XcbNativeWindow) (h : World)
    (event : xcb_generic_event_t) :
  not_dispatched mask w event →
  HandleXcbEvent mask event w h = Some (tt, w, h, []).
Proof.
  intros [[Hnot22 Hnot33] | (cme & -> & Hcode & Hforeign)]; unfold HandleXcbEvent.
  - apply Z.eqb_neq in Hnot22, Hnot33. by rewrite Hnot22, Hnot33.
  - cbn [response_type]. rewrite Hcode.
    cbn [Z.eqb XCB_CLIENT_MESSAGE XCB_CONFIGURE_NOTIFY Pos.eqb]. run.
    destruct Hforeign as [Htype | [Hformat | [Hdelete Hping]]].
    + apply Z.eqb_neq in Htype. by rewrite Htype.
    + apply Z.eqb_neq in Hformat. unfold s_XcbFormatDataSize.
      rewrite Hformat, andb_false_r. reflexivity.
    + apply Z.eqb_neq in Hdelete, Hping. rewrite Hdelete, Hping.
      by destruct ((cme_type cme =? WM_PROTOCOLS (atoms w))
                   && (cme_format cme =? s_XcbFormatDataSize)).
Qed.

Lemma HandleXcbEvent_not_dispatched_witness :
  let w := sample_window true false false false in
  HandleXcbEvent 127 (ClientMessageEvent (wm_message 4194305 69)) w quiet_world
    = Some (tt, w, quiet_world, []).
Proof.
  apply (HandleXcbEvent_not_dispatched 127 (sample_window true false false false)
           quiet_world (ClientMessageEvent (wm_message 4194305 69))).
  right. exists (wm_message 4194305 69).
  split; [reflexivity |]. split; [reflexivity |].
  right. right. split; discriminate.
Defined.

(** X5. Whatever the event, a dispatch that returns has changed nothing of
    the window object but its size or its activation: the ids, the
    position, the fullscreen and maximize flags and the atoms are those of
    before. It leaves the world as it was, and among its requests there is
    no map request: an event never shows the window. *)
Theorem HandleXcbEvent_frame (mask : Z) (w w' : XcbNativeWindow) (h h' : World)
    (event : xcb_generic_event_t) (t : list Effect) :
  HandleXcbEvent mask event w h = Some (tt, w', h', t) →
  same_identity w w' ∧ h' = h
  ∧ List.filter is_map_request (requests t) = [].
Proof.
  unfold HandleXcbEvent.
  destruct (Z.land (response_type event) mask =? XCB_CONFIGURE_NOTIFY);
    [| destruct (Z.land (response_type event) mask =? XCB_CLIENT_MESSAGE)];
    destruct event as [cne | cme | x | code]; try discriminate.
  - run.
    destruct (negb (cne_width cne =? m_width w) || negb (cne_height cne =? m_height w)).
    + rewrite WindowSizeChanged_returns. intros [= <- <- <-].
      split; [by repeat split |]. split; [done |].
      case_decide; [done |]. unfold size_notifications.
      by destruct (m_activated w), (m_enableCustomizedResolution w).
    + intros [= <- <- <-]. by repeat split.
  - run.
    destruct ((cme_type cme =? WM_PROTOCOLS (atoms w))
              && (cme_format cme =? s_XcbFormatDataSize));
      [| intros [= <- <- <-]; by repeat split].
    destruct (data32_0 (cme_data cme) =? WM_DELETE_WINDOW (atoms w)).
    + run. destruct (m_activated w) eqn:Hactive.
      * rewrite (Deactivate_activated w h Hactive). run.
        intros [= <- <- <-]. by repeat split.
      * rewrite (Deactivate_deactivated w h Hactive). run.
        intros [= <- <- <-]. by repeat split.
    + destruct ((data32_0 (cme_data cme) =? _NET_WM_PING (atoms w))
                && negb (cme_window cme =? root (m_xcbRootScreen w)));
        run; intros [= <- <- <-]; by repeat split.
  - intros [= <- <- <-]. by repeat split.
  - intros [= <- <- <-]. by repeat split.
  - intros [= <- <- <-]. by repeat split.
  - intros [= <- <- <-]. by repeat split.
Qed.

Lemma HandleXcbEvent_frame_witness :
  let w := sample_window true true true false in
  same_identity w (set_activated false w) ∧ quiet_world = quiet_world
  ∧ List.filter is_map_request
      (requests [OnWindowClosed 4194305; Xcb (UnmapWindow 4194305);
                 Flush; BusDisconnect; ExitMainLoop]) = [].
Proof.
  apply (HandleXcbEvent_frame 127 (sample_window true true true false)
           (set_activated false (sample_window true true true false))
           quiet_world quiet_world
           (ClientMessageEvent (wm_message 4194305 72))
           [OnWindowClosed 4194305; Xcb (UnmapWindow 4194305);
            Flush; BusDisconnect; ExitMainLoop]).
  reflexivity.
Defined.

(** ** Activation and deactivation *)

(** X6. Deactivating twice publishes the closed notification at most once:
    the first call publishes it exactly when the window was activated, the
    second call only disconnects from the event bus, sends nothing and
    changes nothing. *)
Theorem Deactivate_twice (w : XcbNativeWindow) (h : World) :
  ∃ w1 t1,
    Deactivate w h = Some (tt, w1, h, t1)
    ∧ m_activated w1 = false
    ∧ notifications t1 =
        (if m_activated w then [OnWindowClosed (m_xcbWindow w)] else [])
    ∧ Deactivate w1 h = Some (tt, w1, h, [BusDisconnect]).
Proof.
  destruct (m_activated w) eqn:Hactive.
  - rewrite (Deactivate_activated w h Hactive). eexists _, _.
    split; [reflexivity |]. split; [reflexivity |]. split; [reflexivity |].
    by apply Deactivate_deactivated.
  - rewrite (Deactivate_deactivated w h Hactive). eexists _, _.
    split; [reflexivity |]. split; [done |]. split; [reflexivity |].
    by apply Deactivate_deactivated.
Qed.

(** X7. A delete-window message that reaches a window which is not
    activated publishes no closed notification, sends no request and leaves
    the window object as it is, and still broadcasts the exit request. *)
Theorem HandleXcbEvent_delete_window_deactivated (mask : Z) (w : XcbNativeWindow)
    (h : World) (cme : xcb_client_message_event_t) :
  m_activated w = false →
  Z.land (cme_response_type cme) mask = XCB_CLIENT_MESSAGE →
  cme_type cme = WM_PROTOCOLS (atoms w) →
  cme_format cme = 32 →
  data32_0 (cme_data cme) = WM_DELETE_WINDOW (atoms w) →
  HandleXcbEvent mask (ClientMessageEvent cme) w h =
    Some (tt, w, h, [BusDisconnect; ExitMainLoop]).
Proof.
  intros Hoff Hcode Htype Hformat Hatom.
  unfold HandleXcbEvent. cbn [response_type]. rewrite Hcode.
  cbn [Z.eqb XCB_CLIENT_MESSAGE XCB_CONFIGURE_NOTIFY Pos.eqb].
  run. rewrite Htype, Hformat, Hatom, !Z.eqb_refl. cbn [andb].
  run. rewrite (Deactivate_deactivated w h Hoff). by run.
Qed.

Lemma HandleXcbEvent_delete_window_deactivated_witness :
  let w := sample_window false false false false in
  HandleXcbEvent 127 (ClientMessageEvent (wm_message 4194305 72)) w quiet_world
    = Some (tt, w, quiet_world, [BusDisconnect; ExitMainLoop]).
Proof.
  apply (HandleXcbEvent_delete_window_deactivated 127
           (sample_window false false false false) quiet_world
           (wm_message 4194305 72)); reflexivity.
Defined.

(** ** The splash presenter, path by path *)

Lemma DrawSplash_wait_exposure (pixmap width height : Z)
    (pre post : list xcb_generic_event_t) (x : xcb_expose_event_t)
    (w : XcbNativeWindow) (h : World) :
  no_exposure pre →
  Z.land (exp_response_type x) (Z.lnot 128) = XCB_EXPOSE →
  DrawSplash_wait pixmap width height (pre ++ ExposeEvent x :: post) w h =
    Some (tt, w, set_event_queue post h,
          replicate (S (length pre)) WaitForEvent
          ++ [Xcb (splash_copy w pixmap width height x); Flush]).
Proof.
  intros Hpre Hcode. revert h.
  induction Hpre as [| event pre Hevent _ IH]; intros h;
    cbn [app DrawSplash_wait]; run.
  - cbn [response_type]. rewrite Hcode, Z.eqb_refl. by run.
  - apply Z.eqb_neq in Hevent. rewrite Hevent, IH. reflexivity.
Qed.

Lemma DrawSplash_wait_keeps_window (pixmap width height : Z)
    (queue : list xcb_generic_event_t) :
  ∀ (w w' : XcbNativeWindow) (h h' : World) (t : list Effect),
    DrawSplash_wait pixmap width height queue w h = Some (tt, w', h', t) →
    w' = w ∧ notifications t = [].
Proof.
  induction queue as [| event queue IH]; intros w w' h h' t;
    cbn [DrawSplash_wait]; run; [discriminate |].
  destruct (Z.land (response_type event) (Z.lnot 128) =? XCB_EXPOSE).
  - destruct event; try discriminate. run. by intros [= <- <- <-].
  - destruct (DrawSplash_wait pixmap width height queue w (set_event_queue queue h))
      as [[[[[] w1] h1] t1] |] eqn:Hrest; [| discriminate].
    intros [= <- <- <-]. apply IH in Hrest as [-> Hquiet]. split; [done |].
    unfold notifications in *. by cbn [List.filter is_notification].
Qed.

(** With the file opened, the image decoded and the pixmap granted,
    DrawSplash is the three requests that upload the raster, the wait, and
    the release of the pixmap. *)
Lemma DrawSplash_uploads (w : XcbNativeWindow) (h : World) (fp : png_image) :
  splash_file h fp → decoded_rgba fp →
  request_check h (pixmap_request w h fp) = None →
  ∃ data,
    compose_raster (png_width fp) (png_height fp) (png_rows fp)
      (malloc h (png_width fp * png_height fp * 4)) = Some data
    ∧ DrawSplash w h =
        match DrawSplash_wait (last_xid h + 1) (png_width fp) (png_height fp)
                (event_queue h) w (set_last_xid (last_xid h + 1) h) with
        | Some (_, w', h', t) =>
            Some (tt, w', h',
                  [Xcb (pixmap_request w h fp);
                   Xcb (PutImage (last_xid h + 1) (m_xcbGraphicContext w)
                          (splash_image fp data) 0 0 0);
                   Flush] ++ t ++ [Xcb (FreePixmap (last_xid h + 1))])
        | None => None
        end.
Proof.
  intros (path & cache & Hpath & Hcache & Hfile) (Hwidth & Hheight & Hsize & Hrows)
    Hgranted.
  destruct (compose_raster_composed (png_width fp) (png_height fp) (png_rows fp)
              (malloc h (png_width fp * png_height fp * 4)))
    as (data & Hdata & _); [lia | lia | done | done | |].
  { rewrite length_malloc. nia. }
  exists data. split; [done |].
  unfold DrawSplash. run. rewrite Hpath, Hcache, Hfile.
  rewrite (int_value_in_range (png_width fp * 4)) by nia. run.
  assert (to_uint32 (png_height fp * to_uint32 (png_width fp * 4))
          = png_width fp * png_height fp * 4) as ->.
  { unfold to_uint32. rewrite (Z.mod_small (png_width fp * 4)) by nia.
    rewrite Z.mod_small by nia. lia. }
  rewrite Hdata. unfold xcb_generate_id. run.
  unfold pixmap_request in Hgranted. rewrite Hgranted.
  rewrite (int_value_in_range (png_width fp * png_height fp * 4)) by nia. run.
  cbn [event_queue set_last_xid].
  destruct (DrawSplash_wait _ _ _ _ _ _) as [[[[[] w1] h1] t1] |]; reflexivity.
Qed.

(** The window object is not DrawSplash's to change, and nothing is
    published while it runs. *)
Lemma DrawSplash_keeps_window (w w' : XcbNativeWindow) (h h' : World)
    (t : list Effect) :
  DrawSplash w h = Some (tt, w', h', t) → w' = w ∧ notifications t = [].
Proof.
  unfold DrawSplash. run.
  destruct (settings_get h SplashLogoSetregPath); [| by intros [= <- <- <-]].
  destruct (settings_get h AssetsSetregPath); [| by intros [= <- <- <-]].
  destruct (files h !! _) as [fp |]; [| by intros [= <- <- <-]].
  destruct (int_value (png_width fp * 4)); run; [| discriminate].
  destruct (compose_raster _ _ _ _); run; [| discriminate].
  unfold xcb_generate_id. run.
  destruct (request_check h _); run; [by intros [= <- <- <-] |].
  destruct (int_value (png_width fp * png_height fp * 4)); run; [| discriminate].
  cbn [event_queue set_last_xid].
  destruct (DrawSplash_wait _ _ _ _ _ _) as [[[[[] w1] h1] t1] |] eqn:Hwait;
    [| discriminate].
  apply DrawSplash_wait_keeps_window in Hwait as [-> Hquiet].
  intros [= <- <- <-]. split; [done |].
  unfold notifications in *. cbn [List.filter is_notification app].
  rewrite ?List.filter_app, ?Hquiet. reflexivity.
Qed.

(** X8. When the splash file is opened and decoded and the pixmap is
    granted, DrawSplash uploads the raster, drops every event that comes
    before the first exposure, answers the exposure with one copy of the
    pixmap into the window, frees the pixmap and returns; the events behind
    the exposure stay in the queue and the window object is unchanged. *)
Theorem DrawSplash_presents (w : XcbNativeWindow) (h : World) (fp : png_image)
    (pre post : list xcb_generic_event_t) (x : xcb_expose_event_t) :
  splash_file h fp → decoded_rgba fp →
  request_check h (pixmap_request w h fp) = None →
  event_queue h = pre ++ ExposeEvent x :: post →
  no_exposure pre →
  Z.land (exp_response_type x) (Z.lnot 128) = XCB_EXPOSE →
  ∃ data h',
    compose_raster (png_width fp) (png_height fp) (png_rows fp)
      (malloc h (png_width fp * png_height fp * 4)) = Some data
    ∧ DrawSplash w h =
        Some (tt, w, h',
              [Xcb (pixmap_request w h fp);
               Xcb (PutImage (last_xid h + 1) (m_xcbGraphicContext w)
                      (splash_image fp data) 0 0 0);
               Flush]
              ++ replicate (S (length pre)) WaitForEvent
              ++ [Xcb (splash_copy w (last_xid h + 1) (png_width fp) (png_height fp) x);
                  Flush;
                  Xcb (FreePixmap (last_xid h + 1))])
    ∧ event_queue h' = post.
Proof.
  intros Hfile Himage Hgranted Hqueue Hpre Hcode.
  destruct (DrawSplash_uploads w h fp Hfile Himage Hgranted) as (data & Hdata & ->).
  rewrite Hqueue, (DrawSplash_wait_exposure _ _ _ pre post x) by done.
  exists data. eexists. split; [done |].
  split; [by rewrite <- !app_assoc | reflexivity].
Qed.

Lemma DrawSplash_presents_witness :
  let w := sample_window false false false false in
  ∃ data h',
    compose_raster 1 1 one_pixel (malloc splash_world (1 * 1 * 4)) = Some data
    ∧ DrawSplash w splash_world =
        Some (tt, w, h',
              [Xcb (pixmap_request w splash_world
                      {| png_width := 1; png_height := 1; png_rows := one_pixel |});
               Xcb (PutImage (4194305 + 1) (m_xcbGraphicContext w)
                      (splash_image
                         {| png_width := 1; png_height := 1; png_rows := one_pixel |}
                         data) 0 0 0);
               Flush]
              ++ replicate (S (length [OtherEvent 19])) WaitForEvent
              ++ [Xcb (splash_copy w (4194305 + 1) 1 1 sample_exposure);
                  Flush;
                  Xcb (FreePixmap (4194305 + 1))])
    ∧ event_queue h' = [OtherEvent 9].
Proof.
  apply (DrawSplash_presents (sample_window false false false false) splash_world
           {| png_width := 1; png_height := 1; png_rows := one_pixel |}
           [OtherEvent 19] [OtherEvent 9] sample_exposure).
  - exists "splash.png"%string, "/home/o3de/Cache"%string.
    split; [reflexivity |]. split; reflexivity.
  - split; [cbn; lia |]. split; [cbn; lia |]. split; [cbn; lia |].
    intros y Hy. cbn in Hy. assert (y = 0) as -> by lia.
    exists [Byte.x10; Byte.x20; Byte.x30; Byte.x40]. split; [reflexivity | cbn; lia].
  - reflexivity.
  - reflexivity.
  - constructor; [discriminate | constructor].
  - reflexivity.
Defined.

(** X9. Two splash failures that come after the settings were read do not
    keep the window from being activated: when the file cannot be opened,
    or when the file holds an image of at least one pixel, decoded with
    four bytes a pixel and smaller than 2^31 bytes, and the server refuses
    the pixmap, Activate on a window that is not activated maps it,
    flushes, returns and leaves it activated, without having waited for an
    event or drawn anything. *)
Theorem Activate_survives_splash_failure (w : XcbNativeWindow) (h : World) :
  m_activated w = false →
  splash_file_missing h
  ∨ (∃ fp, splash_file h fp ∧ decoded_rgba fp
           ∧ request_check h (pixmap_request w h fp) ≠ None) →
  ∃ h' t,
    Activate w h =
      Some (tt, set_activated true w, h',
            [BusConnect; Xcb (MapWindow (m_xcbWindow w)); Flush] ++ t)
    ∧ List.filter is_wait_or_drawing t = [].
Proof.
  intros Hoff Hfails. unfold Activate. run. rewrite Hoff. cbn [negb]. run.
  destruct Hfails as [(path & cache & Hpath & Hcache & Hfile)
                     | (fp & (path & cache & Hpath & Hcache & Hfile)
                        & (Hwidth & Hheight & Hsize & Hrows) & Hrefused)].
  - unfold DrawSplash. run. rewrite Hpath, Hcache, Hfile. run.
    by eexists _, _.
  - destruct (compose_raster_composed (png_width fp) (png_height fp) (png_rows fp)
                (malloc h (png_width fp * png_height fp * 4)))
      as (data & Hdata & _); [lia | lia | done | done | |].
    { rewrite length_malloc. nia. }
    unfold DrawSplash. run. rewrite Hpath, Hcache, Hfile.
    rewrite (int_value_in_range (png_width fp * 4)) by nia. run.
    assert (to_uint32 (png_height fp * to_uint32 (png_width fp * 4))
            = png_width fp * png_height fp * 4) as ->.
    { unfold to_uint32. rewrite (Z.mod_small (png_width fp * 4)) by nia.
      rewrite Z.mod_small by nia. lia. }
    rewrite Hdata. unfold xcb_generate_id. run.
    unfold pixmap_request in Hrefused.
    destruct (request_check h _) as [error |]; [| done]. run.
    by eexists _, _.
Qed.

Lemma Activate_survives_splash_failure_witness :
  let w := sample_window false false false false in
  (∃ h' t,
     Activate w no_file_world =
       Some (tt, set_activated true w, h',
             [BusConnect; Xcb (MapWindow (m_xcbWindow w)); Flush] ++ t)
     ∧ List.filter is_wait_or_drawing t = [])
  ∧ (∃ h' t,
       Activate w refusing_world =
         Some (tt, set_activated true w, h',
               [BusConnect; Xcb (MapWindow (m_xcbWindow w)); Flush] ++ t)
       ∧ List.filter is_wait_or_drawing t = []).
Proof.
  split.
  - apply (Activate_survives_splash_failure (sample_window false false false false)
             no_file_world); [reflexivity |].
    left. exists "splash.png"%string, "/home/o3de/Cache"%string.
    split; [reflexivity |]. split; reflexivity.
  - apply (Activate_survives_splash_failure (sample_window false false false false)
             refusing_world); [reflexivity |].
    right. exists {| png_width := 1; png_height := 1; png_rows := one_pixel |}.
    split.
    { exists "splash.png"%string, "/home/o3de/Cache"%string.
      split; [reflexivity |]. split; reflexivity. }
    split; [| discriminate].
    split; [cbn; lia |]. split; [cbn; lia |]. split; [cbn; lia |].
    intros y Hy. cbn in Hy. assert (y = 0) as -> by lia.
    exists [Byte.x10; Byte.x20; Byte.x30; Byte.x40]. split; [reflexivity | cbn; lia].
Defined.

(** X10. There is no timeout on the splash: when the image is uploaded and
    no exposure is among the events the connection delivers, Activate on a
    window that is not activated never returns. *)
Theorem Activate_waits_for_exposure (w : XcbNativeWindow) (h : World)
    (fp : png_image) :
  m_activated w = false →
  splash_file h fp → decoded_rgba fp →
  request_check h (pixmap_request w h fp) = None →
  no_exposure (event_queue h) →
  Activate w h = None.
Proof.
  intros Hoff Hfile Himage Hgranted Hnone.
  unfold Activate. run. rewrite Hoff. cbn [negb]. run.
  destruct (DrawSplash_uploads w h fp Hfile Himage Hgranted) as (data & _ & ->).
  by rewrite DrawSplash_wait_no_exposure.
Qed.

Lemma Activate_waits_for_exposure_witness :
  Activate (sample_window false false false false) no_exposure_world = None.
Proof.
  apply (Activate_waits_for_exposure (sample_window false false false false)
           no_exposure_world
           {| png_width := 1; png_height := 1; png_rows := one_pixel |}).
  - reflexivity.
  - exists "splash.png"%string, "/home/o3de/Cache"%string.
    split; [reflexivity |]. split; reflexivity.
  - split; [cbn; lia |]. split; [cbn; lia |]. split; [cbn; lia |].
    intros y Hy. cbn in Hy. assert (y = 0) as -> by lia.
    exists [Byte.x10; Byte.x20; Byte.x30; Byte.x40]. split; [reflexivity | cbn; lia].
  - reflexivity.
  - repeat (constructor; [discriminate |]). constructor.
Defined.

Lemma Activate_returns_activated (w w1 : XcbNativeWindow) (h h1 : World)
    (t1 : list Effect) :
  Activate w h = Some (tt, w1, h1, t1) →
  w1 = set_activated true w.
Proof.
  unfold Activate. run. destruct (m_activated w) eqn:Hactive; cbn [negb]; run.
  - intros [= <- <- <-]. by destruct w; cbn in *; subst.
  - destruct (DrawSplash w h) as [[[[[] w2] h2] t2] |] eqn:Hsplash; [| discriminate].
    apply DrawSplash_keeps_window in Hsplash as [-> _]. by intros [= <- <- <-].
Qed.

(** X11. Activate on a window that is activated presents nothing: after an
    Activate that returned, the window is activated, and as long as no
    Deactivate comes in between, a further Activate, in whatever state the
    server is by then, only connects to the event bus again; it does not
    map the window, does not read the settings, draws no splash and cannot
    wait. *)
Theorem Activate_while_activated (w w1 : XcbNativeWindow) (h h1 : World)
    (t1 : list Effect) :
  Activate w h = Some (tt, w1, h1, t1) →
  m_activated w1 = true
  ∧ ∀ h2, Activate w1 h2 = Some (tt, w1, h2, [BusConnect]).
Proof.
  intros Hfirst. apply Activate_returns_activated in Hfirst as ->.
  split; [reflexivity |]. intros h2. unfold Activate. by run.
Qed.

(** The first Activate presents the splash. *)
Lemma Activate_while_activated_witness :
  let w := sample_window false false false false in
  let h1 := set_event_queue [OtherEvent 9] (set_last_xid 4194306 splash_world) in
  Activate w splash_world
    = Some (tt, set_activated true w, h1,
            [BusConnect; Xcb (MapWindow 4194305); Flush;
             Xcb (CreatePixmap 24 4194306 4194305 1 1);
             Xcb (PutImage 4194306 4194304
                    {| image_width := 1; image_height := 1;
                       image_format := XCB_IMAGE_FORMAT_Z_PIXMAP;
                       image_depth := 24; image_size := 4;
                       image_data := [Byte.x30; Byte.x20; Byte.x10; Byte.xff] |}
                    0 0 0);
             Flush;
             WaitForEvent;
             WaitForEvent;
             Xcb (CopyArea 4194306 4194305 4194304 0 0 639 359 1280 720);
             Flush;
             Xcb (FreePixmap 4194306)])
  ∧ m_activated (set_activated true w) = true
  ∧ ∀ h2, Activate (set_activated true w) h2
          = Some (tt, set_activated true w, h2, [BusConnect]).
Proof.
  cbv zeta.
  assert (Activate (sample_window false false false false) splash_world
          = Some (tt, set_activated true (sample_window false false false false),
                  set_event_queue [OtherEvent 9] (set_last_xid 4194306 splash_world),
                  [BusConnect; Xcb (MapWindow 4194305); Flush;
                   Xcb (CreatePixmap 24 4194306 4194305 1 1);
                   Xcb (PutImage 4194306 4194304
                          {| image_width := 1; image_height := 1;
                             image_format := XCB_IMAGE_FORMAT_Z_PIXMAP;
                             image_depth := 24; image_size := 4;
                             image_data := [Byte.x30; Byte.x20; Byte.x10; Byte.xff] |}
                          0 0 0);
                   Flush;
                   WaitForEvent;
                   WaitForEvent;
                   Xcb (CopyArea 4194306 4194305 4194304 0 0 639 359 1280 720);
                   Flush;
                   Xcb (FreePixmap 4194306)])) as Hfirst
    by (vm_compute; reflexivity).
  split; [exact Hfirst |].
  exact (Activate_while_activated _ _ _ _ _ Hfirst).
Defined.

(** X12. Deactivate undoes Activate: on a window that was not activated, an
    Activate that returned followed by Deactivate gives back the window
    object of before, after one closed notification, the unmap request and
    a flush. *)
Theorem Activate_then_Deactivate (w w1 : XcbNativeWindow) (h h1 : World)
    (t1 : list Effect) :
  m_activated w = false →
  Activate w h = Some (tt, w1, h1, t1) →
  Deactivate w1 h1 =
    Some (tt, w, h1,
          [OnWindowClosed (m_xcbWindow w); Xcb (UnmapWindow (m_xcbWindow w));
           Flush; BusDisconnect]).
Proof.
  intros Hoff Hfirst. apply Activate_returns_activated in Hfirst as ->.
  rewrite Deactivate_activated by reflexivity.
  destruct w; cbn in *; subst. reflexivity.
Qed.

Lemma Activate_then_Deactivate_witness :
  let w := sample_window false false false false in
  Deactivate (set_activated true w) quiet_world =
    Some (tt, w, quiet_world,
          [OnWindowClosed (m_xcbWindow w); Xcb (UnmapWindow (m_xcbWindow w));
           Flush; BusDisconnect]).
Proof.
  apply (Activate_then_Deactivate (sample_window false false false false)
           (set_activated true (sample_window false false false false))
           quiet_world quiet_world
           [BusConnect; Xcb (MapWindow 4194305); Flush;
            Printf "SplashScreenImagePath not found\n"]);
    reflexivity.
Defined.

(** X13. The splash is centred also when the image is larger than the
    window: the subtraction of line 337 wraps as unsigned and the cast to
    the 16-bit coordinate undoes the wrap, so the copy goes to
    (m_width - width) / 2 and (m_height - height) / 2 rounded down, negative
    when the image is the larger one. *)
Theorem DrawSplash_wait_centred (pixmap width height : Z)
    (queue : list xcb_generic_event_t) (x : xcb_expose_event_t)
    (w : XcbNativeWindow) (h : World) :
  Z.land (exp_response_type x) (Z.lnot 128) = XCB_EXPOSE →
  - 2 ^ 16 <= m_width w - width < 2 ^ 16 →
  - 2 ^ 16 <= m_height w - height < 2 ^ 16 →
  DrawSplash_wait pixmap width height (ExposeEvent x :: queue) w h =
    Some (tt, w, set_event_queue queue h,
          [WaitForEvent;
           Xcb (CopyArea pixmap (m_xcbWindow w) (m_xcbGraphicContext w)
                  (to_int16 (exp_x x)) (to_int16 (exp_y x))
                  ((m_width w - width) / 2) ((m_height w - height) / 2)
                  (exp_width x) (exp_height x));
           Flush]).
Proof.
  intros Hcode Hdx Hdy.
  pose proof (DrawSplash_wait_exposure pixmap width height [] queue x w h
                ltac:(constructor) Hcode) as Hrun.
  cbn [app length replicate] in Hrun. rewrite Hrun. clear Hrun.
  assert (∀ d, - 2 ^ 16 <= d < 2 ^ 16 → to_int16 (to_uint32 d / 2) = d / 2)
    as Hcentre.
  { intros d Hd. unfold to_int16, to_uint32.
    destruct (decide (0 <= d)) as [Hpos | Hneg].
    - rewrite (Z.mod_small d) by lia.
      rewrite Z.mod_small; [lia |].
      pose proof (Z.div_pos d 2). assert (d / 2 < 2 ^ 15); [| lia].
      apply Z.div_lt_upper_bound; lia.
    - replace (d mod 2 ^ 32) with (d + 2 ^ 31 * 2).
      2:{ symmetry. rewrite <- (Z.mod_add d 1 (2 ^ 32)) by lia.
          apply Z.mod_small. lia. }
      rewrite Z.div_add by lia.
      replace (d / 2 + 2 ^ 31 + 2 ^ 15) with (d / 2 + 2 ^ 15 + 2 ^ 15 * 2 ^ 16) by lia.
      rewrite Z.mod_add by lia.
      assert (- 2 ^ 15 <= d / 2 < 0); [| rewrite Z.mod_small; lia].
      split; [apply Z.div_le_lower_bound; lia | apply Z.div_lt_upper_bound; lia]. }
  unfold splash_copy. rewrite !Hcentre by done. reflexivity.
Qed.

Lemma DrawSplash_wait_centred_witness :
  let w := sample_window false false false false in
  DrawSplash_wait 4194306 1920 1080 [ExposeEvent sample_exposure] w quiet_world =
    Some (tt, w, set_event_queue [] quiet_world,
          [WaitForEvent;
           Xcb (CopyArea 4194306 (m_xcbWindow w) (m_xcbGraphicContext w)
                  (to_int16 (exp_x sample_exposure)) (to_int16 (exp_y sample_exposure))
                  ((m_width w - 1920) / 2) ((m_height w - 1080) / 2)
                  (exp_width sample_exposure) (exp_height sample_exposure));
           Flush]).
Proof.
  apply (DrawSplash_wait_centred 4194306 1920 1080 [] sample_exposure
           (sample_window false false false false) quiet_world);
    [reflexivity | cbn; lia | cbn; lia].
Defined.

(** ** Rows that are not four bytes a pixel *)

Lemma for_loop_fails {S} (n i : nat) (body : Z → S → option S) (s : S) :
  (i < n)%nat → (∀ s', body (Z.of_nat i) s' = None) → for_loop n body s = None.
Proof.
  intros Hi Hfails. induction n as [| n IH]; [lia |]. cbn [for_loop].
  destruct (decide (i = n)) as [-> | Hne].
  - destruct (for_loop n body s); [apply Hfails | reflexivity].
  - rewrite IH by lia. reflexivity.
Qed.

Lemma put_pixel_beyond_row (width : Z) (row : list Byte.byte) (y x : Z)
    (data : list Byte.byte) :
  0 <= x → Z.of_nat (length row) <= x * 4 + 2 →
  put_pixel width row y x data = None.
Proof.
  intros Hx Hshort. unfold put_pixel.
  destruct (int_value (x * 4)) as [px |] eqn:Hpx; [| reflexivity].
  unfold int_value in Hpx. case_decide; [| discriminate].
  injection Hpx as <-. cbn [mbind option_bind].
  destruct (int_value (y * width)); [| reflexivity]. cbn [mbind option_bind].
  destruct (int_value _); [| reflexivity]. cbn [mbind option_bind].
  destruct (int_value _); [| reflexivity]. cbn [mbind option_bind].
  assert (load row (x * 4 + 2) = None) as ->; [| reflexivity].
  unfold load. case_decide; [apply lookup_ge_None_2; lia | reflexivity].
Qed.

(** X14. The composition takes four bytes a source pixel without looking at
    the colour type: on an image two or more pixels wide whose first row was
    decoded with three bytes a pixel (RGB, no alpha) it reads beyond the end
    of that row, so it has no defined result. *)
Theorem compose_raster_three_bytes_a_pixel (width height : Z)
    (row_pointers : list (list Byte.byte)) (row data : list Byte.byte) :
  2 <= width → 1 <= height →
  row_pointers !! 0%nat = Some row →
  Z.of_nat (length row) = width * 3 →
  compose_raster width height row_pointers data = None.
Proof.
  intros Hwidth Hheight Hrow Hlength. unfold compose_raster.
  apply (for_loop_fails (Z.to_nat height) 0); [lia |].
  intros data'. cbn beta. rewrite Nat2Z.id, Hrow. cbn [mbind option_bind].
  apply (for_loop_fails (Z.to_nat width) (Z.to_nat (width - 1))); [lia |].
  intros data''. cbn beta. apply put_pixel_beyond_row; lia.
Qed.

Lemma compose_raster_three_bytes_a_pixel_witness :
  compose_raster 2 1 two_rgb_pixels (malloc quiet_world 8) = None.
Proof.
  apply (compose_raster_three_bytes_a_pixel 2 1 two_rgb_pixels
           [Byte.x10; Byte.x20; Byte.x30; Byte.x11; Byte.x21; Byte.x31]);
    [lia | lia | reflexivity | reflexivity].
Defined.

(** ** The refresh of the state flags *)

(** X15. A successful state query replaces the three flags, it does not
    merge into them: the refreshed window is the same from any previous
    flags, it differs from the window of before in the three flags only,
    and a second refresh against the same reply changes nothing. *)
Theorem GetWMStates_replaces_flags (w : XcbNativeWindow) (h : World)
    (r : xcb_get_property_reply_t) (fullscreen horz vert : bool) :
  query_succeeded h r →
  ∃ w1 f1 h1 v1,
    GetWMStates w h = Some (tt, w1, h, [Xcb (state_query w)])
    ∧ w1 = with_flags f1 h1 v1 w
    ∧ GetWMStates (with_flags fullscreen horz vert w) h
        = Some (tt, w1, h, [Xcb (state_query w)])
    ∧ GetWMStates w1 h = Some (tt, w1, h, [Xcb (state_query w)]).
Proof.
  intros Hok. rewrite !(GetWMStates_succeeded _ h r Hok).
  eexists _, _, _, _. split; [reflexivity |]. split; [reflexivity |].
  split; [by destruct w |].
  rewrite (GetWMStates_succeeded _ h r Hok). by destruct w.
Qed.

Lemma GetWMStates_replaces_flags_witness :
  let w := sample_window true false true false in
  let h := sample_world (Some fullscreen_vert_reply) None None [] in
  ∃ w1 f1 h1 v1,
    GetWMStates w h = Some (tt, w1, h, [Xcb (state_query w)])
    ∧ w1 = with_flags f1 h1 v1 w
    ∧ GetWMStates (with_flags false false false w) h
        = Some (tt, w1, h, [Xcb (state_query w)])
    ∧ GetWMStates w1 h = Some (tt, w1, h, [Xcb (state_query w)]).
Proof.
  apply (GetWMStates_replaces_flags (sample_window true false true false)
           (sample_world (Some fullscreen_vert_reply) None None [])
           fullscreen_vert_reply false false false).
  repeat split.
Defined.

(** ** The fullscreen request *)

(** X16. SetFullScreenState sends, in this order, the state query, the
    fullscreen message to the root, the write of the bypass property (32
    words: the hint, a 0, then the 30 words that lie behind the hint's
    variable in memory), and,
    only when it leaves fullscreen with a maximize flag set after the
    refresh, the second message. When it returns, the window differs from the
    refreshed one in the fullscreen flag alone: the two maximize flags are
    not cleared, also when the second message was sent. *)
Theorem SetFullScreenState_requests (target : bool) (w w1 : XcbNativeWindow)
    (h : World) (t1 : list Effect) :
  GetWMStates w h = Some (tt, w1, h, t1) →
  ∃ t,
    SetFullScreenState target w h = Some (tt, set_fullscreenState target w1, h, t)
    ∧ requests t =
        [state_query w;
         SendEvent 1 (root (m_xcbRootScreen w)) root_event_mask
           (fullscreen_message w target);
         bypass_write w h (if m_fullscreenState w1 then 1 else 0)]
        ++ (if negb target && (m_horizontalyMaximized w1 || m_verticallyMaximized w1)
            then [SendEvent 1 (root (m_xcbRootScreen w)) root_event_mask
                    (maximize_message w)]
            else [])
    ∧ m_horizontalyMaximized (set_fullscreenState target w1)
        = m_horizontalyMaximized w1
    ∧ m_verticallyMaximized (set_fullscreenState target w1)
        = m_verticallyMaximized w1.
Proof.
  intros Hrefresh. rewrite (SetFullScreenState_run _ _ _ _ _ Hrefresh).
  destruct (GetWMStates_returns w h) as (w1' & t1' & Heq & Hreq & Hwin & Hscr & Hatoms).
  rewrite Hrefresh in Heq. injection Heq as <- <-.
  eexists. split; [reflexivity |]. split; [| by split].
  rewrite requests_app, Hreq.
  unfold state_query, bypass_write, fullscreen_message, maximize_message.
  rewrite Hwin, Hscr, Hatoms.
  by destruct (negb target && (m_horizontalyMaximized w1 || m_verticallyMaximized w1)).
Qed.

Lemma SetFullScreenState_requests_witness :
  let w := sample_window true false false false in
  let w1 := sample_window true true false true in
  let h := sample_world (Some fullscreen_vert_reply) None None [] in
  ∃ t,
    SetFullScreenState false w h = Some (tt, set_fullscreenState false w1, h, t)
    ∧ requests t =
        [state_query w;
         SendEvent 1 (root (m_xcbRootScreen w)) root_event_mask
           (fullscreen_message w false);
         bypass_write w h (if m_fullscreenState w1 then 1 else 0)]
        ++ (if negb false && (m_horizontalyMaximized w1 || m_verticallyMaximized w1)
            then [SendEvent 1 (root (m_xcbRootScreen w)) root_event_mask
                    (maximize_message w)]
            else [])
    ∧ m_horizontalyMaximized (set_fullscreenState false w1)
        = m_horizontalyMaximized w1
    ∧ m_verticallyMaximized (set_fullscreenState false w1)
        = m_verticallyMaximized w1.
Proof.
  apply (SetFullScreenState_requests false (sample_window true false false false)
           (sample_window true true false true)
           (sample_world (Some fullscreen_vert_reply) None None [])
           [Xcb (GetProperty 0 4194305 74 XCB_ATOM_ATOM 0 1024)]).
  reflexivity.
Defined.

(** X17. While the state query fails, the bypass hint runs one call behind:
    the flag a call stores is not refreshed at the start of the next call,
    so the second of two calls in a row writes, as the first of its 32
    words, the hint of the first call's target, whatever its own target
    is. *)
Theorem SetFullScreenState_hint_one_call_behind (first second : bool)
    (w : XcbNativeWindow) (h : World) :
  query_failed h →
  ∃ w1 t1 w2 t2,
    SetFullScreenState first w h = Some (tt, w1, h, t1)
    ∧ SetFullScreenState second w1 h = Some (tt, w2, h, t2)
    ∧ bypass_hints w t2 = [(if first then 1 else 0) :: 0 :: words_behind h 30]
    ∧ m_fullscreenState w2 = second.
Proof.
  intros Hfailed.
  destruct (GetWMStates_query_failed w h Hfailed) as (t & Hrefresh & _).
  destruct (GetWMStates_query_failed (set_fullscreenState first w) h Hfailed)
    as (t' & Hrefresh' & _).
  destruct (SetFullScreenState_hints second _ _ h t' Hrefresh') as (t2 & Hrun & Hhint).
  eexists _, _, _, t2.
  split; [apply (SetFullScreenState_run first w w h t Hrefresh) |].
  split; [exact Hrun |]. split; [| reflexivity].
  exact Hhint.
Qed.

Lemma SetFullScreenState_hint_one_call_behind_witness :
  let w := sample_window true false false false in
  ∃ w1 t1 w2 t2,
    SetFullScreenState true w quiet_world = Some (tt, w1, quiet_world, t1)
    ∧ SetFullScreenState false w1 quiet_world = Some (tt, w2, quiet_world, t2)
    ∧ bypass_hints w t2 = [(if true then 1 else 0) :: 0 :: words_behind quiet_world 30]
    ∧ m_fullscreenState w2 = false.
Proof.
  apply (SetFullScreenState_hint_one_call_behind true false
           (sample_window true false false false) quiet_world).
  left. reflexivity.
Defined.

(** ** Initialising the atoms *)

Ltac step_GetAtom_returns :=
  match goal with
  | |- context [GetAtom ?name ?w ?h] =>
      let atom := fresh "atom" in
      let h' := fresh "h" in
      let t := fresh "t" in
      let Heq := fresh "Heq" in
      let Hreq := fresh "Hreq" in
      let Herr := fresh "Herr" in
      destruct (GetAtom_returns name w h) as (atom & h' & t & Heq & Hreq & Herr);
      rewrite Heq; clear Heq Herr; run
  end.

(** X18. InitializeAtoms always returns, whatever the server answers, and
    changes nothing of the window object but the thirteen atoms. It asks
    for the thirteen names once each, in the order of the source, and
    writes one property: WM_PROTOCOLS on its window, holding the
    delete-window and ping atoms it has just stored, which are the two
    atoms the event dispatch compares against. *)
Theorem InitializeAtoms_outcome (w : XcbNativeWindow) (h : World) :
  ∃ a h' t,
    InitializeAtoms w h = Some (tt, set_atoms a w, h', t)
    ∧ interned_names t = atom_names
    ∧ property_writes t =
        [ChangeProperty false XCB_PROP_MODE_REPLACE (m_xcbWindow w) (WM_PROTOCOLS a)
           XCB_ATOM_ATOM 32 2 [WM_DELETE_WINDOW a; _NET_WM_PING a]].
Proof.
  unfold InitializeAtoms. run. do 13 step_GetAtom_returns.
  eexists _, _, _. split; [reflexivity |].
  unfold interned_names, property_writes. rewrite !requests_app.
  repeat match goal with H : requests _ = _ |- _ => rewrite H; clear H end.
  split; reflexivity.
Qed.

Lemma GetAtom_dead (atomName : string) (w : XcbNativeWindow) (h : World) :
  has_error h = true →
  GetAtom atomName w h =
    Some (XCB_NONE, w, h,
          [Xcb (InternAtom 0 (to_uint16 (Z.of_nat (String.length atomName))) atomName);
           Trace XcbErrorWindow "Unable to query xcb '%s' atom"]).
Proof.
  intros Hdead. unfold GetAtom, xcb_intern_atom_reply. run. rewrite Hdead. by run.
Qed.

(** X19. Atom resolution fails softly: on a connection that was shut down
    InitializeAtoms still returns, having asked for all thirteen names and
    logged each failure, and every one of the thirteen atoms is XCB_NONE. *)
Theorem InitializeAtoms_dead_connection (w : XcbNativeWindow) (h : World) :
  has_error h = true →
  ∃ t,
    InitializeAtoms w h = Some (tt, set_atoms no_atoms w, h, t)
    ∧ interned_names t = atom_names
    ∧ length (List.filter (λ e, match e with Trace _ _ => true | _ => false end) t)
        = 13%nat.
Proof.
  intros Hdead. unfold InitializeAtoms. run.
  repeat (rewrite (GetAtom_dead _ w h Hdead); run).
  eexists. split; [reflexivity |]. split; reflexivity.
Qed.

Lemma InitializeAtoms_dead_connection_witness :
  let w := sample_window false false false false in
  ∃ t,
    InitializeAtoms w dead_world = Some (tt, set_atoms no_atoms w, dead_world, t)
    ∧ interned_names t = atom_names
    ∧ length (List.filter (λ e, match e with Trace _ _ => true | _ => false end) t)
        = 13%nat.
Proof.
  apply (InitializeAtoms_dead_connection (sample_window false false false false)
           dead_world).
  reflexivity.
Defined.

Lemma GetAtom_known (atomName : string) (atom : Z) (w : XcbNativeWindow) (h : World) :
  has_error h = false →
  atom_table h !! interned_key atomName = Some atom →
  GetAtom atomName w h =
    Some (atom, w, h,
          [Xcb (InternAtom 0 (to_uint16 (Z.of_nat (String.length atomName))) atomName)]).
Proof.
  intros Hlive Hknown. unfold GetAtom, xcb_intern_atom_reply. run.
  rewrite Hlive. run. fold (interned_key atomName). rewrite Hknown. by run.
Qed.

Ltac step_GetAtom_known :=
  match goal with
  | |- context [GetAtom ?name ?w ?h] =>
      erewrite (GetAtom_known name _ w h) by eassumption; run
  end.

(** X20. On a live connection InitializeAtoms can be repeated: a second run
    finds every name in the server's table, stores the same thirteen atoms
    and leaves the table as the first run left it. *)
Theorem InitializeAtoms_again (w : XcbNativeWindow) (h : World) :
  has_error h = false → atom_table_ok h →
  ∃ w1 h1 t,
    InitializeAtoms w h = Some (tt, w1, h1, t)
    ∧ InitializeAtoms w1 h1 = Some (tt, w1, h1, t).
Proof.
  intros Hlive Hok. unfold InitializeAtoms at 1. run.
  step_GetAtom Hlive Hok. step_GetAtom Hlive0 Hok0.
  step_GetAtom Hlive1 Hok1. step_GetAtom Hlive2 Hok2.
  step_GetAtom Hlive3 Hok3. step_GetAtom Hlive4 Hok4.
  step_GetAtom Hlive5 Hok5. step_GetAtom Hlive6 Hok6.
  step_GetAtom Hlive7 Hok7. step_GetAtom Hlive8 Hok8.
  step_GetAtom Hlive9 Hok9. step_GetAtom Hlive10 Hok10.
  step_GetAtom Hlive11 Hok11.
  eexists _, _, _. split; [reflexivity |].
  unfold InitializeAtoms. run. do 13 step_GetAtom_known. reflexivity.
Qed.

Lemma InitializeAtoms_again_witness :
  ∃ w1 h1 t,
    InitializeAtoms (sample_window false false false false) quiet_world
      = Some (tt, w1, h1, t)
    ∧ InitializeAtoms w1 h1 = Some (tt, w1, h1, t).
Proof.
  apply (InitializeAtoms_again (sample_window false false false false) quiet_world);
    [reflexivity |].
  split; [intros k a Hk | intros k k' a Hk _];
    cbn in Hk; rewrite lookup_empty in Hk; discriminate.
Defined.

(** ** The title *)

Lemma strncpy_copies (dest src : list Z) (count : nat) :
  (count ≤ length dest)%nat → (count ≤ length src)%nat →
  Forall (λ c, c ≠ 0) (take count src) →
  strncpy dest src count = take count src ++ drop count dest.
Proof.
  revert dest src. induction count as [| count IH]; intros dest src Hdest Hsrc Hchars.
  - by destruct dest.
  - destruct dest as [| d dest]; [cbn in Hdest; lia |].
    destruct src as [| c src]; [cbn in Hsrc; lia |].
    cbn [take] in Hchars. apply Forall_cons in Hchars as [Hc Hchars].
    cbn [strncpy take drop app]. apply Z.eqb_neq in Hc. rewrite Hc.
    f_equal. apply IH; [cbn in Hdest; lia | cbn in Hsrc; lia | done].
Qed.

(** X21. SetWindowTitle writes the title twice into WM_CLASS, each copy
    followed by its terminator, so that instance name and class name of the
    window are both the title; the length written is twice the title's
    length plus two. The title holds no terminator of its own. *)
Theorem SetWindowTitle_doubles (azstrncpy : list Z → Z → list Z → Z → list Z)
    (title : list Z) (w : XcbNativeWindow) (h : World) :
  copies_like_strncpy azstrncpy →
  Forall (λ c, c ≠ 0) title →
  SetWindowTitle azstrncpy title w h =
    Some (tt, w, h,
          [Xcb (ChangeProperty false XCB_PROP_MODE_REPLACE (m_xcbWindow w)
                  XCB_ATOM_WM_CLASS XCB_ATOM_STRING 8
                  (to_uint32 ((Z.of_nat (length title) + 1) * 2))
                  (title ++ [0] ++ title ++ [0]))]).
Proof.
  intros Hcopy Hchars. unfold SetWindowTitle. run.
  set (n := length title).
  assert (take n (title ++ [0]) = title) as Htake by apply take_app_length.
  replace (Z.to_nat ((Z.of_nat n + 1) * 2)) with (n + (n + 2))%nat by lia.
  replace (Z.to_nat (Z.of_nat n + 1)) with (S n) by lia.
  rewrite (Hcopy (replicate (n + (n + 2)) 0) _ (title ++ [0]) n);
    [| rewrite length_replicate; lia | rewrite length_app; cbn; lia
     | by rewrite Htake].
  rewrite Htake, replicate_add, drop_app_length'; [| by rewrite length_replicate].
  replace (n + 2)%nat with (1 + (n + 1))%nat by lia.
  rewrite (replicate_add 1 (n + 1)). cbn [replicate app].
  replace (S n) with (length (title ++ [0])) by (rewrite length_app; cbn; lia).
  replace (title ++ 0 :: replicate (n + 1) 0)
    with ((title ++ [0]) ++ replicate (n + 1) 0) by (by rewrite <- app_assoc).
  rewrite take_app_length, drop_app_length.
  rewrite (Hcopy (replicate (n + 1) 0) _ (title ++ [0]) n);
    [| rewrite length_replicate; lia | rewrite length_app; cbn; lia
     | by rewrite Htake].
  rewrite Htake, replicate_add, drop_app_length'; [| by rewrite length_replicate].
  by rewrite <- !app_assoc.
Qed.

Lemma SetWindowTitle_doubles_witness :
  let w := sample_window false false false false in
  SetWindowTitle (λ dest _ src count, strncpy dest src (Z.to_nat count))
    sample_title w quiet_world =
    Some (tt, w, quiet_world,
          [Xcb (ChangeProperty false XCB_PROP_MODE_REPLACE (m_xcbWindow w)
                  XCB_ATOM_WM_CLASS XCB_ATOM_STRING 8
                  (to_uint32 ((Z.of_nat (length sample_title) + 1) * 2))
                  (sample_title ++ [0] ++ sample_title ++ [0]))]).
Proof.
  apply (SetWindowTitle_doubles (λ dest _ src count, strncpy dest src (Z.to_nat count))
           sample_title (sample_window false false false false) quiet_world).
  - intros dest destSize src count Hdest Hsrc Hchars.
    rewrite Nat2Z.id. by apply strncpy_copies.
  - repeat (constructor; [discriminate |]). constructor.
Defined.

(** ** Creation and destruction *)

Ltac run_lifecycle :=
  repeat (progress (unfold mbind, mret, L_bind, L_ret, method, setup, M_bind, M_ret,
                      emit, get_this, get_world, modify_this, modify_world,
                      xcb_flush, xcb_send_event, xcb_generate_id in *;
                    cbn beta iota in *)).

Lemma InitializeAtoms_returns (w : XcbNativeWindow) (h : World) :
  ∃ a h' t,
    InitializeAtoms w h = Some (tt, set_atoms a w, h', t)
    ∧ requests t = initialize_requests (m_xcbWindow w) a.
Proof.
  unfold InitializeAtoms. run. do 13 step_GetAtom_returns.
  eexists _, _, _. split; [reflexivity |].
  rewrite !requests_app.
  repeat match goal with H : requests _ = _ |- _ => rewrite H; clear H end.
  reflexivity.
Qed.

Lemma border_width_test (bordered resizeable mask : Z) :
  (if negb (Z.land mask bordered =? 0) || negb (Z.land mask resizeable =? 0)
   then s_DefaultXcbWindowBorderWidth else 0)
  = border_width bordered resizeable mask.
Proof.
  unfold border_width.
  destruct (Z.eqb_spec (Z.land mask bordered) 0),
           (Z.eqb_spec (Z.land mask resizeable) 0);
    case_decide; cbn; try reflexivity; tauto.
Qed.

Lemma SetWindowTitle_returns (azstrncpy : list Z → Z → list Z → Z → list Z)
    (title : list Z) (w : XcbNativeWindow) (h : World) :
  SetWindowTitle azstrncpy title w h =
    Some (tt, w, h, [Xcb (title_write azstrncpy title (m_xcbWindow w))]).
Proof. reflexivity. Qed.

(** InitWindow around its call of InitializeAtoms: [w3] is the window
    object as InitializeAtoms returns it. *)
Lemma InitWindow_run (azstrncpy : list Z → Z → list Z → Z → list Z)
    (cast : Z → Z) (bordered resizeable : Z)
    (setup_roots : xcb_screen_t) (pid : Z) (title : list Z)
    (geometry : WindowGeometry) (styleMasks : WindowStyleMasks)
    (w w3 : XcbNativeWindow) (h h3 : World) (t3 : list Effect) :
  InitializeAtoms (created_window setup_roots geometry h w (atoms w))
    (set_last_xid (last_xid h + 1 + 1) h) = Some (tt, w3, h3, t3) →
  InitWindow azstrncpy cast bordered resizeable setup_roots pid title geometry
    styleMasks w h =
    Some (tt, w3, h3,
          map Setup (creation_requests cast bordered resizeable setup_roots
                       geometry styleMasks h)
          ++ map During
               ([Xcb (title_write azstrncpy title (last_xid h + 1 + 1))] ++ t3
                ++ [Xcb (SendEvent 1 (root (m_xcbRootScreen w3)) root_event_mask
                           (frame_extents_message w3));
                    Xcb (pid_write w3 pid);
                    Flush])).
Proof.
  intros Hatoms. unfold InitWindow. run_lifecycle.
  rewrite border_width_test, SetWindowTitle_returns.
  run_lifecycle.
  match goal with
  | |- context [InitializeAtoms ?w2 ?h2] =>
      change (InitializeAtoms w2 h2)
        with (InitializeAtoms (created_window setup_roots geometry h w (atoms w))
                (set_last_xid (last_xid h + 1 + 1) h))
  end.
  rewrite Hatoms. run_lifecycle.
  unfold creation_requests. rewrite !map_app. cbn [map app]. reflexivity.
Qed.

Lemma setup_requests_split (l : list SetupRequest) (t : list Effect) :
  setup_requests (map Setup l ++ map During t) = l.
Proof.
  unfold setup_requests. induction l as [| r l IH]; simpl.
  - induction t as [| e t IH]; simpl; [reflexivity | exact IH].
  - f_equal. exact IH.
Qed.

Lemma setup_requests_app (t1 t2 : list LifecycleEffect) :
  setup_requests (t1 ++ t2) = setup_requests t1 ++ setup_requests t2.
Proof. apply omap_app. Qed.

Lemma method_effects_split (l : list SetupRequest) (t : list Effect) :
  method_effects (map Setup l ++ map During t) = t.
Proof.
  unfold method_effects. induction l as [| r l IH]; simpl; [| exact IH].
  induction t as [| e t IH]; simpl; [reflexivity |]. f_equal. exact IH.
Qed.

(** X22. InitWindow always returns. It stores the geometry exactly as it
    was given, whatever the 16-bit casts of the creation request make of
    it, takes the next two resource ids for the graphics context and the
    window, and leaves activation and the three state flags as they were.
    Among the requests of the methods it calls there is no map request: a
    created window is not shown before Activate. *)
Theorem InitWindow_stores (azstrncpy : list Z → Z → list Z → Z → list Z)
    (cast : Z → Z) (bordered resizeable : Z)
    (setup_roots : xcb_screen_t) (pid : Z) (title : list Z)
    (geometry : WindowGeometry) (styleMasks : WindowStyleMasks)
    (w : XcbNativeWindow) (h : World) :
  ∃ a h' t,
    InitWindow azstrncpy cast bordered resizeable setup_roots pid title geometry
      styleMasks w h = Some (tt, created_window setup_roots geometry h w a, h', t)
    ∧ List.filter is_map_request (requests (method_effects t)) = [].
Proof.
  destruct (InitializeAtoms_returns (created_window setup_roots geometry h w (atoms w))
              (set_last_xid (last_xid h + 1 + 1) h)) as (a & h3 & t3 & Hatoms & Hreq).
  exists a, h3. eexists.
  split; [exact (InitWindow_run azstrncpy cast bordered resizeable setup_roots pid
                   title geometry styleMasks w _ h h3 t3 Hatoms) |].
  rewrite method_effects_split, !requests_app, Hreq. reflexivity.
Qed.

(** X23. The requests of InitWindow, in order. Its effects are the two
    creation requests and nothing else before them or between them: the
    graphics context and the window are created under the root of the
    screen, the window with a border of 4 when the style has the bordered
    or the resizeable bit and of 0 otherwise. All other effects follow;
    their requests are the title, the requests of InitializeAtoms, the
    frame-extents message, sent to the root for the new window under the
    atom resolved just before, and the process id under the atom
    _NET_WM_PID. The last effect is a flush. *)
Theorem InitWindow_requests (azstrncpy : list Z → Z → list Z → Z → list Z)
    (cast : Z → Z) (bordered resizeable : Z)
    (setup_roots : xcb_screen_t) (pid : Z) (title : list Z)
    (geometry : WindowGeometry) (styleMasks : WindowStyleMasks)
    (w : XcbNativeWindow) (h : World) :
  ∃ w' h' t,
    InitWindow azstrncpy cast bordered resizeable setup_roots pid title geometry
      styleMasks w h =
      Some (tt, w', h',
            map Setup (creation_requests cast bordered resizeable setup_roots
                         geometry styleMasks h)
            ++ map During t)
    ∧ requests t =
        title_write azstrncpy title (m_xcbWindow w')
        :: initialize_requests (m_xcbWindow w') (atoms w')
        ++ [SendEvent 1 (root setup_roots) root_event_mask (frame_extents_message w');
            pid_write w' pid]
    ∧ last t = Some Flush.
Proof.
  destruct (InitializeAtoms_returns (created_window setup_roots geometry h w (atoms w))
              (set_last_xid (last_xid h + 1 + 1) h)) as (a & h3 & t3 & Hatoms & Hreq).
  eexists _, h3, _.
  split; [exact (InitWindow_run azstrncpy cast bordered resizeable setup_roots pid
                   title geometry styleMasks w _ h h3 t3 Hatoms) |].
  split.
  - rewrite !requests_app, Hreq. reflexivity.
  - change [?a; ?b; Flush] with ([a; b] ++ [Flush]).
    rewrite !app_assoc. apply last_snoc.
Qed.

(** X24. A window created on a live connection has thirteen different
    atoms. So the atoms the state refresh and the event dispatch tell apart
    are different tokens: fullscreen, maximized-horizontal and
    maximized-vertical, and delete-window and ping. *)
Theorem InitWindow_live (azstrncpy : list Z → Z → list Z → Z → list Z)
    (cast : Z → Z) (bordered resizeable : Z)
    (setup_roots : xcb_screen_t) (pid : Z) (title : list Z)
    (geometry : WindowGeometry) (styleMasks : WindowStyleMasks)
    (w : XcbNativeWindow) (h : World) :
  has_error h = false → atom_table_ok h →
  ∃ w' h' t,
    InitWindow azstrncpy cast bordered resizeable setup_roots pid title geometry
      styleMasks w h = Some (tt, w', h', t)
    ∧ NoDup (atom_values (atoms w'))
    ∧ _NET_WM_STATE_MAXIMIZED_HORZ (atoms w') ≠ _NET_WM_STATE_FULLSCREEN (atoms w')
    ∧ _NET_WM_STATE_MAXIMIZED_VERT (atoms w') ≠ _NET_WM_STATE_FULLSCREEN (atoms w')
    ∧ _NET_WM_STATE_MAXIMIZED_VERT (atoms w')
        ≠ _NET_WM_STATE_MAXIMIZED_HORZ (atoms w')
    ∧ _NET_WM_PING (atoms w') ≠ WM_DELETE_WINDOW (atoms w').
Proof.
  intros Hlive Hok.
  destruct (InitializeAtoms_live (created_window setup_roots geometry h w (atoms w))
              (set_last_xid (last_xid h + 1 + 1) h) Hlive Hok)
    as (w3 & h3 & t3 & Hatoms & _ & Hdistinct).
  exists w3, h3. eexists.
  split; [exact (InitWindow_run azstrncpy cast bordered resizeable setup_roots pid
                   title geometry styleMasks w w3 h h3 t3 Hatoms) |].
  split; [done |]. by apply distinct_state_atoms.
Qed.

Lemma atom_table_ok_empty (h : World) : atom_table h = ∅ → atom_table_ok h.
Proof.
  intros Hempty.
  split; [intros k a Hk | intros k k' a Hk _];
    rewrite Hempty, lookup_empty in Hk; discriminate.
Qed.

Lemma InitWindow_live_witness :
  ∃ w' h' t,
    InitWindow (λ dest _ src count, strncpy dest src (Z.to_nat count)) no_cast
      sample_bordered sample_resizeable sample_screen 4711 sample_title
      sample_geometry (sample_style 0)
      (sample_window false false false false) quiet_world = Some (tt, w', h', t)
    ∧ NoDup (atom_values (atoms w'))
    ∧ _NET_WM_STATE_MAXIMIZED_HORZ (atoms w') ≠ _NET_WM_STATE_FULLSCREEN (atoms w')
    ∧ _NET_WM_STATE_MAXIMIZED_VERT (atoms w') ≠ _NET_WM_STATE_FULLSCREEN (atoms w')
    ∧ _NET_WM_STATE_MAXIMIZED_VERT (atoms w')
        ≠ _NET_WM_STATE_MAXIMIZED_HORZ (atoms w')
    ∧ _NET_WM_PING (atoms w') ≠ WM_DELETE_WINDOW (atoms w').
Proof.
  apply (InitWindow_live (λ dest _ src count, strncpy dest src (Z.to_nat count))
           no_cast sample_bordered sample_resizeable sample_screen 4711
           sample_title sample_geometry (sample_style 0)
           (sample_window false false false false) quiet_world);
    [reflexivity | by apply atom_table_ok_empty].
Defined.

(** X25. The destructor destroys the window InitWindow created and nothing
    else: after InitWindow on a connection whose resource ids are positive
    it sends one destroy request, for the id of the creation request; the
    graphics context gets no request of its own. *)
Theorem InitWindow_then_destructor (azstrncpy : list Z → Z → list Z → Z → list Z)
    (cast : Z → Z) (bordered resizeable : Z)
    (setup_roots : xcb_screen_t) (pid : Z) (title : list Z)
    (geometry : WindowGeometry) (styleMasks : WindowStyleMasks)
    (w : XcbNativeWindow) (h : World) :
  0 <= last_xid h →
  ∃ w' h' t,
    InitWindow azstrncpy cast bordered resizeable setup_roots pid title geometry
      styleMasks w h = Some (tt, w', h', t)
    ∧ XcbNativeWindow_destructor w' h' =
        Some (tt, w', h', [Setup (DestroyWindow (last_xid h + 1 + 1))])
    ∧ setup_requests (t ++ [Setup (DestroyWindow (last_xid h + 1 + 1))]) =
        creation_requests cast bordered resizeable setup_roots geometry styleMasks h
        ++ [DestroyWindow (last_xid h + 1 + 1)].
Proof.
  intros Hids.
  destruct (InitializeAtoms_returns (created_window setup_roots geometry h w (atoms w))
              (set_last_xid (last_xid h + 1 + 1) h)) as (a & h3 & t3 & Hatoms & Hreq).
  eexists _, h3, _.
  split; [exact (InitWindow_run azstrncpy cast bordered resizeable setup_roots pid
                   title geometry styleMasks w _ h h3 t3 Hatoms) |].
  split.
  - unfold XcbNativeWindow_destructor. run_lifecycle.
    cbn [m_xcbWindow set_atoms created_window].
    assert ((XCB_NONE =? last_xid h + 1 + 1) = false) as ->; [| reflexivity].
    apply Z.eqb_neq. unfold XCB_NONE. lia.
  - by rewrite setup_requests_app, setup_requests_split.
Qed.

Lemma InitWindow_then_destructor_witness :
  ∃ w' h' t,
    InitWindow (λ dest _ src count, strncpy dest src (Z.to_nat count)) no_cast
      sample_bordered sample_resizeable sample_screen 4711 sample_title
      sample_geometry (sample_style 1)
      (sample_window false false false false) quiet_world = Some (tt, w', h', t)
    ∧ XcbNativeWindow_destructor w' h' =
        Some (tt, w', h', [Setup (DestroyWindow (last_xid quiet_world + 1 + 1))])
    ∧ setup_requests (t ++ [Setup (DestroyWindow (last_xid quiet_world + 1 + 1))]) =
        creation_requests no_cast sample_bordered sample_resizeable sample_screen
          sample_geometry (sample_style 1) quiet_world
        ++ [DestroyWindow (last_xid quiet_world + 1 + 1)].
Proof.
  apply (InitWindow_then_destructor
           (λ dest _ src count, strncpy dest src (Z.to_nat count)) no_cast
           sample_bordered sample_resizeable sample_screen 4711 sample_title
           sample_geometry (sample_style 1)
           (sample_window false false false false) quiet_world).
  cbn. lia.
Defined.

Example InitWindow_sample_border :
  border_width sample_bordered sample_resizeable 0 = 0
  ∧ border_width sample_bordered sample_resizeable 1 = 4
  ∧ border_width sample_bordered sample_resizeable 2 = 4
  ∧ border_width sample_bordered sample_resizeable 4 = 0.
Proof. repeat split. Qed.

(** ** The stored fullscreen flag *)

(** X26. The fullscreen flag is optimistic. GetFullScreenState right after
    SetFullScreenState returns the requested target, whatever the window
    manager does with the request; and the next successful refresh
    overwrites the flag with what the window manager reports: if the
    fullscreen atom is not in its list, the flag is false again. *)
Theorem SetFullScreenState_then_get (target : bool) (w : XcbNativeWindow) (h : World) :
  ∃ w' t,
    SetFullScreenState target w h = Some (tt, w', h, t)
    ∧ GetFullScreenState w' h = Some (target, w', h, [])
    ∧ ∀ r, query_succeeded h r →
        _NET_WM_STATE_FULLSCREEN (atoms w) ∉ gpr_value r →
        ∃ w'' t', GetWMStates w' h = Some (tt, w'', h, t')
                  ∧ m_fullscreenState w'' = false.
Proof.
  destruct (GetWMStates_returns w h) as (w1 & t1 & Hrefresh & _ & _ & _ & Hatoms).
  rewrite (SetFullScreenState_run target w w1 h t1 Hrefresh).
  eexists _, _. split; [reflexivity |]. split; [reflexivity |].
  intros r Hok Habsent. rewrite (GetWMStates_succeeded _ h r Hok).
  eexists _, _. split; [reflexivity |].
  cbn [refreshed with_flags m_fullscreenState set_verticallyMaximized
       set_horizontalyMaximized set_fullscreenState atoms].
  rewrite Hatoms. apply not_true_is_false. unfold is_fullscreen.
  intros Hin. apply Habsent. by apply existsb_eqb_elem_of.
Qed.
